(** * Verification of the local NLP trading engine ([local_analyzer.py])

    A shallow embedding of the analysis and signal engine: the lexicon
    sentiment analyzer, the dynamic resolver and the company detector,
    the theme mapper, the exchange/price filter, the technical analyzer,
    the signal generator and the orchestrator, with the three TTL caches
    and the market-data collaborators as explicit state and environment;
    and of the paper-trading functions of [app.py] that act on its
    recommendations.

    Numbers.  Python floats are modelled by exact numbers: rationals [Q]
    where the code only adds, multiplies, divides and rounds (sentiment,
    prices, the portfolio), and reals [R] where it calls [math.exp], [math.log] or
    [math.tanh] (technical analyzer, signal generator).  Rounding error,
    overflow, underflow and NaN of IEEE doubles are outside the model.

    Text.  A Python [str] is modelled by [string], one [ascii] per
    character; [str.lower] maps A-Z to a-z and leaves the rest alone. *)

From Stdlib Require Import ZArith QArith Qround Qminmax Qabs Reals Lra Lia.
From Stdlib Require Lqa.
From Stdlib Require Import List String Ascii Bool DecimalString Sorted Permutation.
From stdpp Require Import gmap strings list fin_maps.
Import ListNotations.

Local Open Scope string_scope.

(** ** Python primitives used by the source *)

Module Py.

Definition is_lower (c : ascii) : bool :=
  let n := nat_of_ascii c in (97 <=? n)%nat && (n <=? 122)%nat.

Definition is_upper (c : ascii) : bool :=
  let n := nat_of_ascii c in (65 <=? n)%nat && (n <=? 90)%nat.

Definition is_alpha (c : ascii) : bool := is_lower c || is_upper c.

Definition is_digit (c : ascii) : bool :=
  let n := nat_of_ascii c in (48 <=? n)%nat && (n <=? 57)%nat.

(** [\w] of the [re] module on ASCII text. *)
Definition is_word (c : ascii) : bool :=
  is_alpha c || is_digit c || Ascii.eqb c "_"%char.

Definition lower_char (c : ascii) : ascii :=
  if is_upper c then ascii_of_nat (nat_of_ascii c + 32) else c.

(** [s.lower()] *)
Fixpoint lower (s : string) : string :=
  match s with
  | EmptyString => EmptyString
  | String c s' => String (lower_char c) (lower s')
  end.

(** [s.count(sub)]: the number of non-overlapping occurrences, found
    left to right.  [skip] is the number of characters still covered by
    the occurrence found last. *)
Fixpoint count_from (sub s : string) (skip : nat) : nat :=
  match s with
  | EmptyString => 0
  | String _ s' =>
      match skip with
      | S k => count_from sub s' k
      | O =>
          if String.prefix sub s
          then S (count_from sub s' (String.length sub - 1))
          else count_from sub s' 0
      end
  end.

Definition count (s sub : string) : nat :=
  match sub with
  | EmptyString => S (String.length s)
  | _ => count_from sub s 0
  end.

(** [sub in s] *)
Definition contains (s sub : string) : bool := (0 <? count s sub)%nat.

(** [c in s] for a character. *)
Fixpoint has_char (c : ascii) (s : string) : bool :=
  match s with
  | EmptyString => false
  | String d s' => Ascii.eqb c d || has_char c s'
  end.

(** A finished token [cur] is put in front of [l]; the empty [cur] means
    that no token was open. *)
Definition emit (cur : string) (l : list string) : list string :=
  match cur with EmptyString => l | _ => cur :: l end.

(** The maximal runs of characters that satisfy [p], in the order of the
    text; [cur] is the run being read. *)
Fixpoint runs (p : ascii -> bool) (s : string) (cur : string) : list string :=
  match s with
  | EmptyString => emit cur []
  | String c s' =>
      if p c then runs p s' (cur ++ String c "")
      else emit cur (runs p s' "")
  end.

(** Every character of [s] satisfies [p]. *)
Fixpoint all_chars (p : ascii -> bool) (s : string) : bool :=
  match s with
  | EmptyString => true
  | String c s' => p c && all_chars p s'
  end.

(** [s.strip()]: whitespace removed at both ends. *)
Definition is_space (c : ascii) : bool :=
  let n := nat_of_ascii c in
  ((9 <=? n)%nat && (n <=? 13)%nat) || ((28 <=? n)%nat && (n <=? 32)%nat).

Fixpoint lstrip_by (p : ascii -> bool) (s : string) : string :=
  match s with
  | EmptyString => EmptyString
  | String c s' => if p c then lstrip_by p s' else s
  end.

Fixpoint rstrip_by (p : ascii -> bool) (s : string) : string :=
  match s with
  | EmptyString => EmptyString
  | String c s' =>
      match rstrip_by p s' with
      | EmptyString => if p c then EmptyString else String c EmptyString
      | r => String c r
      end
  end.

Definition strip (s : string) : string :=
  rstrip_by is_space (lstrip_by is_space s).

(** [s.strip(chars)] *)
Definition strip_chars (chars s : string) : string :=
  rstrip_by (fun c => has_char c chars) (lstrip_by (fun c => has_char c chars) s).

(** [s[:n]] *)
Definition take (n : nat) (s : string) : string := String.substring 0 n s.

(** [str(n)] for a natural number. *)
Definition str (n : nat) : string :=
  DecimalString.NilZero.string_of_uint (Nat.to_uint n).

(** [sep.join(l)] *)
Fixpoint join (sep : string) (l : list string) : string :=
  match l with
  | [] => EmptyString
  | [x] => x
  | x :: l' => x ++ sep ++ join sep l'
  end.

(** A dict with string keys, kept in insertion order as Python keeps
    it.  [get] reads the binding of a key, [set] is [d[k] = v]: an
    existing key keeps its place, a new key goes last. *)
Definition dict (A : Type) : Type := list (string * A).

Fixpoint get {A} (d : dict A) (k : string) : option A :=
  match d with
  | [] => None
  | (k', v) :: d' => if String.eqb k k' then Some v else get d' k
  end.

Fixpoint set {A} (d : dict A) (k : string) (v : A) : dict A :=
  match d with
  | [] => [(k, v)]
  | (k', v') :: d' =>
      if String.eqb k k' then (k, v) :: d' else (k', v') :: set d' k v
  end.

Definition has_key {A} (d : dict A) (k : string) : bool :=
  match get d k with Some _ => true | None => false end.

Definition keys {A} (d : dict A) : list string := map fst d.

(** The number of matches of [(?<![a-zA-Z])SYM(?![a-zA-Z])] in [s], for a
    symbol [sym] of letters and digits (it is spliced into the pattern
    as it is).  [prev] is the character before the position read. *)
Definition not_alpha (c : option ascii) : bool :=
  match c with Some c => negb (is_alpha c) | None => true end.

Fixpoint count_standalone_from (sym s : string) (prev : option ascii)
  (skip : nat) : nat :=
  match s with
  | EmptyString => 0
  | String c s' =>
      match skip with
      | S k => count_standalone_from sym s' (Some c) k
      | O =>
          if not_alpha prev && String.prefix sym s
             && not_alpha (String.get (String.length sym) s)
          then S (count_standalone_from sym s' (Some c) (String.length sym - 1))
          else count_standalone_from sym s' (Some c) 0
      end
  end.

Definition count_standalone (s sym : string) : nat :=
  count_standalone_from sym s None 0.

(** The number of matches of [\$SYM\b] in [s]: a dollar sign, the
    symbol, then a word boundary. *)
Definition is_word_opt (c : option ascii) : bool :=
  match c with Some c => is_word c | None => false end.

Definition boundary (before after : option ascii) : bool :=
  xorb (is_word_opt before) (is_word_opt after).

Fixpoint count_dollar_from (pat s : string) (skip : nat) : nat :=
  match s with
  | EmptyString => 0
  | String c s' =>
      match skip with
      | S k => count_dollar_from pat s' k
      | O =>
          if String.prefix pat s
             && boundary (String.get (String.length pat - 1) s)
                         (String.get (String.length pat) s)
          then S (count_dollar_from pat s' (String.length pat - 1))
          else count_dollar_from pat s' 0
      end
  end.

Definition count_dollar (s sym : string) : nat :=
  count_dollar_from (String "$"%char sym) s 0.

Definition mem (k : string) (l : list string) : bool :=
  existsb (String.eqb k) l.

(** Rounding of a rational to the nearest integer, ties to even, as
    [round] does on the exact value. *)
Definition round_half_even (x : Q) : Z :=
  let f := Qfloor x in
  match Qcompare (x - inject_Z f)%Q (1 # 2)%Q with
  | Lt => f
  | Gt => (f + 1)%Z
  | Eq => if Z.even f then f else (f + 1)%Z
  end.

(** [round(x, ndigits)] *)
Definition round (x : Q) (ndigits : nat) : Q :=
  let p := (10 ^ Z.of_nat ndigits)%Z in
  (inject_Z (round_half_even (x * inject_Z p)) / inject_Z p)%Q.

(** [int(x)]: truncation toward zero. *)
Definition int (x : Q) : Z := Z.quot (Qnum x) (Zpos (Qden x)).

(** [sum(l)] *)
Definition sum (l : list Q) : Q := fold_left Qplus l 0%Q.

End Py.

(** ** 1. Financial sentiment lexicon *)

Local Open Scope Q_scope.

Definition FINANCIAL_LEXICON : list (string * Q) :=
  [ ("soar", 9 # 10); ("soars", 9 # 10); ("soared", 9 # 10);
    ("soaring", 9 # 10); ("surge", 85 # 100); ("surges", 85 # 100);
    ("surged", 85 # 100); ("surging", 85 # 100); ("skyrocket", 9 # 10);
    ("skyrockets", 9 # 10); ("skyrocketed", 9 # 10); ("rally", 8 # 10);
    ("rallies", 8 # 10); ("rallied", 8 # 10); ("rallying", 8 # 10);
    ("boom", 8 # 10); ("booming", 8 # 10); ("booms", 8 # 10);
    ("breakout", 75 # 100); ("breakthrough", 8 # 10); ("outperform", 7 # 10);
    ("outperforms", 7 # 10); ("outperformed", 7 # 10); ("beat", 65 # 100);
    ("beats", 65 # 100); ("beating", 65 # 100); ("exceed", 65 # 100);
    ("exceeds", 65 # 100); ("exceeded", 65 # 100); ("exceeding", 65 # 100);
    ("record", 6 # 10); ("all-time high", 85 # 100); ("bullish", 75 # 100);
    ("upgrade", 7 # 10); ("upgraded", 7 # 10); ("upgrades", 7 # 10);
    ("profit", 6 # 10); ("profits", 6 # 10); ("profitable", 65 # 100);
    ("profitability", 6 # 10); ("revenue growth", 7 # 10); ("earnings beat", 75 # 100);
    ("strong", 5 # 10); ("strength", 5 # 10); ("robust", 55 # 100);
    ("optimistic", 6 # 10); ("optimism", 6 # 10); ("upbeat", 55 # 100);
    ("momentum", 5 # 10); ("accelerate", 6 # 10); ("accelerates", 6 # 10);
    ("accelerating", 6 # 10); ("innovation", 5 # 10); ("innovative", 5 # 10);
    ("dividend", 4 # 10); ("buyback", 5 # 10); ("repurchase", 5 # 10);
    ("expansion", 5 # 10); ("expand", 45 # 100); ("expands", 45 # 100);
    ("expanding", 45 # 100); ("recovery", 55 # 100); ("recover", 5 # 10);
    ("recovers", 5 # 10); ("recovering", 5 # 10); ("gain", 55 # 100);
    ("gains", 55 # 100); ("gained", 55 # 100); ("gaining", 55 # 100);
    ("jump", 6 # 10); ("jumps", 6 # 10); ("jumped", 6 # 10);
    ("jumping", 6 # 10); ("climb", 5 # 10); ("climbs", 5 # 10);
    ("climbed", 5 # 10); ("climbing", 5 # 10); ("rise", 5 # 10);
    ("rises", 5 # 10); ("rising", 5 # 10); ("risen", 5 # 10);
    ("up", 3 # 10); ("higher", 35 # 100); ("high", 25 # 100);
    ("positive", 4 # 10); ("growth", 5 # 10); ("growing", 45 # 100);
    ("grew", 45 # 100); ("grow", 4 # 10); ("boost", 55 # 100);
    ("boosts", 55 # 100); ("boosted", 55 # 100); ("boosting", 55 # 100);
    ("win", 5 # 10); ("wins", 5 # 10); ("winning", 5 # 10);
    ("won", 5 # 10); ("success", 55 # 100); ("successful", 55 # 100);
    ("demand", 4 # 10); ("opportunity", 45 # 100); ("opportunities", 45 # 100);
    ("approval", 5 # 10); ("approved", 55 # 100); ("acquisition", 4 # 10);
    ("acquire", 4 # 10); ("acquires", 4 # 10); ("acquired", 4 # 10);
    ("merger", 35 # 100); ("deal", 35 # 100); ("partnership", 4 # 10);
    ("stable", 25 # 100); ("stability", 25 # 100); ("steady", 25 # 100);
    ("resilient", 35 # 100); ("resilience", 35 # 100); ("improve", 4 # 10);
    ("improves", 4 # 10); ("improved", 4 # 10); ("improving", 4 # 10);
    ("increase", 35 # 100); ("increases", 35 # 100); ("increased", 35 # 100);
    ("increasing", 35 # 100); ("launch", 35 # 100); ("launches", 35 # 100);
    ("launched", 35 # 100); ("invest", 3 # 10); ("investment", 3 # 10);
    ("investing", 3 # 10); ("confident", 4 # 10); ("confidence", 4 # 10);
    ("crash", -9 # 10); ("crashes", -9 # 10); ("crashed", -9 # 10);
    ("crashing", -9 # 10); ("plunge", -85 # 100); ("plunges", -85 # 100);
    ("plunged", -85 # 100); ("plunging", -85 # 100); ("collapse", -85 # 100);
    ("collapses", -85 # 100); ("collapsed", -85 # 100); ("tank", -8 # 10);
    ("tanks", -8 # 10); ("tanked", -8 # 10); ("tanking", -8 # 10);
    ("tumble", -75 # 100); ("tumbles", -75 # 100); ("tumbled", -75 # 100);
    ("tumbling", -75 # 100); ("plummet", -85 # 100); ("plummets", -85 # 100);
    ("plummeted", -85 # 100); ("selloff", -7 # 10); ("sell-off", -7 # 10);
    ("bearish", -75 # 100); ("bear market", -8 # 10); ("downgrade", -7 # 10);
    ("downgraded", -7 # 10); ("downgrades", -7 # 10); ("bankruptcy", -95 # 100);
    ("bankrupt", -95 # 100); ("default", -8 # 10); ("defaults", -8 # 10);
    ("defaulted", -8 # 10); ("recession", -75 # 100); ("recessionary", -7 # 10);
    ("layoff", -6 # 10); ("layoffs", -65 # 100); ("laid off", -6 # 10);
    ("loss", -55 # 100); ("losses", -55 # 100); ("miss", -55 # 100);
    ("misses", -55 # 100); ("missed", -55 # 100); ("missing", -4 # 10);
    ("fraud", -9 # 10); ("scandal", -8 # 10); ("investigation", -5 # 10);
    ("lawsuit", -55 # 100); ("litigation", -5 # 10); ("sued", -55 # 100);
    ("fine", -45 # 100); ("fined", -5 # 10); ("penalty", -5 # 10);
    ("penalties", -5 # 10); ("debt", -35 # 100); ("overvalued", -55 # 100);
    ("decline", -5 # 10); ("declines", -5 # 10); ("declined", -5 # 10);
    ("declining", -5 # 10); ("drop", -5 # 10); ("drops", -5 # 10);
    ("dropped", -5 # 10); ("dropping", -5 # 10); ("fall", -5 # 10);
    ("falls", -5 # 10); ("fell", -5 # 10); ("falling", -5 # 10);
    ("sink", -6 # 10); ("sinks", -6 # 10); ("sank", -6 # 10);
    ("sinking", -6 # 10); ("slide", -5 # 10); ("slides", -5 # 10);
    ("slid", -5 # 10); ("sliding", -5 # 10); ("slump", -6 # 10);
    ("slumps", -6 # 10); ("slumped", -6 # 10); ("slumping", -6 # 10);
    ("weak", -45 # 100); ("weakness", -45 # 100); ("weaken", -45 # 100);
    ("down", -3 # 10); ("lower", -35 # 100); ("low", -25 # 100);
    ("negative", -4 # 10); ("shrink", -5 # 10); ("shrinks", -5 # 10);
    ("shrank", -5 # 10); ("shrinking", -5 # 10); ("cut", -4 # 10);
    ("cuts", -4 # 10); ("cutting", -4 # 10); ("risk", -3 # 10);
    ("risks", -3 # 10); ("risky", -35 # 100); ("warning", -5 # 10);
    ("warn", -5 # 10); ("warns", -5 # 10); ("warned", -5 # 10);
    ("concern", -35 # 100); ("concerns", -35 # 100); ("concerned", -35 # 100);
    ("fear", -45 # 100); ("fears", -45 # 100); ("fearful", -5 # 10);
    ("uncertainty", -4 # 10); ("uncertain", -4 # 10); ("volatile", -35 # 100);
    ("volatility", -35 # 100); ("inflation", -35 # 100); ("inflationary", -35 # 100);
    ("tariff", -4 # 10); ("tariffs", -4 # 10); ("sanctions", -45 # 100);
    ("shortage", -4 # 10); ("shortages", -4 # 10); ("delay", -35 # 100);
    ("delayed", -35 # 100); ("delays", -35 # 100); ("recall", -5 # 10);
    ("recalls", -5 # 10); ("recalled", -5 # 10); ("shutdown", -55 # 100);
    ("closure", -5 # 10); ("close", -2 # 10); ("struggle", -45 # 100);
    ("struggles", -45 # 100); ("struggling", -45 # 100); ("disappoint", -55 # 100);
    ("disappoints", -55 # 100); ("disappointed", -55 # 100); ("disappointing", -55 # 100);
    ("underperform", -55 # 100); ("underperforms", -55 # 100); ("underperformed", -55 # 100);
    ("flat", -5 # 100); ("unchanged", 0 # 10); ("mixed", -5 # 100);
    ("hold", 0 # 10); ("maintain", 1 # 10); ("maintains", 1 # 10);
    ("report", 0 # 10); ("reports", 0 # 10); ("reported", 0 # 10);
    ("announce", 1 # 10); ("announces", 1 # 10); ("announced", 1 # 10);
    ("expect", 1 # 10); ("expects", 1 # 10); ("expected", 5 # 100);
    ("rate hike", -45 # 100); ("rate cut", 5 # 10); ("rate increase", -4 # 10);
    ("hawkish", -4 # 10); ("dovish", 4 # 10); ("tighten", -35 # 100);
    ("tightening", -35 # 100); ("easing", 4 # 10); ("stimulus", 45 # 100) ].

Definition NEGATION_WORDS : list string :=
  [ "not"; "no"; "never"; "neither"; "nobody"; "nothing";
    "nowhere"; "nor"; "cannot"; "can't"; "won't"; "don't";
    "doesn't"; "didn't"; "wasn't"; "weren't"; "isn't"; "aren't";
    "wouldn't"; "shouldn't"; "couldn't"; "hardly"; "barely"; "scarcely";
    "fail"; "fails"; "failed"; "failing" ].

Definition INTENSIFIERS : list (string * Q) :=
  [ ("very", 13 # 10); ("extremely", 15 # 10); ("significantly", 14 # 10);
    ("sharply", 14 # 10); ("dramatically", 15 # 10); ("massively", 15 # 10);
    ("strongly", 13 # 10); ("highly", 13 # 10); ("deeply", 13 # 10);
    ("substantially", 13 # 10); ("considerably", 125 # 100); ("slightly", 6 # 10);
    ("marginally", 5 # 10); ("somewhat", 7 # 10); ("modestly", 7 # 10) ].


Local Close Scope Q_scope.

(** ** 4. Sentiment analyzer *)

Inductive Label := Positive | Negative | Neutral.

Module SentimentAnalyzer.

(** The result dict of [analyze]. *)
Record Result := {
  sentiment : Label;
  score : Q;
  confidence : Q;
  word_hits : nat
}.

(** The analyzer object: its lexicon, given to the constructor. *)
Record t := { _lexicon : list (string * Q) }.

Definition default : t := {| _lexicon := FINANCIAL_LEXICON |}.

Definition is_multi (k : string) : bool :=
  Py.has_char " "%char k || Py.has_char "-"%char k.

Definition _multi_word (self : t) : list (string * Q) :=
  filter (fun kv => is_multi (fst kv)) (_lexicon self).

Definition _single_word (self : t) : list (string * Q) :=
  filter (fun kv => negb (is_multi (fst kv))) (_lexicon self).

(** Step 1 of [analyze]: one base score per occurrence of each phrase. *)
Definition phrase_scores (self : t) (text_lower : string) : list Q :=
  flat_map (fun kv => repeat (snd kv) (Py.count text_lower (fst kv)))
           (_multi_word self).

(** [re.findall(r"[a-z]+(?:'[a-z]+)?", s)].  [cur] holds the characters
    of the token matched so far (empty: no token is open) and [suffix]
    tells that its apostrophe group has been entered. *)
Fixpoint findall_tokens (s : string) (cur : string) (suffix : bool)
  : list string :=
  match s with
  | EmptyString => Py.emit cur []
  | String c s' =>
      if Py.is_lower c then findall_tokens s' (cur ++ String c "") suffix
      else
        let opens_suffix :=
          Ascii.eqb c "'"%char && negb suffix
          && negb (String.eqb cur "")
          && match s' with
             | String d _ => Py.is_lower d
             | EmptyString => false
             end in
        if opens_suffix then findall_tokens s' (cur ++ String c "") true
        else Py.emit cur (findall_tokens s' "" false)
  end.

Definition tokenize (text_lower : string) : list string :=
  findall_tokens text_lower "" false.

(** Step 2 of [analyze]: the [while i < len(tokens)] loop.  The loop
    index advances by two when the token after an intensifier or a
    negation is scored, by one otherwise. *)
Fixpoint scan (self : t) (tokens : list string) : list Q :=
  match tokens with
  | [] => []
  | token :: rest =>
      let intensifier :=
        match Py.get INTENSIFIERS token with Some f => f | None => 1%Q end in
      let single := _single_word self in
      let regular :=
        match Py.get single token with
        | Some v => v :: scan self rest
        | None => scan self rest
        end in
      let negated :=
        match rest with
        | next_token :: rest' =>
            if Py.mem token NEGATION_WORDS then
              match Py.get single next_token with
              | Some v => (v * (-75 # 100))%Q :: scan self rest'
              | None => regular
              end
            else regular
        | [] => regular
        end in
      match rest with
      | next_token :: rest' =>
          if negb (Qeq_bool intensifier 1) then
            match Py.get single next_token with
            | Some v => (v * intensifier)%Q :: scan self rest'
            | None => negated
            end
          else negated
      | [] => negated
      end
  end.

Definition scores_of (self : t) (text : string) : list Q :=
  let text_lower := Py.lower text in
  phrase_scores self text_lower ++ scan self (tokenize text_lower).

Definition analyze (self : t) (text : string) : Result :=
  let scores := scores_of self text in
  match scores with
  | [] => {| sentiment := Neutral; score := 0%Q; confidence := (1 # 10)%Q;
             word_hits := 0 |}
  | _ =>
      let n := inject_Z (Z.of_nat (length scores)) in
      let avg_score := (Py.sum scores / n)%Q in
      let hit_confidence := Qmin 1 (n / 5)%Q in
      let magnitude_confidence := Qmin 1 (Qabs avg_score * 2)%Q in
      let confidence :=
        (hit_confidence * (4 # 10) + magnitude_confidence * (6 # 10))%Q in
      let confidence := Py.round (Qmax (1 # 10)%Q (Qmin 1 confidence)) 3 in
      let label :=
        if Qlt_le_dec (5 # 100)%Q avg_score then Positive
        else if Qlt_le_dec avg_score (-5 # 100)%Q then Negative
        else Neutral in
      {| sentiment := label; score := Py.round avg_score 4;
         confidence := confidence; word_hits := length scores |}
  end.

(** [token in self._single_word] *)
Definition lexicon_word (self : t) (token : string) : bool :=
  Py.has_key (_single_word self) token.

(** The modifier tables and the single-word lexicon share no word. *)
Definition modifiers_apart (self : t) : bool :=
  forallb (fun kv : string * Q => negb (lexicon_word self (fst kv))) INTENSIFIERS
  && forallb (fun w => negb (lexicon_word self w)) NEGATION_WORDS.

End SentimentAnalyzer.


(** ** External collaborators and process state

    The market-data library ([yfinance]) and the wall clock are the
    environment of the program.  An [Env] fixes what each of them
    answers: [clock n] is the value of the [n]-th [datetime.now()] of the
    run, in microseconds, and the answer of a collaborator may depend on
    how many collaborator calls came before it.  A [World] is the mutable
    state of the process: the three module-level caches, the number of
    clock readings made and the log of collaborator calls made. *)

Inductive Action := BUY | SELL | HOLD.

(** One quote of [Search(name).quotes]. *)
Record SearchQuote := {
  q_exchange : option string;
  q_symbol : option string
}.

(** [yf.Ticker(symbol).info], or the exception it raised. *)
Inductive InfoResponse :=
| InfoRaises (msg : string)
| Info (currentPrice regularMarketPrice : option Q) (exchange : option string).

(** One daily bar of [Ticker.history]. *)
Record Bar := { Close : R; Volume : R }.

(** The [indicators] dict of a technical result. *)
Record Indicators := {
  ind_rsi : R;
  ind_sma_20 : R;
  ind_sma_50 : option R;
  ind_ema_12 : R;
  ind_price : R;
  ind_price_above_sma20 : bool;
  ind_price_above_sma50 : bool;
  ind_sma20_above_sma50 : bool;
  ind_macd : R;
  ind_macd_signal : R;
  ind_macd_histogram : R;
  ind_macd_bullish_crossover : bool;
  ind_macd_bearish_crossover : bool;
  ind_roc : option R;
  ind_volume_ratio : R;
  ind_avg_volume : R;
  ind_current_volume : R
}.

(** The result dict of [TechnicalAnalyzer.analyze] when ["success"] is
    true. *)
Record TechnicalSnapshot := {
  ta_symbol : string;
  technical_score : R;
  technical_confidence : R;
  ta_rsi : R;
  rsi_score : R;
  ma_score : R;
  macd_score : R;
  roc_score : R;
  ta_volume_ratio : R;
  indicators : Indicators
}.

(** The result dict of [TechnicalAnalyzer.analyze]: the failure dict
    [{"symbol": symbol, "success": False}] or a snapshot. *)
Inductive TAResult :=
| TAFail (symbol : string)
| TASuccess (snapshot : TechnicalSnapshot).

Definition ta_success (r : TAResult) : bool :=
  match r with TAFail _ => false | TASuccess _ => true end.

Inductive Call :=
| CallSearch (name : string)
| CallInfo (symbol : string)
| CallHistory (symbol : string).

Record Env := {
  clock : nat -> Z;
  yf_search : nat -> string -> option (list SearchQuote);
  yf_info : nat -> string -> InfoResponse;
  yf_history : nat -> string -> option (list Bar)
}.

Record World := {
  now_reads : nat;
  calls : list Call;
  _resolver_cache : gmap string (option string * Z);
  _price_cache : gmap string (Q * Z);
  _ta_cache : gmap string (TAResult * Z)
}.

Definition World0 : World :=
  {| now_reads := 0; calls := []; _resolver_cache := ∅; _price_cache := ∅;
     _ta_cache := ∅ |}.

(** Computations that read the environment and update the world. *)
Definition M (A : Type) : Type := Env -> World -> A * World.

Definition ret {A} (a : A) : M A := fun _ w => (a, w).

Definition bind {A B} (c : M A) (k : A -> M B) : M B :=
  fun env w => let (a, w') := c env w in k a env w'.

Notation "x <- c ;; k" := (bind c (fun x => k))
  (at level 60, c at next level, right associativity).

(** [for x in l: acc = body(x, acc)] *)
Fixpoint foldM {A B} (body : A -> B -> M B) (l : list A) (acc : B) : M B :=
  match l with
  | [] => ret acc
  | x :: l' => acc' <- body x acc ;; foldM body l' acc'
  end.

(** [datetime.now()] *)
Definition datetime_now : M Z :=
  fun env w =>
    (clock env (now_reads w),
     {| now_reads := S (now_reads w); calls := calls w;
        _resolver_cache := _resolver_cache w; _price_cache := _price_cache w;
        _ta_cache := _ta_cache w |}).

Definition log_call (c : Call) (w : World) : World :=
  {| now_reads := now_reads w; calls := calls w ++ [c];
     _resolver_cache := _resolver_cache w; _price_cache := _price_cache w;
     _ta_cache := _ta_cache w |}.

(** [Search(name).quotes]; [None] when the call raises. *)
Definition search_quotes (name : string) : M (option (list SearchQuote)) :=
  fun env w => (yf_search env (length (calls w)) name, log_call (CallSearch name) w).

(** [yf.Ticker(symbol).info] *)
Definition ticker_info (symbol : string) : M InfoResponse :=
  fun env w => (yf_info env (length (calls w)) symbol, log_call (CallInfo symbol) w).

(** [yf.Ticker(symbol).history(period="3mo", interval="1d")]; [None] when
    the call raises or returns [None]. *)
Definition ticker_history (symbol : string) : M (option (list Bar)) :=
  fun env w => (yf_history env (length (calls w)) symbol, log_call (CallHistory symbol) w).

Definition store_resolver (k : string) (v : option string * Z) : M unit :=
  fun _ w =>
    (tt, {| now_reads := now_reads w; calls := calls w;
            _resolver_cache := <[k := v]> (_resolver_cache w);
            _price_cache := _price_cache w; _ta_cache := _ta_cache w |}).

Definition store_price (k : string) (v : Q * Z) : M unit :=
  fun _ w =>
    (tt, {| now_reads := now_reads w; calls := calls w;
            _resolver_cache := _resolver_cache w;
            _price_cache := <[k := v]> (_price_cache w);
            _ta_cache := _ta_cache w |}).

Definition store_ta (k : string) (v : TAResult * Z) : M unit :=
  fun _ w =>
    (tt, {| now_reads := now_reads w; calls := calls w;
            _resolver_cache := _resolver_cache w; _price_cache := _price_cache w;
            _ta_cache := <[k := v]> (_ta_cache w) |}).

Definition get_world : M World := fun _ w => (w, w).

(** [timedelta(minutes=n)] in microseconds. *)
Definition minutes (n : Z) : Z := (n * 60 * 1000000)%Z.

Definition VALID_EXCHANGES : list string :=
  [ "NMS"; "NGM"; "NCM"; "NYQ"; "NYSE"; "NASDAQ"; "NasijdaqGS"; "PCX" ].

(** ** 5b. Dynamic ticker resolver *)

Module DynamicResolver.

Definition _RESOLVER_CACHE_TTL : Z := minutes 30.

Definition or_empty (o : option string) : string :=
  match o with Some s => s | None => "" end.

(** The loop of [_lookup] over [results.quotes[:3]]. *)
Fixpoint first_listed (quotes : list SearchQuote) : option string :=
  match quotes with
  | [] => None
  | quote :: rest =>
      let exchange := or_empty (q_exchange quote) in
      if Py.mem exchange VALID_EXCHANGES then
        let symbol := or_empty (q_symbol quote) in
        match symbol with
        | EmptyString => first_listed rest
        | _ => Some symbol
        end
      else first_listed rest
  end.

Definition _lookup (name : string) : M (option string) :=
  results <- search_quotes name ;;
  match results with
  | Some quotes => ret (first_listed (firstn 3 quotes))
  | None => ret None
  end.

Definition resolve (name : string) : M (option string) :=
  let cache_key := Py.strip (Py.lower name) in
  now <- datetime_now ;;
  w <- get_world ;;
  let fetch :=
    ticker <- _lookup name ;;
    _ <- store_resolver cache_key (ticker, now) ;;
    ret ticker in
  match _resolver_cache w !! cache_key with
  | Some (cached_ticker, cached_at) =>
      if (now - cached_at <? _RESOLVER_CACHE_TTL)%Z then ret cached_ticker
      else fetch
  | None => fetch
  end.

(** Words that look like proper nouns but are not company names, and
    uppercase sequences that are not tickers. *)

Definition COMMON_PROPER_NOUNS : list string :=
  [ "Monday"; "Tuesday"; "Wednesday"; "Thursday"; "Friday"; "Saturday";
    "Sunday"; "January"; "February"; "March"; "April"; "May"; "June";
    "July"; "August"; "September"; "October"; "November"; "December";
    "Market"; "Markets"; "Stock"; "Stocks"; "Shares"; "Share"; "Trade";
    "Trading"; "Report"; "Revenue"; "Quarter"; "Quarterly"; "Annual";
    "Earnings"; "Profit"; "Growth"; "Sales"; "Analyst"; "Analysts";
    "Investors"; "Investor"; "Price"; "Prices"; "Rate"; "Rates"; "Index";
    "Funds"; "Fund"; "Bond"; "Bonds"; "Wall"; "Street"; "Exchange";
    "Global"; "World"; "International"; "Today"; "Yesterday"; "Tomorrow";
    "According"; "Reuters"; "Bloomberg"; "The"; "And"; "For"; "But";
    "Not"; "All"; "Can"; "Was"; "One"; "Our"; "Out"; "Its"; "Has"; "His";
    "How"; "New"; "Now"; "Old"; "See"; "Way"; "Who"; "Did"; "Get"; "Let";
    "Say"; "She"; "Too"; "Use"; "After"; "Also"; "Most"; "Some"; "What";
    "When"; "With"; "More"; "From"; "Over"; "Into"; "Just"; "Than";
    "Very"; "About"; "Before"; "Could"; "Every"; "First"; "Major";
    "Other"; "Since"; "Their"; "These"; "Those"; "Under"; "Where";
    "While"; "Would"; "Should"; "North"; "South"; "East"; "West";
    "Chief"; "President"; "Chairman"; "Board"; "Company"; "Companies";
    "Data"; "Technology"; "Technologies"; "Capital"; "Group"; "Inc";
    "Corp"; "Corporation"; "Limited"; "Partners"; "Holdings"; "Rally";
    "Rallied"; "Rallying"; "Decline"; "Declined"; "Declining"; "Surge";
    "Surged"; "Surging"; "Drop"; "Dropped"; "Dropping"; "Rise"; "Rising";
    "Risen"; "Fall"; "Falling"; "Fell"; "Gain"; "Gained"; "Gaining";
    "Loss"; "Lost"; "Losing"; "Jump"; "Jumped"; "Jumping"; "Slide";
    "Slid"; "Sliding"; "Boost"; "Boosted"; "Climb"; "Climbed"; "Plunge";
    "Plunged"; "Beat"; "Missed"; "Exceeded"; "Cut"; "Raised"; "Lower";
    "Higher"; "Record"; "Sell"; "Buy"; "Hold"; "Yield"; "Yields";
    "Chair"; "Dovish"; "Hawkish"; "Bullish"; "Bearish"; "Soaring";
    "Soared"; "Warning"; "Alert"; "Crisis"; "Impact"; "Shift"; "Signal";
    "Signals"; "Expected"; "Announced"; "Reported"; "Filed"; "Approved";
    "Denied"; "Deal"; "Merger"; "Acquisition"; "Partnership"; "Launch";
    "Launched"; "Federal"; "Reserve"; "Central"; "Treasury"; "Congress";
    "Senate"; "Consensus"; "Inflation"; "Recession"; "Unemployment";
    "Economy"; "Sector"; "Industry"; "Regulatory"; "Commission";
    "Authority" ].

Definition COMMON_UPPER_WORDS : list string :=
  [ "US"; "USA"; "UK"; "EU"; "UN"; "CEO"; "CFO"; "COO"; "CTO"; "CMO";
    "IPO"; "GDP"; "SEC"; "FBI"; "CIA"; "NSA"; "DOJ"; "IRS"; "EPA"; "FDA";
    "FAA"; "FCC"; "FTC"; "DOD"; "NASA"; "OPEC"; "NATO"; "ETF"; "ESG";
    "GDP"; "CPI"; "PPI"; "PMI"; "PCE"; "NYSE"; "NASDAQ"; "DJIA"; "AI";
    "EV"; "EVS"; "IOT"; "IT"; "HR"; "PR"; "VP"; "II"; "III"; "IV"; "AM";
    "PM"; "YOY"; "QOQ"; "MOM"; "ATH"; "ATL"; "EPS"; "PE"; "ROI"; "ROE";
    "YTD"; "MTD"; "QTD"; "M&A"; "R&D"; "B2B"; "B2C"; "DC"; "APR"; "AUG";
    "DEC"; "FEB"; "JAN"; "JUL"; "JUN"; "MAR"; "NOV"; "OCT"; "SEP"; "MON";
    "TUE"; "WED"; "THU"; "FRI"; "SAT"; "SUN" ].


(** A match of [\b([A-Z][a-z]{1,20})\b] is a maximal run of word
    characters made of one capital and 1 to 20 small letters: the
    boundaries leave no word character on either side, and a longer tail
    of small letters cannot be cut short. *)
Definition capitalized_word (word : string) : bool :=
  match word with
  | EmptyString => false
  | String c rest =>
      Py.is_upper c && (1 <=? String.length rest)%nat
      && (String.length rest <=? 20)%nat && Py.all_chars Py.is_lower rest
  end.

(** A match of [(?<![a-zA-Z])([A-Z]{2,5})(?![a-zA-Z])] is a maximal run of
    letters made of 2 to 5 capitals. *)
Definition uppercase_run (word : string) : bool :=
  (2 <=? String.length word)%nat && (String.length word <=? 5)%nat
  && Py.all_chars Py.is_upper word.

(** Steps 1 and 2 of [extract_and_resolve]: the search terms with their
    relevance. *)
Definition candidates (text : string) : Py.dict Q :=
  let proper :=
    fold_left
      (fun c word =>
         if negb (Py.mem word COMMON_PROPER_NOUNS)
            && (3 <=? String.length word)%nat
         then Py.set c word (7 # 10)%Q else c)
      (List.filter capitalized_word (Py.runs Py.is_word text "")) [] in
  fold_left
    (fun c word =>
       if negb (Py.mem word COMMON_UPPER_WORDS)
       then Py.set c word (9 # 10)%Q else c)
    (List.filter uppercase_run (Py.runs Py.is_alpha text "")) proper.

(** Step 3: each candidate is resolved; a ticker found in several ways
    keeps its highest relevance. *)
Definition extract_and_resolve (text : string) : M (Py.dict Q) :=
  foldM
    (fun (entry : string * Q) resolved =>
       let (candidate, relevance) := entry in
       ticker <- resolve candidate ;;
       match ticker with
       | Some (String c t) =>
           let ticker := String c t in
           let old := match Py.get resolved ticker with
                      | Some r => r | None => 0%Q end in
           ret (Py.set resolved ticker (Qmax old relevance))
       | _ => ret resolved
       end)
    (candidates text) [].

End DynamicResolver.

(** ** 5. Company detector *)

Module CompanyDetector.

(** The detector object: the alias table and the tradeable set given to
    the constructor ([_tradeable] lists each ticker once). *)
Record t := {
  _aliases : Py.dict string;
  _tradeable : list string
}.

Definition AMBIGUOUS_TICKERS : list string := [ "T"; "V"; "HD" ].

(** [ticker_hits[ticker] += n] on a [defaultdict(int)]. *)
Definition add_hits (ticker_hits : Py.dict Z) (ticker : string) (n : nat)
  : Py.dict Z :=
  let old := match Py.get ticker_hits ticker with Some h => h | None => 0%Z end in
  Py.set ticker_hits ticker (old + Z.of_nat n)%Z.

(** 1) Alias matching. *)
Definition alias_pass (self : t) (text_lower : string)
  (ticker_hits : Py.dict Z) : Py.dict Z :=
  fold_left
    (fun hits (entry : string * string) =>
       let (alias, ticker) := entry in
       if negb (Py.mem ticker (_tradeable self)) then hits
       else
         let count := Py.count text_lower alias in
         if (0 <? count)%nat then add_hits hits ticker count else hits)
    (_aliases self) ticker_hits.

(** 2) Direct ticker symbol matching. *)
Definition symbol_pass (self : t) (text : string)
  (ticker_hits : Py.dict Z) : Py.dict Z :=
  fold_left
    (fun hits ticker =>
       let matches :=
         if Py.mem ticker AMBIGUOUS_TICKERS then Py.count_dollar text ticker
         else Py.count_standalone text ticker in
       if (0 <? matches)%nat then add_hits hits ticker matches else hits)
    (_tradeable self) ticker_hits.

(** 3) Dynamic resolution: the relevance of a ticker that has no hit yet
    is stored as a pseudo hit count. *)
Definition pseudo_hits (relevance : Q) : Z :=
  Z.max 1 (Py.int (relevance * 3)%Q).

Definition dynamic_pass (dynamic_hits : Py.dict Q)
  (ticker_hits : Py.dict Z) : Py.dict Z :=
  fold_left
    (fun hits (entry : string * Q) =>
       let (ticker, relevance) := entry in
       if negb (Py.has_key hits ticker)
       then Py.set hits ticker (pseudo_hits relevance)
       else hits)
    dynamic_hits ticker_hits.

(** [ticker_hits] after passes 1 and 2. *)
Definition static_hits (self : t) (text : string) : Py.dict Z :=
  symbol_pass self text (alias_pass self (Py.lower text) []).

(** [ticker_hits] after the three passes; [dynamic_hits] is what
    [self._resolver.extract_and_resolve(text)] returned. *)
Definition ticker_hits (self : t) (text : string) (dynamic_hits : Py.dict Q)
  : Py.dict Z :=
  dynamic_pass dynamic_hits (static_hits self text).

Definition max_value (d : Py.dict Z) : Z :=
  match d with
  | [] => 0%Z
  | (_, h) :: d' => fold_left (fun m kv => Z.max m (snd kv)) d' h
  end.

(** The hit counts turned into relevance scores. *)
Definition relevance_scores (hits : Py.dict Z) : Py.dict Q :=
  match hits with
  | [] => []
  | _ =>
      let max_hits := max_value hits in
      map (fun kv : string * Z =>
             (fst kv,
              Py.round (Qmin 1 (inject_Z (snd kv) / inject_Z (Z.max max_hits 1))%Q) 3))
          hits
  end.

Definition detect (self : t) (text : string) : M (Py.dict Q) :=
  dynamic_hits <- DynamicResolver.extract_and_resolve text ;;
  ret (relevance_scores (ticker_hits self text dynamic_hits)).

End CompanyDetector.

(** ** 6. Theme mapper *)

Module ThemeMapper.

Record t := {
  _themes : Py.dict (list (string * Q));
  _tradeable : list string
}.

(** The inner loop over one basket: the highest weight seen is kept
    ([ticker_relevance] is a [defaultdict(float)]). *)
Definition add_basket (self : t) (stock_list : list (string * Q))
  (ticker_relevance : Py.dict Q) : Py.dict Q :=
  fold_left
    (fun rel (entry : string * Q) =>
       let (ticker, weight) := entry in
       if Py.mem ticker (_tradeable self) then
         let old := match Py.get rel ticker with Some r => r | None => 0%Q end in
         Py.set rel ticker (Qmax old weight)
       else rel)
    stock_list ticker_relevance.

Definition map_themes (self : t) (text : string) : Py.dict Q :=
  let text_lower := Py.lower text in
  fold_left
    (fun rel (entry : string * list (string * Q)) =>
       let (keyword, stock_list) := entry in
       if Py.contains text_lower keyword then add_basket self stock_list rel
       else rel)
    (_themes self) [].

End ThemeMapper.

(** ** 7. Exchange and price filter *)

(** The result dict of [get_price_info]: a failure with its reason, or a
    success with the price and, when the quote was fetched, its
    ["exchange"] entry. *)
Inductive PriceInfo :=
| PriceFail (symbol reason : string)
| PriceOk (symbol : string) (price : Q) (exchange : option string).

Definition price_success (i : PriceInfo) : bool :=
  match i with PriceOk _ _ _ => true | PriceFail _ _ => false end.

Module ExchangePriceFilter.

Definition _CACHE_TTL : Z := minutes 2.

Record t := { MIN_PRICE : Q }.

Definition default : t := {| MIN_PRICE := 8 |}.

(** [a or b] on optional prices: a missing or zero [a] gives [b]. *)
Definition price_or (a b : option Q) : option Q :=
  match a with
  | Some x => if Qeq_bool x 0 then b else Some x
  | None => b
  end.

Definition get_price_info (symbol : string) : M PriceInfo :=
  now <- datetime_now ;;
  w <- get_world ;;
  let fetch :=
    info <- ticker_info symbol ;;
    match info with
    | InfoRaises msg => ret (PriceFail symbol msg)
    | Info currentPrice regularMarketPrice exchange =>
        match price_or currentPrice regularMarketPrice with
        | None => ret (PriceFail symbol "no price data")
        | Some price =>
            let price := Py.round price 2 in
            _ <- store_price symbol (price, now) ;;
            ret (PriceOk symbol price
                   (Some (match exchange with Some e => e | None => "" end)))
        end
    end in
  match _price_cache w !! symbol with
  | Some (price, cached_at) =>
      if (now - cached_at <? _CACHE_TTL)%Z then ret (PriceOk symbol price None)
      else fetch
  | None => fetch
  end.

Definition filter (self : t) (tickers : list string) : M (Py.dict Q) :=
  foldM
    (fun symbol valid =>
       info <- get_price_info symbol ;;
       match info with
       | PriceFail _ _ => ret valid
       | PriceOk _ price _ =>
           if Qlt_le_dec price (MIN_PRICE self) then ret valid
           else ret (Py.set valid symbol price)
       end)
    tickers [].

End ExchangePriceFilter.

(** ** Real-number helpers

    Comparisons of floats as booleans, [round] on reals, and the pandas
    series operations the technical analyzer uses, on lists. *)

Local Open Scope R_scope.

Definition Rltb (a b : R) : bool := if Rlt_dec a b then true else false.
Definition Rleb (a b : R) : bool := if Rle_dec a b then true else false.

(** [round(x)]: the nearest integer, ties to even. *)
Definition Rround_half_even (x : R) : Z :=
  let f := Int_part x in
  let d := x - IZR f in
  if Rlt_dec d (1 / 2) then f
  else if Rlt_dec (1 / 2) d then (f + 1)%Z
  else if Z.even f then f else (f + 1)%Z.

(** [round(x, ndigits)] *)
Definition Rround (x : R) (ndigits : nat) : R :=
  IZR (Rround_half_even (x * 10 ^ ndigits)) / 10 ^ ndigits.

Module Series.

Definition sum (l : list R) : R := fold_right Rplus 0 l.

Definition mean (l : list R) : R := sum l / INR (length l).

(** The last [n] entries. *)
Definition last_n (n : nat) (l : list R) : list R :=
  skipn (length l - n) l.

(** [s.rolling(n).mean().iloc[-1]] for a series of at least [n] entries. *)
Definition rolling_mean_last (n : nat) (l : list R) : R :=
  mean (last_n n l).

(** [s.diff()] without its first (undefined) entry. *)
Fixpoint diff (l : list R) : list R :=
  match l with
  | x :: ((y :: _) as l') => (y - x) :: diff l'
  | _ => []
  end.

(** [s.ewm(span=span, adjust=False).mean()] *)
Fixpoint ewm_from (alpha prev : R) (l : list R) : list R :=
  match l with
  | [] => []
  | x :: l' =>
      let y := (1 - alpha) * prev + alpha * x in
      y :: ewm_from alpha y l'
  end.

Definition ewm_mean (span : nat) (l : list R) : list R :=
  match l with
  | [] => []
  | x :: l' => x :: ewm_from (2 / (INR span + 1)) x l'
  end.

(** [s.iloc[-k]] *)
Definition iloc_neg (k : nat) (l : list R) : R :=
  nth (length l - k) l 0.

Definition sub (a b : list R) : list R :=
  map (fun p : R * R => fst p - snd p) (combine a b).

End Series.

(** ** 8. Technical analyzer *)

Record MASignals := {
  sma_20 : R;
  sma_50 : option R;
  ema_12 : R;
  ma_price : R;
  price_above_sma20 : bool;
  price_above_sma50 : bool;
  sma20_above_sma50 : bool
}.

Record MACD := {
  macd : R;
  macd_signal : R;
  histogram : R;
  bullish_crossover : bool;
  bearish_crossover : bool
}.

Record VolumeSignal := {
  volume_ratio : R;
  avg_volume : R;
  current_volume : R
}.

Module TechnicalAnalyzer.

Definition _TA_CACHE_TTL : Z := minutes 10.

Definition RSI_WEIGHT : R := 0.25.
Definition MA_WEIGHT : R := 0.30.
Definition MACD_WEIGHT : R := 0.30.
Definition ROC_WEIGHT : R := 0.15.

(** *** Indicator computations *)

Definition _compute_rsi (closes : list R) : option R :=
  let period := 14%nat in
  if (length closes <? period + 1)%nat then None
  else
    let delta := Series.diff closes in
    let gain :=
      0 :: map (fun d => if Rlt_dec 0 d then d else 0) delta in
    let loss :=
      0 :: map (fun d => - (if Rlt_dec d 0 then d else 0)) delta in
    let last_gain := Series.rolling_mean_last period gain in
    let last_loss := Series.rolling_mean_last period loss in
    if Rlt_dec last_loss 1e-10 then Some 100
    else
      let rs := last_gain / last_loss in
      Some (100 - 100 / (1 + rs)).

Definition _compute_ma_signals (closes : list R) : option MASignals :=
  if (length closes <? 20)%nat then None
  else
    let sma_20 := Series.rolling_mean_last 20 closes in
    let sma_50 :=
      if (50 <=? length closes)%nat
      then Some (Series.rolling_mean_last 50 closes) else None in
    let ema_12 := Series.iloc_neg 1 (Series.ewm_mean 12 closes) in
    let current := Series.iloc_neg 1 closes in
    Some {| sma_20 := sma_20; sma_50 := sma_50; ema_12 := ema_12;
            ma_price := current;
            price_above_sma20 := Rltb sma_20 current;
            price_above_sma50 :=
              match sma_50 with Some s => Rltb s current | None => true end;
            sma20_above_sma50 :=
              match sma_50 with Some s => Rltb s sma_20 | None => true end |}.

Definition _compute_macd (closes : list R) : option MACD :=
  if (length closes <? 26)%nat then None
  else
    let ema_12 := Series.ewm_mean 12 closes in
    let ema_26 := Series.ewm_mean 26 closes in
    let macd_line := Series.sub ema_12 ema_26 in
    let signal_line := Series.ewm_mean 9 macd_line in
    let histogram := Series.sub macd_line signal_line in
    let bullish_cross :=
      (2 <=? length macd_line)%nat
      && Rltb (Series.iloc_neg 1 signal_line) (Series.iloc_neg 1 macd_line)
      && Rleb (Series.iloc_neg 2 macd_line) (Series.iloc_neg 2 signal_line) in
    let bearish_cross :=
      (2 <=? length macd_line)%nat
      && Rltb (Series.iloc_neg 1 macd_line) (Series.iloc_neg 1 signal_line)
      && Rleb (Series.iloc_neg 2 signal_line) (Series.iloc_neg 2 macd_line) in
    Some {| macd := Series.iloc_neg 1 macd_line;
            macd_signal := Series.iloc_neg 1 signal_line;
            histogram := Series.iloc_neg 1 histogram;
            bullish_crossover := bullish_cross;
            bearish_crossover := bearish_cross |}.

Definition _compute_volume_signal (volumes : list R) : VolumeSignal :=
  if (length volumes <? 20)%nat then
    {| volume_ratio := 1; avg_volume := 0; current_volume := 0 |}
  else
    let avg_vol := Series.rolling_mean_last 20 volumes in
    let current_vol := Series.iloc_neg 1 volumes in
    {| volume_ratio := current_vol / Rmax avg_vol 1;
       avg_volume := avg_vol; current_volume := current_vol |}.

Definition _compute_roc (closes : list R) : option R :=
  let period := 10%nat in
  if (length closes <? period + 1)%nat then None
  else
    let current := Series.iloc_neg 1 closes in
    let past := Series.iloc_neg (period + 1) closes in
    if Rlt_dec (Rabs past) 1e-10 then None
    else Some ((current - past) / past * 100).

(** *** Scoring functions *)

Definition _score_rsi (rsi : R) : R :=
  if Rle_dec rsi 25 then 0.8 + 0.2 * (25 - rsi) / 25
  else if Rle_dec rsi 40 then 0.8 * (40 - rsi) / 15
  else if Rle_dec rsi 60 then 0
  else if Rle_dec rsi 75 then -0.8 * (rsi - 60) / 15
  else -0.8 - 0.2 * (rsi - 75) / 25.

Definition _score_roc (roc : R) : R :=
  Rmax (-1) (Rmin 1 (tanh (roc / 8))).

Definition _score_ma (ma : MASignals) : R :=
  let score := 0 in
  let score := score + (if price_above_sma20 ma then 0.3 else -0.3) in
  let score := score + (if price_above_sma50 ma then 0.3 else -0.3) in
  let score := score + (if sma20_above_sma50 ma then 0.4 else -0.4) in
  Rmax (-1) (Rmin 1 score).

Definition _score_macd (m : MACD) : R :=
  if bullish_crossover m then 0.7
  else if bearish_crossover m then -0.7
  else if Rlt_dec 0 (histogram m) then 0.3 else -0.3.

(** *** The composite *)

Definition snapshot (symbol : string) (rsi : R) (ma : MASignals) (m : MACD)
  (vol : VolumeSignal) (roc : option R) : TechnicalSnapshot :=
  let rsi_score := _score_rsi rsi in
  let ma_score := _score_ma ma in
  let macd_score := _score_macd m in
  let roc_score := match roc with Some r => _score_roc r | None => 0 end in
  let vol_ratio := volume_ratio vol in
  let vol_multiplier :=
    if Rlt_dec 1.5 vol_ratio then 1 + Rmin 0.4 ((vol_ratio - 1) * 0.2)
    else if Rlt_dec vol_ratio 0.5 then 0.7
    else 1 in
  let raw_score :=
    rsi_score * RSI_WEIGHT + ma_score * MA_WEIGHT
    + macd_score * MACD_WEIGHT + roc_score * ROC_WEIGHT in
  let technical_score := Rmax (-1) (Rmin 1 (raw_score * vol_multiplier)) in
  let signs := [rsi_score; ma_score; macd_score; roc_score] in
  let agreement :=
    INR (length (List.filter (fun s => Rltb 0 (s * raw_score)) signs))
    / INR (length signs) in
  let signal_strength := Rmin 1 (Rabs raw_score * 2) in
  let technical_confidence :=
    Rmin 1 (0.3 + agreement * 0.4 + signal_strength * 0.3) in
  {| ta_symbol := symbol;
     technical_score := Rround technical_score 4;
     technical_confidence := Rround technical_confidence 3;
     ta_rsi := Rround rsi 2;
     rsi_score := Rround rsi_score 4;
     ma_score := Rround ma_score 4;
     macd_score := Rround macd_score 4;
     roc_score := Rround roc_score 4;
     ta_volume_ratio := Rround vol_ratio 2;
     indicators :=
       {| ind_rsi := Rround rsi 2;
          ind_sma_20 := Rround (sma_20 ma) 2;
          ind_sma_50 := option_map (fun s => Rround s 2) (sma_50 ma);
          ind_ema_12 := Rround (ema_12 ma) 2;
          ind_price := Rround (ma_price ma) 2;
          ind_price_above_sma20 := price_above_sma20 ma;
          ind_price_above_sma50 := price_above_sma50 ma;
          ind_sma20_above_sma50 := sma20_above_sma50 ma;
          ind_macd := Rround (macd m) 4;
          ind_macd_signal := Rround (macd_signal m) 4;
          ind_macd_histogram := Rround (histogram m) 4;
          ind_macd_bullish_crossover := bullish_crossover m;
          ind_macd_bearish_crossover := bearish_crossover m;
          ind_roc := option_map (fun r => Rround r 4) roc;
          ind_volume_ratio := Rround vol_ratio 2;
          ind_avg_volume := avg_volume vol;
          ind_current_volume := current_volume vol |} |}.

(** [_compute] after the history has been fetched: [hist] is [None]
    when the fetch raised or returned [None]. *)
Definition compute_history (symbol : string) (hist : option (list Bar))
  : TAResult :=
  let fail := TAFail symbol in
  match hist with
  | None => fail
  | Some hist =>
      if (length hist <? 20)%nat then fail
      else
        let closes := map Close hist in
        let volumes := map Volume hist in
        let rsi := _compute_rsi closes in
        let ma := _compute_ma_signals closes in
        let m := _compute_macd closes in
        let vol := _compute_volume_signal volumes in
        let roc := _compute_roc closes in
        match rsi, ma, m with
        | Some rsi, Some ma, Some m =>
            TASuccess (snapshot symbol rsi ma m vol roc)
        | _, _, _ => fail
        end
  end.

Definition _compute (symbol : string) : M TAResult :=
  hist <- ticker_history symbol ;;
  ret (compute_history symbol hist).

Definition analyze (symbol : string) : M TAResult :=
  now <- datetime_now ;;
  w <- get_world ;;
  let fetch :=
    result <- _compute symbol ;;
    _ <- store_ta symbol (result, now) ;;
    ret result in
  match _ta_cache w !! symbol with
  | Some (cached, cached_at) =>
      if (now - cached_at <? _TA_CACHE_TTL)%Z then ret cached else fetch
  | None => fetch
  end.

End TechnicalAnalyzer.

(** ** 9. Signal generator *)

(** One analysed story, as [generate] reads it. *)
Record StoryAnalysis := {
  sentiment_score : R;
  sentiment_confidence : R;
  tickers : Py.dict R;
  story_age_hours : R;
  story_snippet : string
}.

(** The per-ticker accumulator of [generate]. *)
Record TickerData := {
  weighted_score_sum : R;
  weight_sum : R;
  confidence_sum : R;
  td_story_count : nat;
  reasons : list string
}.

Record Recommendation := {
  rec_symbol : string;
  action : Action;
  rec_confidence : R;
  reason : string;
  target_allocation_percent : Z;
  aggregated_score : R;
  story_count : nat;
  rec_sentiment_score : R;
  rec_technical_score : option R;
  technical_indicators : option Indicators
}.

Module SignalGenerator.

(** The generator object; [__init__] derives [_lambda] from the
    half-life. *)
Record t := { DECAY_HALF_LIFE_HOURS : R }.

Definition default : t := {| DECAY_HALF_LIFE_HOURS := 6 |}.

Definition _lambda (self : t) : R :=
  ln 2 / Rmax (DECAY_HALF_LIFE_HOURS self) 0.1.

Definition BUY_THRESHOLD : R := 0.15.
Definition SELL_THRESHOLD : R := -0.15.
Definition MIN_CONFIDENCE : R := 0.3.
Definition SENTIMENT_WEIGHT : R := 0.55.
Definition TECHNICAL_WEIGHT : R := 0.45.

(** [math.exp] and [math.log] are the real functions here; what the
    code computes is their rounding to a double, which is 0.0 for very
    old stories and the same double for ages that are close. *)
Definition _time_decay_weight (self : t) (story_age_hours : R) : R :=
  exp (- _lambda self * Rmax story_age_hours 0).

Definition _position_size (confidence abs_score : R) : Z :=
  let raw := confidence * abs_score * 30 in
  Z.max 1 (Z.min 20 (Rround_half_even raw)).

Definition new_ticker_data : TickerData :=
  {| weighted_score_sum := 0; weight_sum := 0; confidence_sum := 0;
     td_story_count := 0; reasons := [] |}.

(** The body of the loop over the stories: one story added to
    [ticker_data] (a [defaultdict]: a ticker seen for the first time
    gets a new accumulator, placed last). *)
Definition add_story (self : t) (analysis : StoryAnalysis)
  (ticker_data : Py.dict TickerData) : Py.dict TickerData :=
  let sentiment_score := sentiment_score analysis in
  let sentiment_conf := sentiment_confidence analysis in
  let story_text := story_snippet analysis in
  let decay_w := _time_decay_weight self (story_age_hours analysis) in
  fold_left
    (fun data (entry : string * R) =>
       let (ticker, relevance) := entry in
       let combined_weight := decay_w * relevance * sentiment_conf in
       let td :=
         match Py.get data ticker with
         | Some td => td
         | None => new_ticker_data
         end in
       Py.set data ticker
         {| weighted_score_sum :=
              weighted_score_sum td + sentiment_score * combined_weight;
            weight_sum := weight_sum td + combined_weight;
            confidence_sum := confidence_sum td + sentiment_conf * relevance;
            td_story_count := td_story_count td + 1;
            reasons :=
              match story_text with
              | EmptyString => reasons td
              | _ => reasons td ++ [Py.take 80 story_text]
              end |})
    (tickers analysis) ticker_data.

Definition aggregate (self : t) (story_analyses : list StoryAnalysis)
  : Py.dict TickerData :=
  fold_left (fun data analysis => add_story self analysis data)
            story_analyses [].

Definition sentiment_agg (td : TickerData) : R :=
  weighted_score_sum td / weight_sum td.

Definition ticker_sentiment_confidence (td : TickerData) : R :=
  let avg_confidence := confidence_sum td / INR (td_story_count td) in
  Rmin 1 (avg_confidence * Rmin 1 (INR (td_story_count td) / 3)).

(** [agg_score]: the blended score of a ticker. *)
Definition agg_score (td : TickerData) (ta : option TechnicalSnapshot) : R :=
  match ta with
  | Some ta =>
      sentiment_agg td * SENTIMENT_WEIGHT + technical_score ta * TECHNICAL_WEIGHT
  | None => sentiment_agg td
  end.

(** [combined_confidence]: the blended confidence of a ticker. *)
Definition combined_confidence (td : TickerData)
  (ta : option TechnicalSnapshot) : R :=
  match ta with
  | Some ta =>
      ticker_sentiment_confidence td * SENTIMENT_WEIGHT
      + technical_confidence ta * TECHNICAL_WEIGHT
  | None => ticker_sentiment_confidence td
  end.

Definition choose_action (agg_score combined_confidence : R) : Action :=
  if Rltb BUY_THRESHOLD agg_score && Rleb MIN_CONFIDENCE combined_confidence
  then BUY
  else if Rltb agg_score SELL_THRESHOLD
          && Rleb MIN_CONFIDENCE combined_confidence
  then SELL
  else HOLD.

Definition reason_text (reasons : list string) : string :=
  let reason := Py.join "; " (firstn 3 reasons) in
  if (3 <? length reasons)%nat
  then (reason ++ " (+" ++ Py.str (length reasons - 3) ++ " more)")%string
  else reason.

(** The recommendation built for one ticker. *)
Definition recommend (ticker : string) (td : TickerData)
  (ta : option TechnicalSnapshot) : Recommendation :=
  let score := agg_score td ta in
  let conf := combined_confidence td ta in
  {| rec_symbol := ticker;
     action := choose_action score conf;
     rec_confidence := Rround conf 3;
     reason := reason_text (reasons td);
     target_allocation_percent := _position_size conf (Rabs score);
     aggregated_score := Rround score 4;
     story_count := td_story_count td;
     rec_sentiment_score := Rround (sentiment_agg td) 4;
     rec_technical_score :=
       option_map (fun ta => Rround (technical_score ta) 4) ta;
     technical_indicators := option_map indicators ta |}.

(** The recommendations in the order of [ticker_data], before the
    sort; a ticker of too little weight is dropped. *)
Definition recommendations (self : t) (story_analyses : list StoryAnalysis)
  (technical_scores : Py.dict TechnicalSnapshot) : list Recommendation :=
  flat_map
    (fun entry : string * TickerData =>
       let (ticker, td) := entry in
       if Rlt_dec (weight_sum td) 0.01 then []
       else [recommend ticker td (Py.get technical_scores ticker)])
    (aggregate self story_analyses).

Definition action_order (a : Action) : nat :=
  match a with BUY => 0 | SELL => 1 | HOLD => 2 end.

(** The sort key [(action_order[r["action"]], -r["confidence"])]. *)
Definition sort_key (r : Recommendation) : nat * R :=
  (action_order (action r), - rec_confidence r).

(** [k1 < k2] on key tuples. *)
Definition key_lt (k1 k2 : nat * R) : bool :=
  (fst k1 <? fst k2)%nat
  || ((fst k1 =? fst k2)%nat && Rltb (snd k1) (snd k2)).

(** [list.sort(key=...)] is a stable sort: each recommendation is
    inserted before the first one whose key is not smaller. *)
Fixpoint insert_sorted (r : Recommendation) (l : list Recommendation)
  : list Recommendation :=
  match l with
  | [] => [r]
  | y :: l' =>
      if key_lt (sort_key y) (sort_key r) then y :: insert_sorted r l'
      else r :: l
  end.

Definition sort (l : list Recommendation) : list Recommendation :=
  fold_right insert_sorted [] l.

Definition generate (self : t) (story_analyses : list StoryAnalysis)
  (technical_scores : Py.dict TechnicalSnapshot) : list Recommendation :=
  sort (recommendations self story_analyses technical_scores).

(** A recommendation has the action [a] and the confidence [c]: the two
    things its sort key is made of. *)
Definition same_keys (a : Action) (c : R) (r : Recommendation) : bool :=
  (action_order (action r) =? action_order a)%nat
  && (if Req_dec_T (rec_confidence r) c then true else false).

(** The order the sort key puts on two recommendations: actions in the
    order BUY, SELL, HOLD, then the higher confidence first. *)
Definition key_le (r1 r2 : Recommendation) : Prop :=
  (action_order (action r1) < action_order (action r2))%nat
  \/ (action_order (action r1) = action_order (action r2)
      /\ rec_confidence r2 <= rec_confidence r1).

End SignalGenerator.

Local Close Scope R_scope.

(** ** 9. Local trading engine (orchestrator) *)

(** A story dict; a missing key reads as the empty string. *)
Record Story := {
  text : string;
  title : string;
  summary : string;
  published : string
}.

(** One entry of [story_details], the per-story trace. *)
Record StoryDetail := {
  snippet : string;
  sd_sentiment : Label;
  sd_sentiment_score : Q;
  sd_sentiment_confidence : Q;
  sd_word_hits : nat;
  companies_detected : Py.dict Q;
  themes_matched : Py.dict Q;
  combined_tickers : Py.dict Q;
  age_hours : Q
}.

Record EngineResult := {
  success : bool;
  analysis_summary : string;
  er_recommendations : list Recommendation;
  story_details : list StoryDetail;
  timestamp : Z;
  provider : string;
  model : string;
  stories_analyzed : nat;
  tickers_detected : nat
}.

Module LocalTradingEngine.

(** The engine object: its components, as [__init__] wires them (the
    technical analyzer has no state of its own). *)
Record t := {
  sentiment : SentimentAnalyzer.t;
  companies : CompanyDetector.t;
  themes : ThemeMapper.t;
  price_filter : ExchangePriceFilter.t;
  signals : SignalGenerator.t
}.

Section Engine.

(** [datetime.strptime(s, fmt)] with the time zone dropped, in
    microseconds; [None] when it raises [ValueError]. *)
Variable strptime : string -> string -> option Z.

Definition formats : list string :=
  [ "%a, %d %b %Y %H:%M:%S %z"; "%a, %d %b %Y %H:%M:%S %Z";
    "%Y-%m-%dT%H:%M:%S%z"; "%Y-%m-%dT%H:%M:%S.%f%z";
    "%Y-%m-%dT%H:%M:%S"; "%Y-%m-%d %H:%M:%S" ].

Fixpoint first_parse (published_str : string) (fmts : list string)
  : option Z :=
  match fmts with
  | [] => None
  | fmt :: rest =>
      match strptime (Py.strip published_str) fmt with
      | Some dt => Some dt
      | None => first_parse published_str rest
      end
  end.

Definition _parse_age_hours (published_str : string) (now : Z) : Q :=
  match published_str with
  | EmptyString => 1%Q
  | _ =>
      match first_parse published_str formats with
      | Some dt =>
          let age := (inject_Z (now - dt) / 3600000000)%Q in
          Qmax 0 age
      | None => 1%Q
      end
  end.

(** The merge of the detected and the themed tickers of a story. *)
Definition merge_tickers (detected themed : Py.dict Q) : Py.dict Q :=
  let combined :=
    fold_left (fun c (e : string * Q) => Py.set c (fst e) (snd e))
              detected [] in
  fold_left
    (fun c (e : string * Q) =>
       let old := match Py.get c (fst e) with Some r => r | None => 0%Q end in
       Py.set c (fst e) (Qmin 1 (old + snd e * (6 # 10))%Q))
    themed combined.

Definition story_text (story : Story) : string :=
  match text story with
  | EmptyString =>
      Py.strip_chars ". " (title story ++ ". " ++ summary story)
  | t => t
  end.

(** What step 1 accumulates. *)
Record Step1 := {
  story_analyses : list StoryAnalysis;
  all_tickers : Py.dict Q;
  details : list StoryDetail
}.

(** The body of the loop of step 1. *)
Definition analyze_story (self : t) (now : Z) (story : Story) (acc : Step1)
  : M Step1 :=
  let text := story_text story in
  match text with
  | EmptyString => ret acc
  | _ =>
      let sent := SentimentAnalyzer.analyze (sentiment self) text in
      detected <- CompanyDetector.detect (companies self) text ;;
      let themed := ThemeMapper.map_themes (themes self) text in
      let combined := merge_tickers detected themed in
      let age := _parse_age_hours (published story) now in
      let detail :=
        {| snippet := Py.take 120 text;
           sd_sentiment := SentimentAnalyzer.sentiment sent;
           sd_sentiment_score := SentimentAnalyzer.score sent;
           sd_sentiment_confidence := SentimentAnalyzer.confidence sent;
           sd_word_hits := SentimentAnalyzer.word_hits sent;
           companies_detected := detected;
           themes_matched := themed;
           combined_tickers := combined;
           age_hours := Py.round age 1 |} in
      match combined with
      | [] =>
          ret {| story_analyses := story_analyses acc;
                 all_tickers := all_tickers acc;
                 details := details acc ++ [detail] |}
      | _ =>
          let analysis :=
            {| sentiment_score := Q2R (SentimentAnalyzer.score sent);
               sentiment_confidence := Q2R (SentimentAnalyzer.confidence sent);
               tickers := map (fun e : string * Q => (fst e, Q2R (snd e))) combined;
               story_age_hours := Q2R age;
               story_snippet := Py.take 100 text |} in
          ret {| story_analyses := story_analyses acc ++ [analysis];
                 all_tickers :=
                   fold_left
                     (fun a (e : string * Q) =>
                        let old := match Py.get a (fst e) with
                                   | Some r => r | None => 0%Q end in
                        Py.set a (fst e) (Qmax old (snd e)))
                     combined (all_tickers acc);
                 details := details acc ++ [detail] |}
      end
  end.

(** Step 2.5: technical analysis of every valid ticker. *)
Definition technical_pass (symbols : list string)
  : M (Py.dict TechnicalSnapshot) :=
  foldM
    (fun symbol technical_scores =>
       ta_result <- TechnicalAnalyzer.analyze symbol ;;
       match ta_result with
       | TASuccess snap => ret (Py.set technical_scores symbol snap)
       | TAFail _ => ret technical_scores
       end)
    symbols [].

(** [l[:n]] *)
Definition slice_to {A} (n : Z) (l : list A) : list A :=
  if (n <? 0)%Z then firstn (length l - Z.to_nat (- n)) l
  else firstn (Z.to_nat n) l.

Definition is_action (a : Action) (r : Recommendation) : bool :=
  match a, action r with
  | BUY, BUY | SELL, SELL | HOLD, HOLD => true
  | _, _ => false
  end.

Definition summary_text (n_stories n_valid n_technical buy_count sell_count : nat)
  : string :=
  let bias :=
    if (sell_count <? buy_count)%nat then "bullish"
    else if (buy_count <? sell_count)%nat then "bearish"
    else "mixed" in
  let ta_note :=
    match n_technical with
    | O => ""
    | _ => " Technical analysis applied to " ++ Py.str n_technical ++ " tickers."
    end in
  "Analyzed " ++ Py.str n_stories ++ " stories, detected "
  ++ Py.str n_valid ++ " tradeable tickers." ++ ta_note
  ++ " Overall bias is " ++ bias ++ " with " ++ Py.str buy_count
  ++ " BUY and " ++ Py.str sell_count ++ " SELL signals.".

(** [now] as given, or the clock when it is [None]. *)
Definition reference_time (now : option Z) : M Z :=
  match now with Some n => ret n | None => datetime_now end.

(** Step 1: the loop over the stories. *)
Definition analyze_each (self : t) (now : Z) (stories : list Story) : M Step1 :=
  foldM (analyze_story self now) stories
    {| story_analyses := []; all_tickers := []; details := [] |}.

Definition analyze_stories (self : t) (stories : list Story)
  (now : option Z) (filter_hold : bool) (max_recommendations : Z)
  : M EngineResult :=
  now <- reference_time now ;;
  step1 <- analyze_each self now stories ;;
  match story_analyses step1 with
  | [] =>
      ret {| success := true;
             analysis_summary :=
               "No actionable stories found in the current news feed.";
             er_recommendations := [];
             story_details := details step1;
             timestamp := now;
             provider := "local_nlp";
             model := "financial_lexicon_v1";
             stories_analyzed := length stories;
             tickers_detected := 0 |}
  | _ =>
      let candidate_tickers := Py.keys (all_tickers step1) in
      valid_prices <-
        ExchangePriceFilter.filter (price_filter self) candidate_tickers ;;
      let analyses :=
        map (fun a =>
               {| sentiment_score := sentiment_score a;
                  sentiment_confidence := sentiment_confidence a;
                  tickers :=
                    List.filter
                      (fun e : string * R => Py.has_key valid_prices (fst e))
                      (tickers a);
                  story_age_hours := story_age_hours a;
                  story_snippet := story_snippet a |})
            (story_analyses step1) in
      let analyses :=
        List.filter
          (fun a => match tickers a with [] => false | _ => true end)
          analyses in
      technical_scores <- technical_pass (Py.keys valid_prices) ;;
      let raw_recs :=
        SignalGenerator.generate (signals self) analyses technical_scores in
      let raw_recs :=
        if filter_hold
        then List.filter (fun r => negb (is_action HOLD r)) raw_recs
        else raw_recs in
      let recommendations := slice_to max_recommendations raw_recs in
      let buy_count := length (List.filter (is_action BUY) recommendations) in
      let sell_count := length (List.filter (is_action SELL) recommendations) in
      ret {| success := true;
             analysis_summary :=
               summary_text (length stories) (length valid_prices)
                 (length technical_scores) buy_count sell_count;
             er_recommendations := recommendations;
             story_details := details step1;
             timestamp := now;
             provider := "local_nlp";
             model := "financial_lexicon_v1";
             stories_analyzed := length stories;
             tickers_detected := length valid_prices |}
  end.

End Engine.

End LocalTradingEngine.

(** The environment [env] with the ["exchange"] entry of every quote
    replaced by [e] ([None]: the entry is missing). *)
Definition with_exchange (e : option string) (env : Env) : Env :=
  {| clock := clock env;
     yf_search := yf_search env;
     yf_info := fun n symbol =>
       match yf_info env n symbol with
       | Info currentPrice regularMarketPrice _ =>
           Info currentPrice regularMarketPrice e
       | InfoRaises msg => InfoRaises msg
       end;
     yf_history := yf_history env |}.

(** ** What a lookup through a TTL cache does

    What the three lookups fetch when they call the collaborator in the
    world [w]: the answer to that call, turned into the result of the
    lookup. *)

Definition searched_ticker (env : Env) (w : World) (name : string)
  : option string :=
  match yf_search env (length (calls w)) name with
  | Some quotes => DynamicResolver.first_listed (firstn 3 quotes)
  | None => None
  end.

Definition quoted_price (env : Env) (w : World) (symbol : string)
  : PriceInfo :=
  match yf_info env (length (calls w)) symbol with
  | InfoRaises msg => PriceFail symbol msg
  | Info currentPrice regularMarketPrice exchange =>
      match ExchangePriceFilter.price_or currentPrice regularMarketPrice with
      | None => PriceFail symbol "no price data"
      | Some price =>
          PriceOk symbol (Py.round price 2)
            (Some (match exchange with Some e => e | None => "" end))
      end
  end.

Definition charted_result (env : Env) (w : World) (symbol : string)
  : TAResult :=
  TechnicalAnalyzer.compute_history symbol
    (yf_history env (length (calls w)) symbol).

(** The price of a successful quote, which is the one that is cached. *)
Definition price_of (i : PriceInfo) : option Q :=
  match i with PriceOk _ price _ => Some price | PriceFail _ _ => None end.

(** The price that a lookup of [symbol] started in the world [w]
    obtains: the cached price when the cache has one younger than two
    minutes; otherwise the price of the quote that the collaborator
    gives to the call made then, [currentPrice] or else
    [regularMarketPrice], rounded to cents; none when the quote raises
    or has no price. *)
Definition lookup_price (env : Env) (w : World) (symbol : string)
  : option Q :=
  let fresh :=
    match _price_cache w !! symbol with
    | Some (price, cached_at) =>
        if (clock env (now_reads w) - cached_at <? minutes 2)%Z
        then Some price else None
    | None => None
    end in
  match fresh with
  | Some price => Some price
  | None =>
      match yf_info env (length (calls w)) symbol with
      | InfoRaises _ => None
      | Info currentPrice regularMarketPrice _ =>
          match ExchangePriceFilter.price_or currentPrice regularMarketPrice with
          | Some price => Some (Py.round price 2)
          | None => None
          end
      end
  end.

(** [cache_step cache ttl key c served fetched stored now w out]: the
    lookup of [key], started in the world [w] and reading the clock at
    [now], ended with the result and world [out] in one of two ways.
    Either it served the entry of [key], stored at a time [t] with
    [now - t < ttl], and called no collaborator and left the cache
    alone; or [key] had no entry younger than [ttl], the collaborator
    call [c] was made, the result is [fetched], and the cache got the
    entry [stored] for [key], stamped [now] (no entry when [stored] is
    [None]). *)

Definition cache_step {V A} (cache : World -> gmap string (V * Z)) (ttl : Z)
  (key : string) (c : Call) (served : V -> A) (fetched : A)
  (stored : option V) (now : Z) (w : World) (out : A * World) : Prop :=
  (exists v t,
     cache w !! key = Some (v, t) /\ (now - t < ttl)%Z
     /\ fst out = served v /\ calls (snd out) = calls w
     /\ cache (snd out) = cache w)
  \/ ((forall v t, cache w !! key = Some (v, t) -> (ttl <= now - t)%Z)
      /\ calls (snd out) = (calls w ++ [c])%list
      /\ fst out = fetched
      /\ cache (snd out)
         = match stored with
           | Some v => <[key := (v, now)]> (cache w)
           | None => cache w
           end).

(** ** 10. Paper trading ([app.py])

    The portfolio and the recommendation history live in the session
    state of the dashboard; the functions below take them and return
    them.  Writing the portfolio file is outside the model: of
    [save_portfolio] the reading of the clock is kept (its exceptions
    are caught, and nothing below reads the file).  Of the dict that
    [get_stock_price] returns, ["success"] and ["price"] are kept.
    Amounts, prices and shares are exact rationals; the code holds them
    in doubles and rounds every sum, product and quotient, so that
    [(a / p) * p] need not be [a] there. *)

Module App.

(** One entry of [portfolio['positions']]. *)
Record Position := { shares : Q; avg_cost : Q }.

(** One entry of [portfolio['trade_history']]. *)
Record TradeRecord := {
  tr_timestamp : Z;
  tr_symbol : string;
  tr_action : Action;
  tr_shares : Q;
  tr_price : Q;
  tr_amount : Q;
  tr_reason : string;
  tr_confidence : R;
  portfolio_value_at_trade : Q
}.

(** [st.session_state.portfolio]: the entries that trading reads or
    writes. *)
Record Portfolio := {
  cash : Q;
  positions : Py.dict Position;
  trade_history : list TradeRecord
}.

(** What [execute_paper_trade] does: it returns a failure dict or a
    success dict with the trade record, or an exception leaves it. *)
Inductive TradeResult :=
| TradeFail (error : string)
| TradeOk (trade : TradeRecord)
| TradeRaises (exception : string).

(** One entry of [st.session_state.recommendation_history], as
    [auto_execute_trades] writes it (its ["auto_executed"] is [True]). *)
Record HistoryEntry := {
  he_timestamp : Z;
  he_symbol : string;
  he_action : Action;
  entry_price : Q;
  he_confidence : R;
  he_reason : string
}.

(** One entry of the list that [auto_execute_trades] returns. *)
Record ExecutedTrade := {
  et_symbol : string;
  et_action : Action;
  et_amount : Q;
  et_price : Q
}.

Record Session := {
  portfolio : Portfolio;
  recommendation_history : list HistoryEntry
}.

(** [del d[k]] *)
Definition del {A} (d : Py.dict A) (k : string) : Py.dict A :=
  List.filter (fun e : string * A => negb (String.eqb (fst e) k)) d.

(** ["%0<width>d" % n] *)
Definition zfill (width : nat) (n : nat) : string :=
  let s := Py.str n in
  (string_of_list_ascii (repeat "0"%char (width - String.length s)) ++ s)%string.

(** [str(d)] for a timedelta [d] of [us] microseconds, between zero and
    one day. *)
Definition timedelta_str (us : Z) : string :=
  let seconds := (us / 1000000)%Z in
  let micro := (us mod 1000000)%Z in
  let hh := Z.to_nat (seconds / 3600) in
  let mm := Z.to_nat ((seconds / 60) mod 60) in
  let ss := Z.to_nat (seconds mod 60) in
  let s := (Py.str hh ++ ":" ++ zfill 2 mm ++ ":" ++ zfill 2 ss)%string in
  if (micro =? 0)%Z then s
  else (s ++ "." ++ zfill 6 (Z.to_nat micro))%string.

Definition get_stock_price (symbol : string) : M (option Q) :=
  info <- ticker_info symbol ;;
  match info with
  | InfoRaises _ => ret None
  | Info currentPrice regularMarketPrice _ =>
      match ExchangePriceFilter.price_or currentPrice regularMarketPrice with
      | Some price =>
          if Qeq_bool price 0 then ret None
          else ret (Some (Py.round price 2))
      | None => ret None
      end
  end.

Definition get_multiple_prices (symbols : list string) : M (Py.dict Q) :=
  foldM
    (fun symbol prices =>
       result <- get_stock_price symbol ;;
       match result with
       | Some price => ret (Py.set prices symbol price)
       | None => ret prices
       end)
    symbols [].

Definition save_portfolio : M unit :=
  _ <- datetime_now ;;
  ret tt.

Definition calculate_portfolio_value (p : Portfolio) : M Q :=
  match positions p with
  | [] => ret (cash p)
  | _ =>
      prices <- get_multiple_prices (Py.keys (positions p)) ;;
      ret (fold_left
             (fun total (e : string * Position) =>
                match Py.get prices (fst e) with
                | Some price => (total + shares (snd e) * price)%Q
                | None => total
                end)
             (positions p) (cash p))
  end.

Section Clock.

(** The weekday (Monday is 0) and the time of day, in microseconds,
    that a reading of the clock shows in the time zone US/Eastern. *)
Variable eastern : Z -> nat * Z.

Definition is_market_open : M (bool * string) :=
  now <- datetime_now ;;
  let (weekday, time) := eastern now in
  if (5 <=? weekday)%nat then ret (false, "Market closed (Weekend)")
  else
    let market_open := (minutes (9 * 60 + 30))%Z in
    let market_close := (minutes (16 * 60))%Z in
    if (time <? market_open)%Z then
      ret (false,
           "Market opens at 9:30 AM ET (in "
           ++ timedelta_str (market_open - time) ++ ")")
    else if (market_close <? time)%Z then
      ret (false, "Market closed for today (after 4:00 PM ET)")
    else ret (true, "Market is OPEN").

(** The end of [execute_paper_trade]: the trade is recorded in the
    portfolio [p], which the branch of the action left. *)
Definition record_trade (p : Portfolio) (symbol : string) (action : Action)
  (shares amount_dollars current_price : Q) (reason : string) (confidence : R)
  : M (TradeResult * Portfolio) :=
  timestamp <- datetime_now ;;
  value <- calculate_portfolio_value p ;;
  let trade_record :=
    {| tr_timestamp := timestamp; tr_symbol := symbol; tr_action := action;
       tr_shares := shares; tr_price := current_price;
       tr_amount := amount_dollars; tr_reason := reason;
       tr_confidence := confidence; portfolio_value_at_trade := value |} in
  let p :=
    {| cash := cash p; positions := positions p;
       trade_history := trade_history p ++ [trade_record] |} in
  _ <- save_portfolio ;;
  ret (TradeOk trade_record, p).

Definition execute_paper_trade (p : Portfolio) (symbol : string)
  (action : Action) (amount_dollars current_price : Q) (reason : string)
  (confidence : R) : M (TradeResult * Portfolio) :=
  market <- is_market_open ;;
  let (market_open, market_status) := market in
  if negb market_open then
    ret (TradeFail ("Cannot trade: " ++ market_status), p)
  else
    match action with
    | BUY =>
        let amount_dollars :=
          if Qlt_le_dec (cash p) amount_dollars then cash p
          else amount_dollars in
        if Qlt_le_dec amount_dollars 1 then
          ret (TradeFail "Insufficient funds", p)
        else if Qeq_bool current_price 0 then
          ret (TradeRaises "ZeroDivisionError", p)
        else
          let shares := (amount_dollars / current_price)%Q in
          match Py.get (positions p) symbol with
          | Some pos =>
              let total_shares := (App.shares pos + shares)%Q in
              let total_cost :=
                (App.shares pos * avg_cost pos + shares * current_price)%Q in
              if Qeq_bool total_shares 0 then
                ret (TradeRaises "ZeroDivisionError",
                     {| cash := cash p;
                        positions :=
                          Py.set (positions p) symbol
                            {| App.shares := total_shares;
                               avg_cost := avg_cost pos |};
                        trade_history := trade_history p |})
              else
                record_trade
                  {| cash := (cash p - amount_dollars)%Q;
                     positions :=
                       Py.set (positions p) symbol
                         {| App.shares := total_shares;
                            avg_cost := (total_cost / total_shares)%Q |};
                     trade_history := trade_history p |}
                  symbol action shares amount_dollars current_price reason
                  confidence
          | None =>
              record_trade
                {| cash := (cash p - amount_dollars)%Q;
                   positions :=
                     Py.set (positions p) symbol
                       {| App.shares := shares; avg_cost := current_price |};
                   trade_history := trade_history p |}
                symbol action shares amount_dollars current_price reason
                confidence
          end
    | SELL =>
        match Py.get (positions p) symbol with
        | None =>
            ret (TradeFail ("No position in " ++ symbol ++ " to sell"), p)
        | Some pos =>
            if Qlt_le_dec 0 (App.shares pos) then
              if Qeq_bool current_price 0 then
                ret (TradeRaises "ZeroDivisionError", p)
              else
                let shares_to_sell :=
                  Qmin (amount_dollars / current_price)%Q (App.shares pos) in
                let sale_value := (shares_to_sell * current_price)%Q in
                let left := (App.shares pos - shares_to_sell)%Q in
                let kept :=
                  Py.set (positions p) symbol
                    {| App.shares := left; avg_cost := avg_cost pos |} in
                record_trade
                  {| cash := (cash p + sale_value)%Q;
                     positions :=
                       if Qlt_le_dec left (1 # 10000) then del kept symbol
                       else kept;
                     trade_history := trade_history p |}
                  symbol action shares_to_sell amount_dollars current_price
                  reason confidence
            else
              ret (TradeFail ("No position in " ++ symbol ++ " to sell"), p)
        end
    | HOLD =>
        (* neither branch binds [shares]; the trade record reads it *)
        _ <- datetime_now ;;
        ret (TradeRaises "UnboundLocalError", p)
    end.

(** What the loop of [auto_execute_trades] carries: the session, the
    trades executed, and the exception that ended the loop. *)
Record Auto := {
  session : Session;
  executed_trades : list ExecutedTrade;
  raised : option string
}.

Definition auto_trade (rec : Recommendation) (amount current_price : Q)
  (acc : Auto) : M Auto :=
  let symbol := rec_symbol rec in
  let s := session acc in
  out <- execute_paper_trade (portfolio s) symbol (action rec) amount
           current_price ("[AUTO] " ++ reason rec) (rec_confidence rec) ;;
  let (result, p) := out in
  match result with
  | TradeOk _ =>
      timestamp <- datetime_now ;;
      ret {| session :=
               {| portfolio := p;
                  recommendation_history :=
                    recommendation_history s
                    ++ [ {| he_timestamp := timestamp; he_symbol := symbol;
                            he_action := action rec;
                            entry_price := current_price;
                            he_confidence := rec_confidence rec;
                            he_reason := reason rec |} ] |};
             executed_trades :=
               executed_trades acc
               ++ [ {| et_symbol := symbol; et_action := action rec;
                       et_amount := amount; et_price := current_price |} ];
             raised := None |}
  | TradeFail _ =>
      ret {| session :=
               {| portfolio := p;
                  recommendation_history := recommendation_history s |};
             executed_trades := executed_trades acc; raised := None |}
  | TradeRaises e =>
      ret {| session :=
               {| portfolio := p;
                  recommendation_history := recommendation_history s |};
             executed_trades := executed_trades acc; raised := Some e |}
  end.

(** The body of the loop of [auto_execute_trades]. *)
Definition auto_step (rec : Recommendation) (acc : Auto) : M Auto :=
  match raised acc with
  | Some _ => ret acc
  | None =>
      if Rlt_dec (rec_confidence rec) 0.6 then ret acc
      else
        price_info <- get_stock_price (rec_symbol rec) ;;
        match price_info with
        | None => ret acc
        | Some current_price =>
            let p := portfolio (session acc) in
            let share := (inject_Z (target_allocation_percent rec) / 100)%Q in
            match action rec with
            | BUY =>
                let amount := (cash p * share)%Q in
                if Qlt_le_dec amount 10 then ret acc
                else auto_trade rec amount current_price acc
            | SELL =>
                match Py.get (positions p) (rec_symbol rec) with
                | None => ret acc
                | Some pos =>
                    auto_trade rec
                      (App.shares pos * current_price * share)%Q
                      current_price acc
                end
            | HOLD => ret acc
            end
        end
  end.

Definition auto_execute_trades (s : Session)
  (recommendations : list Recommendation) : M Auto :=
  acc <- foldM auto_step recommendations
           {| session := s; executed_trades := []; raised := None |} ;;
  match raised acc, executed_trades acc with
  | None, _ :: _ => _ <- save_portfolio ;; ret acc
  | _, _ => ret acc
  end.

End Clock.

End App.

(** ** Sample environments

    Environments used to run the model on concrete inputs: a clock that
    advances by one second per reading, a symbol search without results,
    one quote answer for every symbol and a flat price history of a
    given number of daily bars. *)

Definition flat_bar : Bar := {| Close := 100%R; Volume := 1000000%R |}.

Definition sample_env (info : InfoResponse) (bars : nat) : Env :=
  {| clock := fun n => (Z.of_nat n * 1000000)%Z;
     yf_search := fun _ _ => Some [];
     yf_info := fun _ _ => info;
     yf_history := fun _ _ => Some (repeat flat_bar bars) |}.

(** A symbol search that knows one company: any spelling of "uber" finds
    UBER on the New York Stock Exchange. *)
Definition uber_env : Env :=
  {| clock := fun n => (Z.of_nat n * 1000000)%Z;
     yf_search := fun _ name =>
       if String.eqb (Py.lower name) "uber"
       then Some [ {| q_exchange := Some "NYQ"; q_symbol := Some "UBER" |} ]
       else Some [];
     yf_info := fun _ _ => InfoRaises "HTTP 404";
     yf_history := fun _ _ => None |}.

(** Quotes by symbol: NVDA trades at 120.456 and reports no exchange,
    SNDL trades at 1.85 on an accepted exchange, the quote of any other
    symbol raises. *)
Definition quotes_env : Env :=
  {| clock := fun n => (Z.of_nat n * 1000000)%Z;
     yf_search := fun _ _ => Some [];
     yf_info := fun _ symbol =>
       if String.eqb symbol "NVDA" then Info (Some (120456 # 1000)%Q) None None
       else if String.eqb symbol "SNDL"
       then Info None (Some (185 # 100)%Q) (Some "NMS")
       else InfoRaises "HTTP 404";
     yf_history := fun _ _ => Some (repeat flat_bar 10) |}.

(** An engine that knows two companies by name, with no theme table, the
    default minimum price and the default half-life. *)
Definition two_company_engine : LocalTradingEngine.t :=
  {| LocalTradingEngine.sentiment := SentimentAnalyzer.default;
     LocalTradingEngine.companies :=
       {| CompanyDetector._aliases := [("nvidia", "NVDA"); ("sundial", "SNDL")];
          CompanyDetector._tradeable := ["NVDA"; "SNDL"] |};
     LocalTradingEngine.themes :=
       {| ThemeMapper._themes := []; ThemeMapper._tradeable := ["NVDA"; "SNDL"] |};
     LocalTradingEngine.price_filter := ExchangePriceFilter.default;
     LocalTradingEngine.signals := SignalGenerator.default |}.

(** ** Predicates used to state properties *)

(** The range of the scores that the built-in lexicon can produce. *)
Definition in_score_range (s : Q) : Prop :=
  (-1425 # 1000 <= s)%Q /\ (s <= 135 # 100)%Q.

(** [quote] passes the test of [_lookup]: its exchange is an accepted one
    and its symbol is not empty. *)
Definition listed_as (quote : SearchQuote) (symbol : string) : Prop :=
  q_symbol quote = Some symbol /\ symbol <> ""
  /\ exists exchange,
       q_exchange quote = Some exchange /\ In exchange VALID_EXCHANGES.

(** The weights that the basket [stock_list] gives to [ticker], and the
    weights that the baskets of all keywords found in [text] give to it,
    in the order of the theme table. *)
Definition basket_weights (ticker : string) (stock_list : list (string * Q))
  : list Q :=
  map snd (List.filter (fun e : string * Q => String.eqb (fst e) ticker) stock_list).

Definition matched_weights (self : ThemeMapper.t) (text ticker : string)
  : list Q :=
  flat_map
    (fun entry : string * list (string * Q) =>
       if Py.contains (Py.lower text) (fst entry)
       then basket_weights ticker (snd entry) else [])
    (ThemeMapper._themes self).

(** The number of entries of a list of ticker entries that name
    [ticker]. *)
Definition entries_of (ticker : string) (entries : list (string * R)) : nat :=
  length (List.filter (fun e => String.eqb (fst e) ticker) entries).

(** The story count of a ticker of the accumulator; 0 when the ticker
    is not in it. *)
Definition count_of (o : option TickerData) : nat :=
  match o with Some td => td_story_count td | None => 0%nat end.

(** A result of the technical analyzer that is a snapshot has its
    score within [-1, 1] and its confidence within [0, 1]; and the
    technical-analysis cache of a world holds only such results. *)
Definition snapshot_in_range (r : TAResult) : Prop :=
  match r with
  | TASuccess snap =>
      (-1 <= technical_score snap <= 1
       /\ 0 <= technical_confidence snap <= 1)%R
  | TAFail _ => True
  end.

Definition ta_cache_in_range (w : World) : Prop :=
  map_Forall (fun _ (e : TAResult * Z) => snapshot_in_range (fst e))
             (_ta_cache w).


(** The action [a] is the one that the thresholds give to a blended
    score and a blended confidence. *)
Definition follows_thresholds (score conf : R) (a : Action) : Prop :=
  ((a = BUY <-> score > 0.15 /\ conf >= 0.3)
   /\ (a = SELL <-> score < -0.15 /\ conf >= 0.3)
   /\ (a = HOLD
       <-> ~ (score > 0.15 /\ conf >= 0.3) /\ ~ (score < -0.15 /\ conf >= 0.3))
   /\ (score = 0.15 \/ score = -0.15 -> a = HOLD))%R.

(** * Properties *)

(** ** Rounding of rationals *)

Section Rounding.

Local Open Scope Q_scope.

Lemma round_half_even_lower (k : Z) (y : Q) :
  inject_Z k <= y -> (k <= Py.round_half_even y)%Z.
Proof.
  intros Hy. unfold Py.round_half_even.
  assert (Hf : (k <= Qfloor y)%Z).
  { rewrite <- (Qfloor_Z k). now apply Qfloor_resp_le. }
  destruct (Qcompare _ _); [destruct (Z.even _) | | ]; lia.
Qed.

Lemma round_half_even_upper (k : Z) (y : Q) :
  y <= inject_Z k -> (Py.round_half_even y <= k)%Z.
Proof.
  intros Hy. unfold Py.round_half_even.
  assert (Hf : (Qfloor y <= k)%Z).
  { rewrite <- (Qfloor_Z k). now apply Qfloor_resp_le. }
  destruct (Z.eq_dec (Qfloor y) k) as [He | Hne].
  - assert (Hfl := Qfloor_le y). rewrite He in Hfl.
    assert (Heq : y == inject_Z k) by (apply Qle_antisym; assumption).
    rewrite He.
    assert (Hc : Qcompare (y - inject_Z k) (1 # 2) = Lt).
    { rewrite <- Qlt_alt. rewrite Heq. unfold Qminus.
      rewrite Qplus_opp_r. reflexivity. }
    rewrite Hc. lia.
  - destruct (Qcompare _ _); [destruct (Z.even _) | | ]; lia.
Qed.

(** A bound with at most [ndigits] decimals survives [round]. *)
Lemma round_between (a b : Z) (x : Q) (ndigits : nat) :
  let p := inject_Z (10 ^ Z.of_nat ndigits) in
  inject_Z a / p <= x -> x <= inject_Z b / p ->
  inject_Z a / p <= Py.round x ndigits /\ Py.round x ndigits <= inject_Z b / p.
Proof.
  intros p Ha Hb. unfold Py.round. fold p.
  assert (Hp : 0 < p).
  { unfold p. change 0 with (inject_Z 0). rewrite <- Zlt_Qlt.
    apply Z.pow_pos_nonneg; lia. }
  assert (Hp' : ~ p == 0) by (intros E; rewrite E in Hp; discriminate).
  split; apply Qmult_le_r with (z := p); try assumption;
    unfold Qdiv; rewrite <- !Qmult_assoc, (Qmult_comm (/ p)),
      (Qmult_inv_r _ Hp'), !Qmult_1_r; rewrite <- Zle_Qle.
  - apply round_half_even_lower.
    apply Qmult_le_r with (z := p) in Ha; [| assumption].
    unfold Qdiv in Ha.
    rewrite <- Qmult_assoc, (Qmult_comm (/ p)), (Qmult_inv_r _ Hp'), Qmult_1_r in Ha.
    exact Ha.
  - apply round_half_even_upper.
    apply Qmult_le_r with (z := p) in Hb; [| assumption].
    unfold Qdiv in Hb.
    rewrite <- Qmult_assoc, (Qmult_comm (/ p)), (Qmult_inv_r _ Hp'), Qmult_1_r in Hb.
    exact Hb.
Qed.

End Rounding.

(** ** Sentiment analyzer *)

Section Sentiment.

Import SentimentAnalyzer.

Local Open Scope Q_scope.

(** A value clamped into [0.1, 1] and rounded to 3 decimals is still in
    [0.1, 1]. *)
Lemma clamped_confidence_range (x : Q) :
  1 # 10 <= Py.round (Qmax (1 # 10) (Qmin 1 x)) 3
  /\ Py.round (Qmax (1 # 10) (Qmin 1 x)) 3 <= 1.
Proof.
  set (c := Qmax (1 # 10) (Qmin 1 x)).
  assert (H1 : 1 # 10 <= c) by apply Q.le_max_l.
  assert (H2 : c <= 1).
  { unfold c. apply Q.max_lub; [discriminate | apply Q.le_min_l]. }
  assert (Ea : inject_Z 100 / inject_Z (10 ^ Z.of_nat 3) == 1 # 10)
    by reflexivity.
  assert (Eb : inject_Z 1000 / inject_Z (10 ^ Z.of_nat 3) == 1)
    by reflexivity.
  pose proof (round_between 100 1000 c 3) as Hr. cbv zeta in Hr.
  rewrite Ea, Eb in Hr. exact (Hr H1 H2).
Qed.

(** The confidence of every result lies in [0.1, 1]. *)
Lemma analyze_confidence_range (self : SentimentAnalyzer.t) (text : string) :
  1 # 10 <= confidence (analyze self text) /\ confidence (analyze self text) <= 1.
Proof.
  unfold analyze. destruct (scores_of self text) as [| s0 l] eqn:E.
  - simpl. split; discriminate.
  - cbv zeta. cbn [confidence]. apply clamped_confidence_range.
Qed.

(** C1: [analyze] does not keep the score within [-1, 1]: an intensifier
    of factor 1.5 applied to the lexicon score -0.95 of "bankrupt" gives
    the single contribution -1.425, which is the score returned.  (The
    confidence of that result, 0.68, is within [0.1, 1].) *)
Theorem analyze_score_below_minus_one :
  let r := analyze default "extremely bankrupt" in
  score r == -1425 # 1000 /\ score r < -1 /\ word_hits r = 1%nat
  /\ confidence r == 68 # 100.
Proof. vm_compute. repeat split; reflexivity. Qed.

End Sentiment.

(** ** No token is scored twice *)

Section TokenScan.

Import SentimentAnalyzer.

Lemma get_in {A} (d : Py.dict A) (k : string) (v : A) :
  Py.get d k = Some v -> In (k, v) d.
Proof.
  induction d as [| [k' v'] d IH]; simpl; [discriminate |].
  destruct (String.eqb k k') eqn:E.
  - apply String.eqb_eq in E. subst k'. intros [= ->]. now left.
  - intros H. right. now apply IH.
Qed.

Lemma mem_in (k : string) (l : list string) : Py.mem k l = true -> In k l.
Proof.
  unfold Py.mem. rewrite existsb_exists. intros [x [Hx E]].
  apply String.eqb_eq in E. now subst x.
Qed.

Lemma lexicon_word_some (self : SentimentAnalyzer.t) (token : string) (v : Q) :
  Py.get (_single_word self) token = Some v -> lexicon_word self token = true.
Proof. unfold lexicon_word, Py.has_key. now intros ->. Qed.

Lemma lexicon_word_none (self : SentimentAnalyzer.t) (token : string) :
  Py.get (_single_word self) token = None -> lexicon_word self token = false.
Proof. unfold lexicon_word, Py.has_key. now intros ->. Qed.

Lemma intensifier_not_scored (self : SentimentAnalyzer.t) (token : string) (f : Q) :
  modifiers_apart self = true ->
  Py.get INTENSIFIERS token = Some f -> Py.get (_single_word self) token = None.
Proof.
  unfold modifiers_apart. rewrite andb_true_iff, !forallb_forall.
  intros [Hi _] Hg. apply get_in in Hg. specialize (Hi _ Hg). simpl in Hi.
  unfold lexicon_word, Py.has_key in Hi.
  now destruct (Py.get (_single_word self) token).
Qed.

Lemma negation_not_scored (self : SentimentAnalyzer.t) (token : string) :
  modifiers_apart self = true ->
  Py.mem token NEGATION_WORDS = true -> Py.get (_single_word self) token = None.
Proof.
  unfold modifiers_apart. rewrite andb_true_iff, !forallb_forall.
  intros [_ Hn] Hm. apply mem_in in Hm. specialize (Hn _ Hm).
  unfold lexicon_word, Py.has_key in Hn.
  now destruct (Py.get (_single_word self) token).
Qed.

(** One step of the loop of [scan]. *)
Lemma scan_cons (self : SentimentAnalyzer.t) (token : string) (rest : list string) :
  scan self (token :: rest) =
    let intensifier :=
      match Py.get INTENSIFIERS token with Some f => f | None => 1%Q end in
    let single := _single_word self in
    let regular :=
      match Py.get single token with
      | Some v => v :: scan self rest
      | None => scan self rest
      end in
    let negated :=
      match rest with
      | next_token :: rest' =>
          if Py.mem token NEGATION_WORDS then
            match Py.get single next_token with
            | Some v => (v * (-75 # 100))%Q :: scan self rest'
            | None => regular
            end
          else regular
      | [] => regular
      end in
    match rest with
    | next_token :: rest' =>
        if negb (Qeq_bool intensifier 1) then
          match Py.get single next_token with
          | Some v => (v * intensifier)%Q :: scan self rest'
          | None => negated
          end
        else negated
    | [] => negated
    end.
Proof. destruct rest; reflexivity. Qed.

(** The token scan scores each lexicon word of the token list once, and
    nothing else. *)
Lemma scan_length (self : SentimentAnalyzer.t) :
  modifiers_apart self = true ->
  forall tokens,
    length (scan self tokens) = length (List.filter (lexicon_word self) tokens).
Proof.
  intros Hapart tokens.
  enough (H : forall n tokens, (length tokens <= n)%nat ->
            length (scan self tokens)
            = length (List.filter (lexicon_word self) tokens))
    by (apply (H (length tokens)); lia).
  clear tokens. induction n as [| n IH]; intros tokens Hlen.
  - destruct tokens; [reflexivity | simpl in Hlen; lia].
  - destruct tokens as [| token rest]; [reflexivity |].
    simpl in Hlen.
    assert (IHrest : length (scan self rest)
                     = length (List.filter (lexicon_word self) rest))
      by (apply IH; lia).
    assert (Hreg :
      length (match Py.get (_single_word self) token with
              | Some v => v :: scan self rest
              | None => scan self rest
              end)
      = length (List.filter (lexicon_word self) (token :: rest))).
    { cbn [List.filter].
      destruct (Py.get (_single_word self) token) as [v |] eqn:Et.
      - rewrite (lexicon_word_some _ _ _ Et). cbn [length]. now rewrite IHrest.
      - rewrite (lexicon_word_none _ _ Et). exact IHrest. }
    destruct rest as [| next_token rest'].
    + rewrite scan_cons. cbv beta iota zeta. exact Hreg.
    + assert (IHrest' : length (scan self rest')
                        = length (List.filter (lexicon_word self) rest'))
        by (apply IH; simpl in Hlen; lia).
      rewrite scan_cons. cbv beta iota zeta.
      destruct (Py.get (_single_word self) next_token) as [v |] eqn:En.
      * assert (Hskip :
          Py.get (_single_word self) token = None ->
          forall w : Q,
            length (w :: scan self rest')
            = length (List.filter (lexicon_word self)
                        (token :: next_token :: rest'))).
        { intros Ht w. cbn [List.filter].
          rewrite (lexicon_word_none _ _ Ht), (lexicon_word_some _ _ _ En).
          cbn [length]. now rewrite IHrest'. }
        assert (Hneg :
          length (if Py.mem token NEGATION_WORDS
                  then (v * (-75 # 100))%Q :: scan self rest'
                  else match Py.get (_single_word self) token with
                       | Some v => v :: scan self (next_token :: rest')
                       | None => scan self (next_token :: rest')
                       end)
          = length (List.filter (lexicon_word self)
                      (token :: next_token :: rest'))).
        { destruct (Py.mem token NEGATION_WORDS) eqn:Em; [| exact Hreg].
          apply Hskip. now apply negation_not_scored. }
        destruct (Py.get INTENSIFIERS token) as [f |] eqn:Ei.
        -- destruct (negb (Qeq_bool f 1)); [| exact Hneg].
           apply Hskip. now apply (intensifier_not_scored self token f).
        -- exact Hneg.
      * destruct (Py.get INTENSIFIERS token) as [f |];
          [destruct (negb (Qeq_bool f 1)) |];
          destruct (Py.mem token NEGATION_WORDS); exact Hreg.
Qed.

Lemma default_modifiers_apart : modifiers_apart default = true.
Proof. vm_compute. reflexivity. Qed.

(** The phrase pass adds one score per occurrence that [count] finds. *)
Lemma phrase_scores_length (self : SentimentAnalyzer.t) (text_lower : string) :
  length (phrase_scores self text_lower)
  = list_sum (map (fun kv : string * Q => Py.count text_lower (fst kv))
                  (_multi_word self)).
Proof.
  unfold phrase_scores. induction (_multi_word self) as [| kv d IH]; simpl.
  - reflexivity.
  - now rewrite length_app, repeat_length, IH.
Qed.

Lemma word_hits_length (self : SentimentAnalyzer.t) (text : string) :
  word_hits (analyze self text) = length (scores_of self text).
Proof. unfold analyze. now destruct (scores_of self text). Qed.

(** C4, counterexample: the text "earnings beat" is one occurrence of the
    phrase "earnings beat", and it is scored twice: 0.75 by the phrase
    pass and 0.65 by the token scan for its token "beat". *)
Lemma earnings_beat_two_hits :
  scores_of default "earnings beat" = [75 # 100; 65 # 100]%Q
  /\ word_hits (analyze default "earnings beat") = 2.
Proof. split; vm_compute; reflexivity. Qed.

(** C4, as amended: with the built-in lexicon, the number of scores of a
    text is the number of phrase occurrences that [count] finds in the
    lowercased text, summed over the multi-word entries, plus the number
    of tokens that are single-word entries.  Each token that is a
    single-word entry adds exactly one score and each counted phrase
    occurrence adds exactly one score; the two passes do not know of
    each other. *)
Theorem word_hits_phrases_plus_lexicon_tokens (text : string) :
  word_hits (analyze default text)
  = list_sum (map (fun kv : string * Q => Py.count (Py.lower text) (fst kv))
                  (_multi_word default))
    + length (List.filter (lexicon_word default) (tokenize (Py.lower text))).
Proof.
  rewrite word_hits_length. unfold scores_of.
  rewrite length_app, phrase_scores_length.
  now rewrite (scan_length default default_modifiers_apart).
Qed.

End TokenScan.

(** ** Insertion-ordered dicts *)

Section Dicts.

Context {A : Type}.

Lemma get_set_eq (d : Py.dict A) (k : string) (v : A) :
  Py.get (Py.set d k v) k = Some v.
Proof.
  induction d as [| [k' v'] d IH]; simpl.
  - now rewrite String.eqb_refl.
  - destruct (String.eqb k k') eqn:E; simpl.
    + now rewrite String.eqb_refl.
    + now rewrite E.
Qed.

Lemma get_set_ne (d : Py.dict A) (k k' : string) (v : A) :
  k <> k' -> Py.get (Py.set d k v) k' = Py.get d k'.
Proof.
  intros Hne. induction d as [| [k0 v0] d IH]; simpl.
  - apply not_eq_sym in Hne. apply String.eqb_neq in Hne. now rewrite Hne.
  - destruct (String.eqb k k0) eqn:E; simpl.
    + apply String.eqb_eq in E. subst k0.
      apply not_eq_sym in Hne. apply String.eqb_neq in Hne. now rewrite Hne.
    + destruct (String.eqb k' k0); [reflexivity | exact IH].
Qed.

Lemma has_key_get_none (d : Py.dict A) (k : string) :
  Py.has_key d k = false <-> Py.get d k = None.
Proof. unfold Py.has_key. destruct (Py.get d k); split; congruence. Qed.

Lemma has_key_in_keys (d : Py.dict A) (k : string) :
  Py.has_key d k = true <-> In k (Py.keys d).
Proof.
  unfold Py.has_key, Py.keys.
  induction d as [| [k' v'] d IH]; simpl.
  - split; [discriminate | tauto].
  - destruct (String.eqb k k') eqn:E.
    + apply String.eqb_eq in E. subst. split; auto.
    + apply String.eqb_neq in E. rewrite IH. split; [auto |].
      intros [H | H]; [congruence | exact H].
Qed.

(** [d[k] = v] keeps the keys distinct and adds at most the key [k]. *)
Lemma keys_set (d : Py.dict A) (k : string) (v : A) :
  Py.keys (Py.set d k v)
  = if Py.has_key d k then Py.keys d else (Py.keys d ++ [k])%list.
Proof.
  unfold Py.keys, Py.has_key.
  induction d as [| [k' v'] d IH]; simpl; [reflexivity |].
  destruct (String.eqb k k') eqn:E; simpl.
  - apply String.eqb_eq in E. now subst.
  - rewrite IH. now destruct (Py.get d k).
Qed.

Lemma NoDup_keys_set (d : Py.dict A) (k : string) (v : A) :
  NoDup (Py.keys d) -> NoDup (Py.keys (Py.set d k v)).
Proof.
  intros Hnd. rewrite keys_set. destruct (Py.has_key d k) eqn:E; [exact Hnd |].
  apply NoDup_app. split; [exact Hnd | split].
  - intros x Hx Hk. apply list_elem_of_In in Hx, Hk.
    destruct Hk as [<- | []]. apply has_key_in_keys in Hx. congruence.
  - apply NoDup_singleton.
Qed.

End Dicts.

(** ** Company detector: the pseudo hit count of the resolver pass *)

Section DetectorHits.

Import CompanyDetector.

(** A ticker that has hits keeps them through the resolver pass. *)
Lemma dynamic_pass_keeps (dynamic_hits : Py.dict Q) (hits : Py.dict Z)
  (ticker : string) (h : Z) :
  Py.get hits ticker = Some h ->
  Py.get (dynamic_pass dynamic_hits hits) ticker = Some h.
Proof.
  unfold dynamic_pass. revert hits.
  induction dynamic_hits as [| [k r] dyn IH]; intros hits Hget; simpl.
  - exact Hget.
  - apply IH. destruct (Py.has_key hits k) eqn:Ek; simpl; [exact Hget |].
    rewrite get_set_ne; [exact Hget |].
    intros ->. apply has_key_get_none in Ek. congruence.
Qed.

Lemma dynamic_pass_new (dynamic_hits : Py.dict Q) (hits : Py.dict Z)
  (ticker : string) (relevance : Q) :
  Py.get dynamic_hits ticker = Some relevance ->
  Py.get hits ticker = None ->
  Py.get (dynamic_pass dynamic_hits hits) ticker = Some (pseudo_hits relevance).
Proof.
  unfold dynamic_pass. revert hits.
  induction dynamic_hits as [| [k r] dyn IH]; intros hits Hdyn Hnone; simpl.
  - discriminate.
  - simpl in Hdyn. destruct (String.eqb ticker k) eqn:E.
    + apply String.eqb_eq in E. subst k. injection Hdyn as ->.
      apply has_key_get_none in Hnone. rewrite Hnone. simpl.
      apply (dynamic_pass_keeps dyn). apply get_set_eq.
    + apply IH; [exact Hdyn |].
      destruct (Py.has_key hits k); simpl; [exact Hnone |].
      rewrite get_set_ne; [exact Hnone |].
      apply String.eqb_neq in E. congruence.
Qed.

(** C3, counterexample: in the text "UBER shares jump" the uppercase run
    "UBER" is a candidate of relevance 0.9 and the symbol search resolves
    it; no alias or symbol of the detector hits it; its pseudo hit count
    is 2, whereas max(1, round(0.9 * 3)) is 3. *)
Lemma uppercase_candidate_counts_two :
  let self := {| _aliases := [("apple", "AAPL")]; _tradeable := ["AAPL"] |} in
  let text := "UBER shares jump" in
  let dynamic_hits :=
    fst (DynamicResolver.extract_and_resolve text uber_env World0) in
  dynamic_hits = [("UBER", 9 # 10)%Q]
  /\ Py.get (static_hits self text) "UBER" = None
  /\ Py.get (ticker_hits self text dynamic_hits) "UBER" = Some 2%Z
  /\ Z.max 1 (Py.round_half_even ((9 # 10) * 3)%Q) = 3%Z.
Proof. repeat split; vm_compute; reflexivity. Qed.

(** C3, as amended: a ticker that the resolver pass returns with some
    relevance and that the alias and symbol passes did not hit gets the
    pseudo hit count max(1, int(relevance * 3)), where [int] truncates:
    the product is cut, not rounded. *)
Theorem dynamic_ticker_pseudo_hits (self : CompanyDetector.t) (text : string)
  (dynamic_hits : Py.dict Q) (ticker : string) (relevance : Q) :
  Py.get dynamic_hits ticker = Some relevance ->
  Py.get (static_hits self text) ticker = None ->
  Py.get (ticker_hits self text dynamic_hits) ticker
  = Some (Z.max 1 (Py.int (relevance * 3)%Q)).
Proof.
  intros Hdyn Hnone. unfold ticker_hits.
  now apply dynamic_pass_new.
Qed.

Lemma dynamic_ticker_pseudo_hits_witness :
  let self := {| _aliases := [("apple", "AAPL")]; _tradeable := ["AAPL"] |} in
  Py.get (ticker_hits self "Uber and Apple" [("UBER", 7 # 10)%Q]) "UBER"
  = Some (Z.max 1 (Py.int ((7 # 10) * 3)%Q)).
Proof.
  intros self.
  apply (dynamic_ticker_pseudo_hits self "Uber and Apple"
           [("UBER", 7 # 10)%Q] "UBER" (7 # 10)%Q); reflexivity.
Defined.

End DetectorHits.

(** ** Company detector: what the resolver pass can add *)

Section ResolverRelevance.

Import CompanyDetector.

Local Open Scope Q_scope.

(** A property of the accumulator that every round of a loop keeps
    holds when the loop ends. *)
Lemma foldM_invariant {A B} (I : B -> Prop) (body : A -> B -> M B)
  (l : list A) :
  (forall x acc env w, In x l -> I acc -> I (fst (body x acc env w))) ->
  forall acc env w, I acc -> I (fst (foldM body l acc env w)).
Proof.
  induction l as [| x l IH]; intros Hbody acc env w Hacc; simpl.
  - exact Hacc.
  - unfold bind. pose proof (Hbody x acc env w (or_introl eq_refl) Hacc) as Hx.
    destruct (body x acc env w) as [acc' w']. apply IH; [| exact Hx].
    intros y acc0 env0 w0 Hy. apply Hbody. now right.
Qed.

(** The two relevances of the resolver: 0.7 for a capitalized word, 0.9
    for an uppercase run. *)
Definition resolver_relevance (r : Q) : Prop := r = 7 # 10 \/ r = 9 # 10.

Lemma set_values {A} (P : A -> Prop) (d : Py.dict A) (k : string) (v : A) :
  Forall (fun kv => P (snd kv)) d -> P v ->
  Forall (fun kv => P (snd kv)) (Py.set d k v).
Proof.
  intros Hd Hv. induction d as [| [k' v'] d IH]; simpl.
  - now repeat constructor.
  - inversion Hd; subst. destruct (String.eqb k k'); constructor; auto.
Qed.

Lemma get_values {A} (P : A -> Prop) (d : Py.dict A) (k : string) (v : A) :
  Forall (fun kv => P (snd kv)) d -> Py.get d k = Some v -> P v.
Proof.
  intros Hd Hg. apply get_in in Hg.
  rewrite List.Forall_forall in Hd. exact (Hd _ Hg).
Qed.

Lemma fold_left_values {A X} (P : A -> Prop) (step : Py.dict A -> X -> Py.dict A)
  (l : list X) (d : Py.dict A) :
  (forall d x, Forall (fun kv => P (snd kv)) d ->
               Forall (fun kv => P (snd kv)) (step d x)) ->
  Forall (fun kv => P (snd kv)) d ->
  Forall (fun kv => P (snd kv)) (fold_left step l d).
Proof.
  intros Hstep. revert d. induction l as [| x l IH]; intros d Hd; simpl; auto.
Qed.

Lemma candidates_relevance (text : string) :
  Forall (fun kv => resolver_relevance (snd kv)) (DynamicResolver.candidates text).
Proof.
  unfold DynamicResolver.candidates.
  apply fold_left_values.
  - intros d word Hd. destruct (negb _); [| exact Hd].
    apply set_values; [exact Hd | now right].
  - apply fold_left_values; [| constructor].
    intros d word Hd. destruct (_ && _); [| exact Hd].
    apply set_values; [exact Hd | now left].
Qed.

Lemma extract_and_resolve_relevance (text : string) (env : Env) (w : World) :
  Forall (fun kv => resolver_relevance (snd kv))
         (fst (DynamicResolver.extract_and_resolve text env w)).
Proof.
  unfold DynamicResolver.extract_and_resolve.
  apply foldM_invariant; [| constructor].
  intros [candidate relevance] resolved env0 w0 Hin Hres.
  pose proof (candidates_relevance text) as Hc.
  rewrite List.Forall_forall in Hc. specialize (Hc _ Hin). cbn [snd] in Hc.
  unfold bind.
  destruct (DynamicResolver.resolve candidate env0 w0) as [ticker w1].
  destruct ticker as [[| c t] |]; cbn [ret fst]; try exact Hres.
  apply set_values; [exact Hres |].
  destruct (Py.get resolved (String c t)) as [old |] eqn:Eg.
  - pose proof (get_values _ _ _ _ Hres Eg) as Hold.
    unfold Qmax, GenericMinMax.gmax. destruct (old ?= relevance); assumption.
  - unfold Qmax, GenericMinMax.gmax.
    destruct Hc as [-> | ->]; [now left | now right].
Qed.

(** Both relevances give the pseudo hit count 2: every ticker that only
    the resolver pass finds enters the hit counts with 2 hits. *)
Lemma detect_resolver_only_two_hits (self : CompanyDetector.t) (text : string)
  (env : Env) (w : World) (ticker : string) :
  let dynamic_hits := fst (DynamicResolver.extract_and_resolve text env w) in
  Py.has_key dynamic_hits ticker = true ->
  Py.get (static_hits self text) ticker = None ->
  Py.get (ticker_hits self text dynamic_hits) ticker = Some 2%Z.
Proof.
  intros dynamic_hits Hkey Hstatic. unfold Py.has_key in Hkey.
  destruct (Py.get dynamic_hits ticker) as [relevance |] eqn:Eg; [| discriminate].
  unfold ticker_hits. rewrite (dynamic_pass_new _ _ _ _ Eg Hstatic).
  pose proof (get_values _ _ _ _ (extract_and_resolve_relevance text env w) Eg)
    as [-> | ->]; reflexivity.
Qed.

End ResolverRelevance.

(** ** Signal generator: decay and action thresholds *)

Section Signals.

Import SignalGenerator.

Local Open Scope R_scope.

Lemma lambda_pos (self : SignalGenerator.t) : 0 < _lambda self.
Proof.
  unfold _lambda. apply Rdiv_lt_0_compat.
  - rewrite <- ln_1. apply ln_increasing; lra.
  - apply Rlt_le_trans with 0.1; [lra | apply Rmax_r].
Qed.

(** C6, counterexample: ages below zero are clamped to zero, so two
    different negative ages weigh the same. *)
Lemma negative_ages_weigh_the_same :
  -2 < -1
  /\ _time_decay_weight default (-2) = _time_decay_weight default (-1)
  /\ ~ _time_decay_weight default (-2) > _time_decay_weight default (-1).
Proof.
  assert (E : _time_decay_weight default (-2) = _time_decay_weight default (-1)).
  { unfold _time_decay_weight. rewrite !Rmax_right by lra. reflexivity. }
  split; [lra | split; [exact E |]]. rewrite E. apply Rlt_irrefl.
Qed.

(** C6, as amended: the decay weight never increases with the story
    age: of two ages [age1 < age2] the older story weighs no more than
    the younger one.  The weight is
    [exp (- ln 2 / max (halfLife, 0.1) * max (age, 0))]; it lies between
    0 and 1, and an age at or below 0 weighs 1. *)
Theorem decay_weight_never_increases (self : SignalGenerator.t)
  (age1 age2 : R) :
  age1 < age2 ->
  _time_decay_weight self age1 >= _time_decay_weight self age2
  /\ _time_decay_weight self age1
     = exp (- (ln 2 / Rmax (DECAY_HALF_LIFE_HOURS self) 0.1) * Rmax age1 0)
  /\ 0 <= _time_decay_weight self age1 <= 1
  /\ (age1 <= 0 -> _time_decay_weight self age1 = 1).
Proof.
  intros Hlt. assert (Hl := lambda_pos self).
  assert (Hle : forall x y, x <= y -> exp x <= exp y).
  { intros x y [H | ->]; [apply Rlt_le, exp_increasing, H | lra]. }
  split; [| split; [reflexivity | split]].
  - apply Rle_ge. unfold _time_decay_weight. apply Hle.
    assert (Hmax : Rmax age1 0 <= Rmax age2 0)
      by (apply Rle_max_compat_r; lra).
    nra.
  - unfold _time_decay_weight. split; [apply Rlt_le, exp_pos |].
    rewrite <- exp_0. apply Hle.
    assert (0 <= Rmax age1 0) by apply Rmax_r. nra.
  - intros Hneg. unfold _time_decay_weight.
    rewrite Rmax_right by exact Hneg. rewrite Rmult_0_r. apply exp_0.
Qed.

Lemma decay_weight_never_increases_witness :
  _time_decay_weight default 1 >= _time_decay_weight default 7
  /\ _time_decay_weight default 1
     = exp (- (ln 2 / Rmax (DECAY_HALF_LIFE_HOURS default) 0.1) * Rmax 1 0)
  /\ 0 <= _time_decay_weight default 1 <= 1
  /\ (1 <= 0 -> _time_decay_weight default 1 = 1).
Proof. apply (decay_weight_never_increases default 1 7); lra. Defined.

(** The weight is [exp (- ln 2 / halfLife * age)] on the ages that are
    not clamped, for a half-life of at least 0.1. *)
Lemma decay_weight_formula (self : SignalGenerator.t) (age : R) :
  0.1 <= DECAY_HALF_LIFE_HOURS self -> 0 <= age ->
  _time_decay_weight self age
  = exp (- (ln 2 / DECAY_HALF_LIFE_HOURS self) * age).
Proof.
  intros Hh Ha. unfold _time_decay_weight, _lambda.
  now rewrite (Rmax_left _ 0.1), (Rmax_left age 0) by lra.
Qed.

Lemma Rltb_true (a b : R) : Rltb a b = true <-> a < b.
Proof. unfold Rltb. destruct (Rlt_dec a b); split; auto; discriminate. Qed.

Lemma Rleb_true (a b : R) : Rleb a b = true <-> a <= b.
Proof. unfold Rleb. destruct (Rle_dec a b); split; auto; discriminate. Qed.

Lemma Rltb_false (a b : R) : Rltb a b = false <-> ~ a < b.
Proof. unfold Rltb. destruct (Rlt_dec a b); split; auto; try discriminate; tauto. Qed.

Lemma Rleb_false (a b : R) : Rleb a b = false <-> ~ a <= b.
Proof. unfold Rleb. destruct (Rle_dec a b); split; auto; try discriminate; tauto. Qed.

(** The three cases of [choose_action]. *)
Lemma choose_action_spec (score conf : R) :
  (choose_action score conf = BUY <-> score > 0.15 /\ conf >= 0.3)
  /\ (choose_action score conf = SELL <-> score < -0.15 /\ conf >= 0.3)
  /\ (choose_action score conf = HOLD
      <-> ~ (score > 0.15 /\ conf >= 0.3) /\ ~ (score < -0.15 /\ conf >= 0.3)).
Proof.
  unfold choose_action, BUY_THRESHOLD, SELL_THRESHOLD, MIN_CONFIDENCE, Rltb, Rleb.
  destruct (Rlt_dec 0.15 score); destruct (Rle_dec 0.3 conf);
    destruct (Rlt_dec score (-0.15)); simpl;
    repeat split; intros; repeat split;
    try discriminate; try reflexivity;
    repeat match goal with H : _ /\ _ |- _ => destruct H end;
    try lra;
    try (intros [? ?]; lra);
    try (exfalso; match goal with H : ~ _ |- _ => apply H; split; lra end).
Qed.

End Signals.

(** ** Signal generator: the order of the recommendations *)

Section SortedOutput.

Import SignalGenerator.

Local Open Scope R_scope.

Lemma key_lt_false (r1 r2 : Recommendation) :
  key_lt (sort_key r1) (sort_key r2) = false <-> key_le r2 r1.
Proof.
  unfold key_lt, sort_key, key_le, Rltb. cbn [fst snd].
  destruct (Nat.ltb_spec (action_order (action r1)) (action_order (action r2)));
    destruct (Nat.eqb_spec (action_order (action r1)) (action_order (action r2)));
    destruct (Rlt_dec (- rec_confidence r1) (- rec_confidence r2));
    simpl; split; intros H'; try discriminate; try reflexivity;
    try (destruct H' as [H' | [H' H'']]; try lia; lra).
  - right. split; [lia | lra].
  - left. lia.
  - left. lia.
Qed.

Lemma key_lt_true (r1 r2 : Recommendation) :
  key_lt (sort_key r1) (sort_key r2) = true -> key_le r1 r2.
Proof.
  unfold key_lt, sort_key, key_le, Rltb. cbn [fst snd].
  destruct (Nat.ltb_spec (action_order (action r1)) (action_order (action r2)));
    destruct (Nat.eqb_spec (action_order (action r1)) (action_order (action r2)));
    destruct (Rlt_dec (- rec_confidence r1) (- rec_confidence r2));
    simpl; intros H'; try discriminate; try (left; lia).
  right. split; [lia | lra].
Qed.

Lemma key_le_trans (r1 r2 r3 : Recommendation) :
  key_le r1 r2 -> key_le r2 r3 -> key_le r1 r3.
Proof.
  unfold key_le. intros [H1 | [H1 H1']] [H2 | [H2 H2']].
  - left. lia.
  - left. lia.
  - left. lia.
  - right. split; [lia | lra].
Qed.

Lemma insert_sorted_perm (r : Recommendation) (l : list Recommendation) :
  Permutation (insert_sorted r l) (r :: l).
Proof.
  induction l as [| y l IH]; simpl; [reflexivity |].
  destruct (key_lt (sort_key y) (sort_key r)); [| reflexivity].
  rewrite IH. apply perm_swap.
Qed.

Lemma sort_perm (l : list Recommendation) : Permutation (sort l) l.
Proof.
  induction l as [| r l IH]; simpl; [reflexivity |].
  rewrite insert_sorted_perm. now constructor.
Qed.

Lemma insert_sorted_sorted (r : Recommendation) (l : list Recommendation) :
  StronglySorted key_le l -> StronglySorted key_le (insert_sorted r l).
Proof.
  induction l as [| y l IH]; intros Hs; simpl.
  - repeat constructor.
  - inversion Hs as [| ? ? Hs' Hall]; subst.
    destruct (key_lt (sort_key y) (sort_key r)) eqn:E.
    + constructor; [now apply IH |].
      apply (Permutation_Forall (Permutation_sym (insert_sorted_perm r l))).
      constructor; [now apply key_lt_true | exact Hall].
    + apply key_lt_false in E. constructor; [exact Hs |].
      constructor; [exact E |].
      eapply Forall_impl; [exact Hall |].
      intros z Hz. now apply key_le_trans with y.
Qed.

Lemma sort_sorted (l : list Recommendation) : StronglySorted key_le (sort l).
Proof.
  induction l as [| r l IH]; simpl; [constructor |].
  now apply insert_sorted_sorted.
Qed.

(** Two recommendations of the same action and confidence are not
    strictly ordered by the key. *)
Lemma same_keys_not_lt (a : Action) (c : R) (r1 r2 : Recommendation) :
  same_keys a c r1 = true -> same_keys a c r2 = true ->
  key_lt (sort_key r1) (sort_key r2) = false.
Proof.
  unfold same_keys. rewrite !andb_true_iff.
  intros [H1 H1'] [H2 H2'].
  destruct (Req_dec_T (rec_confidence r1) c); [| discriminate].
  destruct (Req_dec_T (rec_confidence r2) c); [| discriminate].
  apply Nat.eqb_eq in H1, H2.
  apply key_lt_false. right. split; [lia | lra].
Qed.

Lemma filter_insert_sorted (a : Action) (c : R) (r : Recommendation)
  (l : list Recommendation) :
  List.filter (same_keys a c) (insert_sorted r l)
  = List.filter (same_keys a c) (r :: l).
Proof.
  induction l as [| y l IH]; [reflexivity |]. cbn [insert_sorted].
  destruct (key_lt (sort_key y) (sort_key r)) eqn:E; [| reflexivity].
  cbn [List.filter] in *. rewrite IH.
  destruct (same_keys a c y) eqn:Ey; destruct (same_keys a c r) eqn:Er;
    try reflexivity.
  rewrite (same_keys_not_lt a c y r Ey Er) in E. discriminate.
Qed.

Lemma filter_sort (a : Action) (c : R) (l : list Recommendation) :
  List.filter (same_keys a c) (sort l) = List.filter (same_keys a c) l.
Proof.
  induction l as [| r l IH]; [reflexivity |].
  cbn [sort fold_right]. fold (sort l).
  rewrite filter_insert_sorted. cbn [List.filter]. now rewrite IH.
Qed.

Lemma StronglySorted_weaken {A} (P Q : A -> A -> Prop) (l : list A) :
  (forall a b, P a b -> Q a b) -> StronglySorted P l -> StronglySorted Q l.
Proof.
  intros HPQ. induction 1 as [| a l Hs IH Hall]; constructor.
  - exact IH.
  - eapply Forall_impl; [exact Hall | auto].
Qed.

Lemma action_order_inj (a b : Action) :
  action_order a = action_order b -> a = b.
Proof. destruct a, b; simpl; congruence. Qed.

(** In the list that [generate] returns, (1) whatever follows a HOLD is
    a HOLD, so every BUY and every SELL precedes every HOLD, and of two
    recommendations with the same action the earlier one has the
    confidence that is not smaller; (2) the list is a rearrangement of
    the recommendations built per ticker; (3) the recommendations of one
    action and one confidence stand in the order in which they were
    built (the sort is stable). *)
Theorem generate_actionable_first_then_confidence (self : SignalGenerator.t)
  (story_analyses : list StoryAnalysis)
  (technical_scores : Py.dict TechnicalSnapshot) :
  StronglySorted
    (fun r1 r2 =>
       (action r1 = HOLD -> action r2 = HOLD)
       /\ (action r1 = action r2 -> rec_confidence r1 >= rec_confidence r2))
    (generate self story_analyses technical_scores)
  /\ Permutation (generate self story_analyses technical_scores)
                 (recommendations self story_analyses technical_scores)
  /\ forall (a : Action) (c : R),
       List.filter (same_keys a c) (generate self story_analyses technical_scores)
       = List.filter (same_keys a c)
           (recommendations self story_analyses technical_scores).
Proof.
  unfold generate. split; [| split].
  - eapply StronglySorted_weaken; [| apply sort_sorted].
    intros r1 r2 Hle. split.
    + intros H1. destruct Hle as [Hlt | [Heq _]]; rewrite H1 in *.
      * destruct (action r2); simpl in Hlt; lia || reflexivity.
      * now apply action_order_inj.
    + intros Ha. destruct Hle as [Hlt | [_ Hc]].
      * rewrite Ha in Hlt. lia.
      * lra.
  - apply sort_perm.
  - intros a c. apply filter_sort.
Qed.

End SortedOutput.

(** ** Signal generator: the action of each recommendation *)

Section Actions.

Import SignalGenerator.

Local Open Scope R_scope.

(** Every recommendation of [generate] is the one built for a ticker of
    the aggregated data. *)
Lemma generate_recommend (self : SignalGenerator.t)
  (story_analyses : list StoryAnalysis)
  (technical_scores : Py.dict TechnicalSnapshot) (r : Recommendation) :
  In r (generate self story_analyses technical_scores) ->
  exists ticker td,
    In (ticker, td) (aggregate self story_analyses)
    /\ ~ weight_sum td < 0.01
    /\ r = recommend ticker td (Py.get technical_scores ticker).
Proof.
  unfold generate. intros Hin.
  apply (Permutation_in _ (sort_perm _)) in Hin.
  unfold recommendations in Hin. apply in_flat_map in Hin.
  destruct Hin as [[ticker td] [Hagg Hr]].
  destruct (Rlt_dec (weight_sum td) 0.01) as [Hw | Hw]; [destruct Hr |].
  destruct Hr as [<- | []]. now exists ticker, td.
Qed.

(** One story of sentiment 0.15 on one ticker, with no technical data:
    the blended score is exactly 0.15, the confidence is 1/3, above the
    minimum of 0.3, and the recommendation is a HOLD. *)
Example boundary_story_is_hold :
  let story :=
    {| sentiment_score := 0.15; sentiment_confidence := 1;
       tickers := [("NVDA", 1)]; story_age_hours := 0;
       story_snippet := "" |} in
  exists r,
    generate default [story] [] = [r]
    /\ action r = HOLD.
Proof.
  intros story.
  assert (Hw : _time_decay_weight default 0 = 1).
  { unfold _time_decay_weight. rewrite Rmax_left by lra.
    rewrite Rmult_0_r. apply exp_0. }
  unfold generate, recommendations, aggregate, add_story.
  cbn [fold_left tickers story sentiment_score sentiment_confidence
       story_age_hours story_snippet Py.get Py.set String.eqb Ascii.eqb
       Bool.eqb new_ticker_data weighted_score_sum weight_sum confidence_sum
       td_story_count reasons flat_map app].
  rewrite !Hw.
  match goal with
  | |- context [Rlt_dec ?x 0.01] => destruct (Rlt_dec x 0.01) as [H | H]
  end; [lra |].
  cbn [sort fold_right insert_sorted app].
  eexists. split; [reflexivity |].
  cbn [action recommend].
  apply choose_action_spec. unfold agg_score, sentiment_agg.
  cbn [weighted_score_sum weight_sum Py.get]. lra.
Qed.

End Actions.

(** ** Technical analyzer: when a snapshot is produced *)

Section TechnicalHistory.

Import TechnicalAnalyzer.

Lemma compute_rsi_some (closes : list R) :
  15 <= length closes -> exists rsi, _compute_rsi closes = Some rsi.
Proof.
  intros Hlen. unfold _compute_rsi.
  destruct (Nat.ltb_spec (length closes) (14 + 1)); [lia |].
  destruct (Rlt_dec _ _); eauto.
Qed.

Lemma compute_ma_signals_some (closes : list R) :
  20 <= length closes -> exists ma, _compute_ma_signals closes = Some ma.
Proof.
  intros Hlen. unfold _compute_ma_signals.
  destruct (Nat.ltb_spec (length closes) 20); [lia | eauto].
Qed.

Lemma compute_macd_some (closes : list R) :
  26 <= length closes -> exists m, _compute_macd closes = Some m.
Proof.
  intros Hlen. unfold _compute_macd.
  destruct (Nat.ltb_spec (length closes) 26); [lia | eauto].
Qed.

Lemma compute_macd_none (closes : list R) :
  length closes < 26 -> _compute_macd closes = None.
Proof.
  intros Hlen. unfold _compute_macd.
  destruct (Nat.ltb_spec (length closes) 26); [reflexivity | lia].
Qed.

(** The history decides the outcome of [_compute]: a snapshot needs 26
    bars, the number the MACD asks for. *)
Lemma compute_history_success (symbol : string) (hist : option (list Bar)) :
  ta_success (compute_history symbol hist) = true
  <-> exists bars, hist = Some bars /\ 26 <= length bars.
Proof.
  unfold compute_history. destruct hist as [bars |].
  - destruct (Nat.ltb_spec (length bars) 20) as [Hlt | Hge].
    + split; [discriminate |]. intros [b [[= <-] Hb]]. lia.
    + destruct (Nat.lt_ge_cases (length bars) 26) as [H26 | H26].
      * rewrite (compute_macd_none (map Close bars))
          by now rewrite length_map.
        split.
        -- destruct (_compute_rsi (map Close bars));
             [destruct (_compute_ma_signals (map Close bars)) |]; discriminate.
        -- intros [b [[= <-] Hb]]. lia.
      * destruct (compute_rsi_some (map Close bars)) as [rsi ->];
          [rewrite length_map; lia |].
        destruct (compute_ma_signals_some (map Close bars)) as [ma ->];
          [rewrite length_map; lia |].
        destruct (compute_macd_some (map Close bars)) as [m ->];
          [rewrite length_map; lia |].
        split; [| reflexivity]. intros _. now exists bars.
  - split; [discriminate |]. intros [b [[=] _]].
Qed.

(** C2, counterexample: a history of 20 daily bars passes the check on
    the number of bars, and [_compute] fails all the same. *)
Lemma twenty_bars_fail :
  yf_history (sample_env (InfoRaises "") 20) 0 "NVDA" = Some (repeat flat_bar 20)
  /\ length (repeat flat_bar 20) = 20
  /\ ta_success (fst (_compute "NVDA" (sample_env (InfoRaises "") 20) World0))
     = false.
Proof.
  split; [reflexivity | split; [reflexivity |]].
  unfold _compute, bind, ticker_history, ret. cbn [fst].
  destruct (ta_success _) eqn:E; [| reflexivity].
  apply compute_history_success in E. destruct E as [bars [Hb Hlen]].
  cbn in Hb. inversion Hb; subst bars. simpl in Hlen. lia.
Qed.

(** C2, as amended: [_compute] returns a snapshot exactly when the
    history fetch answers with at least 26 daily bars; it fails when the
    fetch fails and when the history has fewer than 26 bars (with 20 to
    25 bars the first check passes and the MACD, which needs 26 closes,
    is missing). *)
Theorem compute_succeeds_from_26_bars (symbol : string) (env : Env) (w : World) :
  ta_success (fst (_compute symbol env w)) = true
  <-> exists bars,
        yf_history env (length (calls w)) symbol = Some bars
        /\ 26 <= length bars.
Proof.
  unfold _compute, bind, ticker_history, ret. cbn [fst].
  apply compute_history_success.
Qed.

End TechnicalHistory.

(** ** The three TTL caches *)

Section Caches.

Lemma resolve_cache_step (name : string) (env : Env) (w : World) :
  cache_step _resolver_cache (minutes 30) (Py.strip (Py.lower name))
    (CallSearch name) (fun v => v) (searched_ticker env w name)
    (Some (searched_ticker env w name)) (clock env (now_reads w)) w
    (DynamicResolver.resolve name env w).
Proof.
  unfold cache_step, searched_ticker, DynamicResolver.resolve, bind,
    datetime_now, get_world.
  cbn [_resolver_cache calls now_reads].
  destruct (_resolver_cache w !! Py.strip (Py.lower name))
    as [[cached_ticker cached_at] |] eqn:E.
  - unfold DynamicResolver._RESOLVER_CACHE_TTL.
    destruct (Z.ltb_spec (clock env (now_reads w) - cached_at) (minutes 30)).
    + left. exists cached_ticker, cached_at. cbn. auto.
    + right. split.
      * intros v t [= <- <-]. assumption.
      * unfold DynamicResolver._lookup, bind, search_quotes, store_resolver, ret.
        cbn. destruct (yf_search env _ name); cbn; auto.
  - right. split; [discriminate |].
    unfold DynamicResolver._lookup, bind, search_quotes, store_resolver, ret.
    cbn. destruct (yf_search env _ name); cbn; auto.
Qed.

Lemma get_price_info_cache_step (symbol : string) (env : Env) (w : World) :
  cache_step _price_cache (minutes 2) symbol (CallInfo symbol)
    (fun price => PriceOk symbol price None) (quoted_price env w symbol)
    (price_of (quoted_price env w symbol)) (clock env (now_reads w)) w
    (ExchangePriceFilter.get_price_info symbol env w).
Proof.
  unfold cache_step, quoted_price, ExchangePriceFilter.get_price_info, bind,
    datetime_now, get_world, ticker_info, store_price, ret.
  cbn [_price_cache calls now_reads].
  destruct (_price_cache w !! symbol) as [[price cached_at] |] eqn:E.
  - unfold ExchangePriceFilter._CACHE_TTL.
    destruct (Z.ltb_spec (clock env (now_reads w) - cached_at) (minutes 2)).
    + left. exists price, cached_at. cbn. auto.
    + right. split.
      * intros v t [= <- <-]. assumption.
      * cbn. destruct (yf_info env _ symbol) as [msg | cp rp ex];
          [cbn; auto |].
        destruct (ExchangePriceFilter.price_or cp rp); cbn; auto.
  - right. split; [discriminate |].
    cbn. destruct (yf_info env _ symbol) as [msg | cp rp ex]; [cbn; auto |].
    destruct (ExchangePriceFilter.price_or cp rp); cbn; auto.
Qed.

Lemma analyze_cache_step (symbol : string) (env : Env) (w : World) :
  cache_step _ta_cache (minutes 10) symbol (CallHistory symbol)
    (fun cached => cached) (charted_result env w symbol)
    (Some (charted_result env w symbol)) (clock env (now_reads w)) w
    (TechnicalAnalyzer.analyze symbol env w).
Proof.
  unfold cache_step, charted_result, TechnicalAnalyzer.analyze, bind,
    datetime_now, get_world.
  cbn [_ta_cache calls now_reads].
  destruct (_ta_cache w !! symbol) as [[cached cached_at] |] eqn:E.
  - unfold TechnicalAnalyzer._TA_CACHE_TTL.
    destruct (Z.ltb_spec (clock env (now_reads w) - cached_at) (minutes 10)).
    + left. exists cached, cached_at. cbn. auto.
    + right. split.
      * intros v t [= <- <-]. assumption.
      * unfold TechnicalAnalyzer._compute, bind, ticker_history, store_ta, ret.
        cbn. auto.
  - right. split; [discriminate |].
    unfold TechnicalAnalyzer._compute, bind, ticker_history, store_ta, ret.
    cbn. auto.
Qed.

(** C8: each of the three cached lookups, [DynamicResolver.resolve] (30
    minutes), [ExchangePriceFilter.get_price_info] (2 minutes) and
    [TechnicalAnalyzer.analyze] (10 minutes), ends in one of two ways.
    Either it returns the stored entry of its key, stored strictly less
    than the TTL before the clock reading of the lookup, without calling
    the collaborator.  Or the key has no entry that young: then the
    collaborator is called once, what is returned is made of the answer
    to that call and not of the stored entry (the first listed symbol
    of the first three search results; the quoted price rounded to
    cents; the snapshot computed from the downloaded history), and that
    result is stored under the clock reading of the lookup (a quote
    without a price is not stored). *)
Theorem caches_serve_only_fresh_entries (env : Env) (w : World)
  (name symbol : string) :
  let now := clock env (now_reads w) in
  let found :=
    match yf_search env (length (calls w)) name with
    | Some quotes => DynamicResolver.first_listed (firstn 3 quotes)
    | None => None
    end in
  let quoted :=
    match yf_info env (length (calls w)) symbol with
    | InfoRaises msg => PriceFail symbol msg
    | Info currentPrice regularMarketPrice exchange =>
        match ExchangePriceFilter.price_or currentPrice regularMarketPrice with
        | None => PriceFail symbol "no price data"
        | Some price =>
            PriceOk symbol (Py.round price 2)
              (Some (match exchange with Some e => e | None => "" end))
        end
    end in
  let charted :=
    TechnicalAnalyzer.compute_history symbol
      (yf_history env (length (calls w)) symbol) in
  cache_step _resolver_cache (minutes 30) (Py.strip (Py.lower name))
    (CallSearch name) (fun ticker => ticker) found (Some found) now w
    (DynamicResolver.resolve name env w)
  /\ cache_step _price_cache (minutes 2) symbol (CallInfo symbol)
       (fun price => PriceOk symbol price None) quoted
       (match quoted with
        | PriceOk _ price _ => Some price
        | PriceFail _ _ => None
        end) now w
       (ExchangePriceFilter.get_price_info symbol env w)
  /\ cache_step _ta_cache (minutes 10) symbol (CallHistory symbol)
       (fun cached => cached) charted (Some charted) now w
       (TechnicalAnalyzer.analyze symbol env w).
Proof.
  intros now found quoted charted. split; [| split].
  - apply resolve_cache_step.
  - apply get_price_info_cache_step.
  - apply analyze_cache_step.
Qed.

End Caches.

(** ** The exchange and price filter *)

Section PriceFilter.

Import ExchangePriceFilter.

Local Open Scope Q_scope.

Lemma foldM_app {A B} (body : A -> B -> M B) (l1 l2 : list A) (acc : B)
  (env : Env) (w : World) :
  foldM body (l1 ++ l2)%list acc env w
  = let (acc1, w1) := foldM body l1 acc env w in foldM body l2 acc1 env w1.
Proof.
  revert acc w. induction l1 as [| x l1 IH]; intros acc w; simpl.
  - reflexivity.
  - unfold bind. destruct (body x acc env w) as [acc' w']. apply IH.
Qed.

(** One more ticker at the end of the batch: its own lookup decides
    whether it enters the map, and the map built so far is kept. *)
Lemma filter_snoc (self : ExchangePriceFilter.t) (tickers : list string)
  (symbol : string) (env : Env) (w : World) :
  filter self (tickers ++ [symbol])%list env w
  = let (valid, w1) := filter self tickers env w in
    let (info, w2) := get_price_info symbol env w1 in
    (match info with
     | PriceFail _ _ => valid
     | PriceOk _ price _ =>
         if Qlt_le_dec price (MIN_PRICE self) then valid
         else Py.set valid symbol price
     end, w2).
Proof.
  unfold filter. rewrite foldM_app.
  match goal with
  | |- context [foldM ?body tickers [] env w] =>
      destruct (foldM body tickers [] env w) as [valid w1]
  end.
  simpl. unfold bind.
  destruct (get_price_info symbol env w1) as [info w2].
  destruct info as [s r | s price e]; [reflexivity |].
  now destruct (Qlt_le_dec price (MIN_PRICE self)).
Qed.

(** The result of a lookup names the symbol looked up. *)
Lemma get_price_info_symbol (symbol : string) (env : Env) (w : World)
  (s : string) (p : Q) (e : option string) :
  fst (get_price_info symbol env w) = PriceOk s p e -> s = symbol.
Proof.
  unfold get_price_info, bind, datetime_now, get_world, ticker_info,
    store_price, ret.
  cbn [_price_cache calls now_reads].
  destruct (_price_cache w !! symbol) as [[price cached_at] |].
  - destruct (_ <? _)%Z; cbn.
    + congruence.
    + destruct (yf_info env _ symbol) as [msg | cp rp ex]; [discriminate |].
      destruct (price_or cp rp); cbn; congruence.
  - cbn. destruct (yf_info env _ symbol) as [msg | cp rp ex]; [discriminate |].
    destruct (price_or cp rp); cbn; congruence.
Qed.

Lemma filter_sound (self : ExchangePriceFilter.t) (env : Env) (w : World)
  (tickers : list string) (s : string) (p : Q) :
  Py.get (fst (filter self tickers env w)) s = Some p ->
  exists pre post e,
    tickers = (pre ++ s :: post)%list
    /\ fst (get_price_info s env (snd (filter self pre env w))) = PriceOk s p e
    /\ MIN_PRICE self <= p.
Proof.
  induction tickers as [| x l IH] using rev_ind; [discriminate |].
  rewrite filter_snoc.
  destruct (filter self l env w) as [valid w1] eqn:El.
  destruct (get_price_info x env w1) as [info w2] eqn:Ex.
  cbn [fst] in *.
  assert (Hold : Py.get valid s = Some p ->
    exists pre post e,
      (l ++ [x])%list = (pre ++ s :: post)%list
      /\ fst (get_price_info s env (snd (filter self pre env w))) = PriceOk s p e
      /\ MIN_PRICE self <= p).
  { intros Hg. destruct (IH Hg) as [pre [post [e [-> [H1 H2]]]]].
    exists pre, (post ++ [x])%list, e. split; [| auto].
    now rewrite <- app_assoc. }
  destruct info as [s' r | s' price e]; [exact Hold |].
  destruct (Qlt_le_dec price (MIN_PRICE self)) as [Hlt | Hle]; [exact Hold |].
  destruct (String.eqb_spec x s) as [-> | Hne].
  - rewrite get_set_eq. intros [= ->].
    exists l, [], e. rewrite El. cbn [snd]. rewrite Ex. cbn [fst].
    assert (s' = s) by (apply (get_price_info_symbol s env w1 s' p e);
                        now rewrite Ex).
    subst s'. auto.
  - rewrite get_set_ne by exact Hne. exact Hold.
Qed.

Lemma has_key_set {A} (d : Py.dict A) (k k' : string) (v : A) :
  Py.has_key d k' = true -> Py.has_key (Py.set d k v) k' = true.
Proof.
  unfold Py.has_key. destruct (String.eqb_spec k k') as [-> | Hne].
  - now rewrite get_set_eq.
  - now rewrite get_set_ne.
Qed.

Lemma filter_complete (self : ExchangePriceFilter.t) (env : Env) (w : World)
  (tickers pre post : list string) (s : string) (p : Q) (e : option string) :
  tickers = (pre ++ s :: post)%list ->
  fst (get_price_info s env (snd (filter self pre env w))) = PriceOk s p e ->
  MIN_PRICE self <= p ->
  Py.has_key (fst (filter self tickers env w)) s = true
  /\ (~ In s post -> Py.get (fst (filter self tickers env w)) s = Some p).
Proof.
  intros -> Hinfo Hmin.
  induction post as [| x post IH] using rev_ind.
  - rewrite filter_snoc.
    destruct (filter self pre env w) as [valid w1]. cbn [snd] in Hinfo.
    destruct (get_price_info s env w1) as [info w2]. cbn [fst] in *.
    subst info.
    destruct (Qlt_le_dec p (MIN_PRICE self)) as [Hlt | _].
    + exfalso. apply (Qlt_not_le _ _ Hlt). exact Hmin.
    + unfold Py.has_key. rewrite get_set_eq. auto.
  - replace (pre ++ s :: post ++ [x])%list with ((pre ++ s :: post) ++ [x])%list
      by (rewrite <- app_assoc; reflexivity).
    rewrite filter_snoc.
    destruct (filter self (pre ++ s :: post) env w) as [valid w1].
    destruct (get_price_info x env w1) as [info w2]. cbn [fst] in *.
    destruct IH as [Hkey Hget].
    assert (Hpost : ~ In s (post ++ [x])%list -> ~ In s post /\ x <> s).
    { intros Hn. split; intros H; apply Hn; apply in_or_app;
        [now left | right; left; exact H]. }
    destruct info as [s' r | s' price e']; [| destruct (Qlt_le_dec _ _)].
    + split; [exact Hkey |]. intros Hn. apply Hget. now apply Hpost.
    + split; [exact Hkey |]. intros Hn. apply Hget. now apply Hpost.
    + split; [now apply has_key_set |].
      intros Hn. apply Hpost in Hn. destruct Hn as [Hn Hx].
      rewrite get_set_ne by exact Hx. now apply Hget.
Qed.

(** The exchange of a quote plays no part in the lookup beyond being
    copied into its result. *)
Lemma get_price_info_exchange (e : option string) (symbol : string)
  (env : Env) (w : World) :
  snd (get_price_info symbol (with_exchange e env) w)
  = snd (get_price_info symbol env w)
  /\ match fst (get_price_info symbol (with_exchange e env) w),
           fst (get_price_info symbol env w) with
     | PriceFail _ _, PriceFail _ _ => True
     | PriceOk _ p1 _, PriceOk _ p2 _ => p1 = p2
     | _, _ => False
     end.
Proof.
  unfold get_price_info, bind, datetime_now, get_world, ticker_info,
    store_price, ret.
  cbn [_price_cache calls now_reads clock with_exchange yf_info].
  destruct (_price_cache w !! symbol) as [[price cached_at] |].
  - destruct (_ <? _)%Z; cbn.
    + auto.
    + destruct (yf_info env _ symbol) as [msg | cp rp ex]; [cbn; auto |].
      destruct (price_or cp rp); cbn; auto.
  - cbn. destruct (yf_info env _ symbol) as [msg | cp rp ex]; [cbn; auto |].
    destruct (price_or cp rp); cbn; auto.
Qed.

Lemma filter_exchange (self : ExchangePriceFilter.t) (e : option string)
  (tickers : list string) (env : Env) (w : World) :
  filter self tickers (with_exchange e env) w = filter self tickers env w.
Proof.
  induction tickers as [| x l IH] using rev_ind; [reflexivity |].
  rewrite !filter_snoc, IH.
  destruct (filter self l env w) as [valid w1].
  destruct (get_price_info_exchange e x env w1) as [Hw Hinfo].
  destruct (get_price_info x (with_exchange e env) w1) as [i1 w2].
  destruct (get_price_info x env w1) as [i2 w2'].
  cbn [fst snd] in *. subst w2'.
  destruct i1, i2; try contradiction; [reflexivity |]. now subst.
Qed.

Lemma get_price_info_lookup (symbol : string) (env : Env) (w : World) :
  price_of (fst (get_price_info symbol env w)) = lookup_price env w symbol.
Proof.
  unfold lookup_price.
  destruct (get_price_info_cache_step symbol env w)
    as [[v [t [Hc [Ht [Hr _]]]]] | [Hold [_ [Hr _]]]].
  - rewrite Hr, Hc. apply Z.ltb_lt in Ht. now rewrite Ht.
  - rewrite Hr. unfold quoted_price.
    destruct (_price_cache w !! symbol) as [[price cached_at] |] eqn:E.
    + pose proof (Hold _ _ eq_refl) as Ho. apply Z.ltb_ge in Ho. rewrite Ho.
      destruct (yf_info env _ symbol) as [msg | cp rp ex]; [reflexivity |].
      now destruct (price_or cp rp).
    + destruct (yf_info env _ symbol) as [msg | cp rp ex]; [reflexivity |].
      now destruct (price_or cp rp).
Qed.

Lemma get_price_info_priced (symbol : string) (env : Env) (w : World) (p : Q) :
  lookup_price env w symbol = Some p <->
  exists e, fst (get_price_info symbol env w) = PriceOk symbol p e.
Proof.
  rewrite <- get_price_info_lookup. split.
  - destruct (fst (get_price_info symbol env w)) as [s r | s price e] eqn:E;
      [discriminate |].
    intros [= ->]. exists e.
    now rewrite (get_price_info_symbol symbol env w s p e E).
  - intros [e ->]. reflexivity.
Qed.

Lemma get_price_info_reads (symbol : string) (env : Env) (w : World) :
  now_reads (snd (get_price_info symbol env w)) = S (now_reads w).
Proof.
  unfold get_price_info, bind, datetime_now, get_world, ticker_info,
    store_price, ret.
  cbn [_price_cache calls now_reads].
  destruct (_price_cache w !! symbol) as [[price cached_at] |];
    [destruct (_ <? _)%Z; [reflexivity |] |];
    (destruct (yf_info env _ symbol) as [msg | cp rp ex]; [reflexivity |];
     now destruct (price_or cp rp)).
Qed.

Lemma filter_reads (self : ExchangePriceFilter.t) (tickers : list string)
  (env : Env) (w : World) :
  now_reads (snd (filter self tickers env w))
  = (now_reads w + length tickers)%nat.
Proof.
  induction tickers as [| x l IH] using rev_ind; [cbn; lia |].
  rewrite filter_snoc, length_app.
  destruct (filter self l env w) as [valid w1]. cbn [snd] in IH.
  pose proof (get_price_info_reads x env w1) as Hx.
  destruct (get_price_info x env w1) as [info w2]. cbn [snd] in *.
  cbn [length]. lia.
Qed.

(** A batch of different tickers, none of which has a cached price:
    every ticker is quoted once, in the order of the batch, and the map
    holds a ticker exactly when its quote has a price that, rounded to
    cents, is not below the minimum. *)
Lemma filter_first_run (self : ExchangePriceFilter.t) (tickers : list string)
  (env : Env) (w : World) :
  NoDup tickers ->
  (forall s, In s tickers -> _price_cache w !! s = None) ->
  calls (snd (filter self tickers env w))
  = (calls w ++ map CallInfo tickers)%list
  /\ (forall s, ~ In s tickers ->
        _price_cache (snd (filter self tickers env w)) !! s
        = _price_cache w !! s)
  /\ (forall i s,
        nth_error tickers i = Some s ->
        Py.get (fst (filter self tickers env w)) s
        = match yf_info env (length (calls w) + i) s with
          | InfoRaises _ => None
          | Info currentPrice regularMarketPrice _ =>
              match price_or currentPrice regularMarketPrice with
              | Some price =>
                  if Qlt_le_dec (Py.round price 2) (MIN_PRICE self) then None
                  else Some (Py.round price 2)
              | None => None
              end
          end).
Proof.
  induction tickers as [| x l IH] using rev_ind; intros Hnd Hnone.
  - cbn. split; [now rewrite app_nil_r | split; [auto |]].
    intros [| i] s; discriminate.
  - apply NoDup_app in Hnd. destruct Hnd as [Hl [Hx _]].
    assert (Hxl : ~ In x l).
    { intros Hin. apply (Hx x); [now apply list_elem_of_In |].
      apply list_elem_of_In. now left. }
    destruct IH as [Hcalls [Hcache Hget]];
      [exact Hl | intros s Hs; apply Hnone, in_or_app; now left |].
    assert (Hkeys : forall s p,
              Py.get (fst (filter self l env w)) s = Some p -> In s l).
    { intros s p Hs. destruct (filter_sound _ _ _ _ _ _ Hs)
        as [pre [post [e [-> _]]]].
      apply in_or_app. right. now left. }
    rewrite filter_snoc.
    destruct (filter self l env w) as [valid w1]. cbn [fst snd] in *.
    pose proof (get_price_info_cache_step x env w1) as Hstep.
    assert (Hmiss : _price_cache w1 !! x = None).
    { rewrite (Hcache x Hxl). apply Hnone, in_or_app. right. now left. }
    destruct Hstep as [[v [t [Hc _]]] | [_ [Hc [Hr Hs]]]]; [congruence |].
    destruct (get_price_info x env w1) as [info w2]. cbn [fst snd] in *.
    assert (Hlen : length (calls w1) = (length (calls w) + length l)%nat)
      by (rewrite Hcalls, length_app, length_map; reflexivity).
    split; [| split].
    + rewrite Hc, Hcalls, map_app, <- app_assoc. reflexivity.
    + intros s Hs'. assert (Hsx : x <> s).
      { intros ->. apply Hs', in_or_app. right. now left. }
      rewrite Hs.
      rewrite <- (Hcache s) by (intros Hin; apply Hs', in_or_app; now left).
      destruct (price_of (quoted_price env w1 x)); [| reflexivity].
      now rewrite lookup_insert_ne.
    + intros i s Hi.
      assert (Hvx : Py.get valid x = None).
      { destruct (Py.get valid x) as [p |] eqn:E; [| reflexivity].
        now destruct (Hxl (Hkeys x p E)). }
      destruct (Nat.lt_ge_cases i (length l)) as [Hlt | Hge].
      * rewrite nth_error_app1 in Hi by exact Hlt.
        assert (Hsl : In s l) by (eapply nth_error_In; exact Hi).
        assert (Hsx : x <> s) by (intros ->; exact (Hxl Hsl)).
        rewrite <- (Hget i s Hi).
        destruct info as [s' r | s' price e]; [reflexivity |].
        destruct (Qlt_le_dec price (MIN_PRICE self)); [reflexivity |].
        now apply get_set_ne.
      * rewrite nth_error_app2 in Hi by exact Hge.
        destruct (i - length l)%nat as [| k] eqn:Ek;
          [| destruct k; discriminate].
        injection Hi as <-.
        replace i with (length l) by lia. rewrite <- Hlen.
        subst info. unfold quoted_price.
        destruct (yf_info env (length (calls w1)) x) as [msg | cp rp ex];
          [exact Hvx |].
        destruct (price_or cp rp) as [price |]; [| exact Hvx].
        destruct (Qlt_le_dec _ _); [exact Hvx | apply get_set_eq].
Qed.

(** C7: the map that [filter] returns holds exactly the tickers of the
    batch whose lookup obtains a price that is not below the minimum,
    where the price is the one the lookup returns: a cached price
    younger than two minutes, or else the quote of the collaborator
    rounded to cents.  (1) Every entry of the map is the price that the
    lookup of its ticker obtained, made in the world the tickers before
    it left, and that price is not below the minimum.  (2) Every lookup
    that obtains such a price puts its ticker into the map, with that
    price unless the ticker is looked up again later in the batch.
    (3) No failure ends the batch: the clock is read once for every
    ticker.  (4) For a batch of different tickers without cached
    prices, every ticker is quoted once, in order, and the entry of the
    ticker at position [i] is decided by the answer to its own call
    alone: no entry when the call raises or the quote has no price or
    the rounded price is below the minimum, the rounded price
    otherwise.  (5) What the quote reports as its exchange, or whether
    it reports one, changes neither the map nor the world.  (6) The
    default minimum is 8. *)
Theorem filter_keeps_priced_tickers (self : ExchangePriceFilter.t) (env : Env)
  (w : World) (tickers : list string) :
  (forall s p,
     Py.get (fst (filter self tickers env w)) s = Some p ->
     exists pre post,
       tickers = (pre ++ s :: post)%list
       /\ lookup_price env (snd (filter self pre env w)) s = Some p
       /\ MIN_PRICE self <= p)
  /\ (forall pre s post p,
        tickers = (pre ++ s :: post)%list ->
        lookup_price env (snd (filter self pre env w)) s = Some p ->
        MIN_PRICE self <= p ->
        Py.has_key (fst (filter self tickers env w)) s = true
        /\ (~ In s post -> Py.get (fst (filter self tickers env w)) s = Some p))
  /\ now_reads (snd (filter self tickers env w))
     = (now_reads w + length tickers)%nat
  /\ (NoDup tickers ->
      (forall s, In s tickers -> _price_cache w !! s = None) ->
      calls (snd (filter self tickers env w))
      = (calls w ++ map CallInfo tickers)%list
      /\ forall i s,
           nth_error tickers i = Some s ->
           Py.get (fst (filter self tickers env w)) s
           = match yf_info env (length (calls w) + i) s with
             | InfoRaises _ => None
             | Info currentPrice regularMarketPrice _ =>
                 match price_or currentPrice regularMarketPrice with
                 | Some price =>
                     if Qlt_le_dec (Py.round price 2) (MIN_PRICE self)
                     then None
                     else Some (Py.round price 2)
                 | None => None
                 end
             end)
  /\ (forall e,
        filter self tickers (with_exchange e env) w = filter self tickers env w)
  /\ MIN_PRICE default = 8.
Proof.
  split; [| split; [| split; [| split; [| split]]]].
  - intros s p Hs. destruct (filter_sound _ _ _ _ _ _ Hs)
      as [pre [post [e [-> [Hi Hm]]]]].
    exists pre, post. split; [reflexivity | split; [| exact Hm]].
    apply get_price_info_priced. now exists e.
  - intros pre s post p Ht Hl Hm.
    apply get_price_info_priced in Hl. destruct Hl as [e He].
    exact (filter_complete self env w tickers pre post s p e Ht He Hm).
  - apply filter_reads.
  - intros Hnd Hnone.
    destruct (filter_first_run self tickers env w Hnd Hnone) as [Hc [_ Hg]].
    split; assumption.
  - intros e. apply filter_exchange.
  - reflexivity.
Qed.

(** C7, counterexample: the minimum is tested on the rounded price: a
    quote of 7.996, below the default minimum of 8, is kept, at the
    price 8.00. *)
Example rounded_price_passes_minimum :
  let env := sample_env (Info (Some (7996 # 1000)) None None) 0 in
  7996 # 1000 < MIN_PRICE default
  /\ exists p,
       Py.get (fst (filter default ["LOWP"] env World0)) "LOWP" = Some p
       /\ p == 8.
Proof.
  intros env. split; [reflexivity |].
  exists (800 # 100). split; [vm_compute; reflexivity | reflexivity].
Qed.

(** A batch of three: NVDA is priced at 120.456 without an exchange and
    is kept at the rounded price, SNDL is priced below the default
    minimum of 8 and is dropped, the quote of ZZZZ raises and only ZZZZ
    is left out. *)
Example filter_batch :
  fst (filter default ["ZZZZ"; "NVDA"; "SNDL"] quotes_env World0)
  = [("NVDA", 12046 # 100)]
  /\ calls (snd (filter default ["ZZZZ"; "NVDA"; "SNDL"] quotes_env World0))
     = [CallInfo "ZZZZ"; CallInfo "NVDA"; CallInfo "SNDL"].
Proof. split; vm_compute; reflexivity. Qed.

End PriceFilter.

(** ** The orchestrator: what [tickers_detected] counts *)

Section Orchestrator.

Import LocalTradingEngine.

Variable strptime : string -> string -> option Z.

(** The map of [filter] has each ticker once, so its length is the
    number of tickers that passed. *)
Lemma filter_keys_distinct (self : ExchangePriceFilter.t)
  (tickers : list string) (env : Env) (w : World) :
  NoDup (Py.keys (fst (ExchangePriceFilter.filter self tickers env w))).
Proof.
  induction tickers as [| x l IH] using rev_ind; [constructor |].
  rewrite filter_snoc.
  destruct (ExchangePriceFilter.filter self l env w) as [valid w1].
  destruct (ExchangePriceFilter.get_price_info x env w1) as [info w2].
  cbn [fst] in *.
  destruct info as [s r | s price e]; [exact IH |].
  destruct (Qlt_le_dec _ _); [exact IH | now apply NoDup_keys_set].
Qed.

(** C10: let [step1] be what the loop over the stories collected and
    [priced] the map that the price filter returns for the tickers
    collected.  When no story has a ticker the result counts 0 tickers
    and recommends nothing.  Otherwise [tickers_detected] is the number
    of entries of [priced], each a different ticker, and the summary
    sentence reads "Analyzed n stories, detected k tradeable tickers."
    with that same number for k. *)
Theorem tickers_detected_counts_priced_tickers (self : LocalTradingEngine.t)
  (stories : list Story) (now : option Z) (filter_hold : bool)
  (max_recommendations : Z) (env : Env) (w : World) :
  let start := reference_time now env w in
  let first :=
    analyze_each strptime self (fst start) stories env
      (snd start) in
  let step1 := fst first in
  let priced :=
    fst (ExchangePriceFilter.filter (price_filter self)
           (Py.keys (all_tickers step1)) env (snd first)) in
  let result :=
    fst (analyze_stories strptime self stories now
           filter_hold max_recommendations env w) in
  match story_analyses step1 with
  | [] => tickers_detected result = 0 /\ er_recommendations result = []
  | _ :: _ =>
      tickers_detected result = length priced
      /\ NoDup (Py.keys priced)
      /\ exists rest,
           analysis_summary result
           = "Analyzed " ++ Py.str (length stories) ++ " stories, detected "
             ++ Py.str (tickers_detected result) ++ " tradeable tickers."
             ++ rest
  end.
Proof.
  intros start first step1 priced result.
  assert (Es : reference_time now env w = (fst start, snd start))
    by (unfold start; now destruct (reference_time now env w)).
  assert (Ef : analyze_each strptime self (fst start)
                 stories env (snd start) = (step1, snd first))
    by (unfold step1, first; now destruct (analyze_each _ _ _ _ _ _)).
  unfold result, analyze_stories, bind. rewrite Es, Ef.
  destruct (story_analyses step1) as [| a l] eqn:Ea.
  - cbn. auto.
  - unfold priced.
    destruct (ExchangePriceFilter.filter (price_filter self)
                (Py.keys (all_tickers step1)) env (snd first))
      as [valid w2] eqn:Ev.
    destruct (technical_pass (Py.keys valid) env w2) as [technical_scores w3].
    cbn [fst ret tickers_detected analysis_summary].
    split; [reflexivity | split].
    + pose proof (filter_keys_distinct (price_filter self)
                    (Py.keys (all_tickers step1)) env (snd first)) as Hd.
      now rewrite Ev in Hd.
    + unfold summary_text. eexists. reflexivity.
Qed.

End Orchestrator.

(** One story that names two companies.  Both tickers are detected in
    the text; the quote of SNDL is below the minimum price, so one
    ticker passes the filter, and [tickers_detected] is 1. *)
Example one_of_two_tickers_priced :
  let result :=
    fst (LocalTradingEngine.analyze_stories (fun _ _ => None)
           two_company_engine
           [ {| text := ""; title := "NVIDIA soars";
                summary := "Sundial plunges"; published := "" |} ]
           (Some 0%Z) true 8 quotes_env World0) in
  map (fun d => Py.keys (combined_tickers d)) (story_details result)
  = [["NVDA"; "SNDL"]]
  /\ tickers_detected result = 1.
Proof. split; vm_compute; reflexivity. Qed.

(** * Further properties of the code *)

(** ** Sentiment analyzer: the range of the score *)

Section ScoreRange.

Import SentimentAnalyzer.

Local Open Scope Q_scope.

(** A property of every score that the token scan can produce holds for
    all scores of a scan. *)
Lemma scan_Forall (self : SentimentAnalyzer.t) (P : Q -> Prop) :
  (forall token v, Py.get (_single_word self) token = Some v -> P v) ->
  (forall token v, Py.get (_single_word self) token = Some v ->
                   P (v * (-75 # 100))) ->
  (forall token f next_token v,
     Py.get INTENSIFIERS token = Some f ->
     Py.get (_single_word self) next_token = Some v -> P (v * f)) ->
  forall tokens, Forall P (scan self tokens).
Proof.
  intros Hreg Hneg Hint tokens.
  enough (H : forall n tokens, (length tokens <= n)%nat ->
                               Forall P (scan self tokens))
    by (apply (H (length tokens)); lia).
  clear tokens. induction n as [| n IH]; intros tokens Hlen.
  - destruct tokens; [constructor | simpl in Hlen; lia].
  - destruct tokens as [| token rest]; [constructor |].
    simpl in Hlen. rewrite scan_cons. cbv beta iota zeta.
    assert (IHrest : Forall P (scan self rest)) by (apply IH; lia).
    assert (Hregular :
      Forall P (match Py.get (_single_word self) token with
                | Some v => v :: scan self rest
                | None => scan self rest
                end)).
    { destruct (Py.get (_single_word self) token) as [v |] eqn:Et;
        [constructor; [now apply (Hreg token) | exact IHrest] | exact IHrest]. }
    destruct rest as [| next_token rest']; [exact Hregular |].
    assert (IHrest' : Forall P (scan self rest'))
      by (apply IH; simpl in Hlen; lia).
    destruct (Py.get (_single_word self) next_token) as [v |] eqn:En.
    + assert (Hnegated :
        Forall P (if Py.mem token NEGATION_WORDS
                  then (v * (-75 # 100)) :: scan self rest'
                  else match Py.get (_single_word self) token with
                       | Some v => v :: scan self (next_token :: rest')
                       | None => scan self (next_token :: rest')
                       end)).
      { destruct (Py.mem token NEGATION_WORDS); [| exact Hregular].
        constructor; [now apply (Hneg next_token) | exact IHrest']. }
      destruct (Py.get INTENSIFIERS token) as [f |] eqn:Ei; [| exact Hnegated].
      destruct (negb (Qeq_bool f 1)); [| exact Hnegated].
      constructor; [now apply (Hint token f next_token) | exact IHrest'].
    + destruct (Py.get INTENSIFIERS token) as [f |];
        [destruct (negb (Qeq_bool f 1)) |];
        destruct (Py.mem token NEGATION_WORDS); exact Hregular.
Qed.

(** The built-in tables: lexicon scores lie in [-0.95, 0.9] and
    intensifier factors in [0.5, 1.5]. *)
Lemma lexicon_bounds (k : string) (v : Q) :
  In (k, v) FINANCIAL_LEXICON -> -95 # 100 <= v /\ v <= 9 # 10.
Proof.
  assert (H : forallb (fun kv : string * Q =>
                         Qle_bool (-95 # 100) (snd kv) && Qle_bool (snd kv) (9 # 10))
                      FINANCIAL_LEXICON = true) by (vm_compute; reflexivity).
  rewrite forallb_forall in H. intros Hin. specialize (H _ Hin).
  cbn [snd] in H. apply andb_true_iff in H. destruct H as [H1 H2].
  now rewrite !Qle_bool_iff in *.
Qed.

Lemma intensifier_bounds (k : string) (f : Q) :
  In (k, f) INTENSIFIERS -> 5 # 10 <= f /\ f <= 15 # 10.
Proof.
  assert (H : forallb (fun kv : string * Q =>
                         Qle_bool (5 # 10) (snd kv) && Qle_bool (snd kv) (15 # 10))
                      INTENSIFIERS = true) by (vm_compute; reflexivity).
  rewrite forallb_forall in H. intros Hin. specialize (H _ Hin).
  cbn [snd] in H. apply andb_true_iff in H. destruct H as [H1 H2].
  now rewrite !Qle_bool_iff in *.
Qed.

Lemma default_scores_in_range (text : string) :
  Forall in_score_range (scores_of default text).
Proof.
  unfold scores_of. apply Forall_app. split.
  - unfold phrase_scores. apply List.Forall_forall. intros s Hs.
    apply in_flat_map in Hs. destruct Hs as [[k v] [Hk Hs]].
    apply repeat_spec in Hs. cbn [snd] in Hs. subst s.
    unfold _multi_word in Hk. apply list_elem_of_In, list_elem_of_filter in Hk.
    destruct Hk as [_ Hk]. apply list_elem_of_In in Hk.
    destruct (lexicon_bounds _ _ Hk). unfold in_score_range. Lqa.lra.
  - assert (Hsingle : forall token v,
              Py.get (_single_word default) token = Some v ->
              -95 # 100 <= v /\ v <= 9 # 10).
    { intros token v Hg. apply get_in in Hg. unfold _single_word in Hg.
      apply list_elem_of_In, list_elem_of_filter in Hg.
      destruct Hg as [_ Hg]. apply list_elem_of_In in Hg.
      exact (lexicon_bounds _ _ Hg). }
    apply scan_Forall.
    + intros token v Hg. destruct (Hsingle _ _ Hg). unfold in_score_range. Lqa.lra.
    + intros token v Hg. destruct (Hsingle _ _ Hg). unfold in_score_range. Lqa.lra.
    + intros token f next_token v Hf Hg. destruct (Hsingle _ _ Hg).
      apply get_in in Hf. destruct (intensifier_bounds _ _ Hf).
      unfold in_score_range. Lqa.nra.
Qed.

(** The sum of [n] numbers between [a] and [b] lies between [n * a] and
    [n * b]. *)
Lemma sum_between (a b : Q) (l : list Q) :
  Forall (fun s => a <= s /\ s <= b) l ->
  inject_Z (Z.of_nat (length l)) * a <= Py.sum l
  /\ Py.sum l <= inject_Z (Z.of_nat (length l)) * b.
Proof.
  unfold Py.sum. intros Hl.
  enough (H : forall acc,
            acc + inject_Z (Z.of_nat (length l)) * a <= fold_left Qplus l acc
            /\ fold_left Qplus l acc <= acc + inject_Z (Z.of_nat (length l)) * b).
  { specialize (H 0). Lqa.lra. }
  induction Hl as [| s l [Hs1 Hs2] Hl IH]; intros acc; simpl fold_left.
  - cbn [length fold_left]. change (inject_Z (Z.of_nat 0)) with 0. Lqa.lra.
  - specialize (IH (acc + s)).
    replace (length (s :: l)) with (S (length l)) by reflexivity.
    rewrite Nat2Z.inj_succ. unfold Z.succ. rewrite inject_Z_plus.
    change (inject_Z 1) with 1. Lqa.lra.
Qed.

(** The rounded mean of scores within the range is within the range. *)
Lemma mean_score_in_range (s0 : Q) (l : list Q) :
  Forall in_score_range (s0 :: l) ->
  in_score_range
    (Py.round (Py.sum (s0 :: l) / inject_Z (Z.of_nat (length (s0 :: l)))) 4).
Proof.
  intros Hr. destruct (sum_between _ _ _ Hr) as [Hlo Hhi].
  set (n := inject_Z (Z.of_nat (length (s0 :: l)))) in *.
  assert (Hn : 0 < n).
  { unfold n. change 0 with (inject_Z 0). rewrite <- Zlt_Qlt.
    simpl length. lia. }
  set (avg := Py.sum (s0 :: l) / n).
  assert (Havg : -1425 # 1000 <= avg /\ avg <= 135 # 100).
  { unfold avg. split.
    - apply Qle_shift_div_l; [exact Hn | Lqa.lra].
    - apply Qle_shift_div_r; [exact Hn | Lqa.lra]. }
  assert (Ea : inject_Z (-14250) / inject_Z (10 ^ Z.of_nat 4) == -1425 # 1000)
    by reflexivity.
  assert (Eb : inject_Z 13500 / inject_Z (10 ^ Z.of_nat 4) == 135 # 100)
    by reflexivity.
  pose proof (round_between (-14250) 13500 avg 4) as Hround.
  cbv zeta in Hround. rewrite Ea, Eb in Hround.
  exact (Hround (proj1 Havg) (proj2 Havg)).
Qed.

(** With the built-in lexicon the score of every text lies between
    -1.425 and 1.35: the lowest lexicon score, -0.95, and the highest,
    0.9, each under the strongest intensifier, 1.5. *)
Theorem analyze_score_range (text : string) :
  -1425 # 1000 <= score (analyze default text)
  /\ score (analyze default text) <= 135 # 100.
Proof.
  unfold analyze. pose proof (default_scores_in_range text) as Hr.
  destruct (scores_of default text) as [| s0 l] eqn:E.
  - simpl. split; discriminate.
  - cbv zeta. cbn [score]. now apply mean_score_in_range.
Qed.

End ScoreRange.

(** ** Sentiment analyzer: letter case *)

Section LetterCase.

Import SentimentAnalyzer.

Lemma lower_char_idempotent (c : ascii) :
  Py.lower_char (Py.lower_char c) = Py.lower_char c.
Proof.
  destruct c as [b0 b1 b2 b3 b4 b5 b6 b7].
  destruct b0, b1, b2, b3, b4, b5, b6, b7; reflexivity.
Qed.

Lemma lower_idempotent (s : string) : Py.lower (Py.lower s) = Py.lower s.
Proof.
  induction s as [| c s IH]; simpl; [reflexivity |].
  now rewrite lower_char_idempotent, IH.
Qed.

(** [analyze] does not see the case of ASCII letters: a text and its
    lowercased form get the same result, for every lexicon. *)
Theorem analyze_ignores_case (self : SentimentAnalyzer.t) (text : string) :
  analyze self (Py.lower text) = analyze self text.
Proof.
  unfold analyze, scores_of. now rewrite lower_idempotent.
Qed.

End LetterCase.

(** ** Dynamic resolver: what the symbol search can return *)

Section Lookup.

Import DynamicResolver.

Lemma first_listed_cons (quote : SearchQuote) (rest : list SearchQuote) :
  first_listed (quote :: rest)
  = if Py.mem (or_empty (q_exchange quote)) VALID_EXCHANGES then
      match or_empty (q_symbol quote) with
      | EmptyString => first_listed rest
      | String c t => Some (String c t)
      end
    else first_listed rest.
Proof.
  cbn [first_listed]. now destruct (or_empty (q_symbol quote)).
Qed.

Lemma mem_true_in (k : string) (l : list string) : In k l -> Py.mem k l = true.
Proof.
  intros Hin. unfold Py.mem. apply existsb_exists. exists k.
  split; [exact Hin | apply String.eqb_refl].
Qed.

Lemma first_listed_some (quotes : list SearchQuote) (symbol : string) :
  first_listed quotes = Some symbol ->
  exists quote, In quote quotes /\ listed_as quote symbol.
Proof.
  induction quotes as [| quote rest IH]; [discriminate |].
  rewrite first_listed_cons.
  assert (Hrest : first_listed rest = Some symbol ->
                  exists q, In q (quote :: rest) /\ listed_as q symbol).
  { intros H. destruct (IH H) as [q [Hq Hl]]. exists q. split; [now right | exact Hl]. }
  destruct (Py.mem (or_empty (q_exchange quote)) VALID_EXCHANGES) eqn:Em;
    [| exact Hrest].
  destruct (or_empty (q_symbol quote)) as [| c t] eqn:Es; [exact Hrest |].
  intros [= <-]. exists quote. split; [now left |].
  unfold listed_as. apply mem_in in Em.
  unfold or_empty in Es. destruct (q_symbol quote) as [s |]; [| discriminate].
  subst s. split; [reflexivity | split; [discriminate |]].
  unfold or_empty in Em. destruct (q_exchange quote) as [e |].
  - exists e. auto.
  - exfalso. simpl in Em. repeat (destruct Em as [Em | Em]; [discriminate |]).
    destruct Em.
Qed.

Lemma first_listed_none (quotes : list SearchQuote) :
  first_listed quotes = None ->
  forall quote symbol, In quote quotes -> ~ listed_as quote symbol.
Proof.
  induction quotes as [| q rest IH]; [intros _ quote symbol [] |].
  rewrite first_listed_cons.
  intros H quote symbol [<- | Hin] Hl.
  - destruct Hl as [Hs [Hne [e [He Hv]]]].
    unfold or_empty in H. rewrite He, Hs in H.
    rewrite (mem_true_in _ _ Hv) in H.
    destruct symbol; [congruence | discriminate].
  - destruct (Py.mem (or_empty (q_exchange q)) VALID_EXCHANGES);
      [destruct (or_empty (q_symbol q)); [| discriminate] |];
      exact (IH H quote symbol Hin Hl).
Qed.

(** [_lookup] makes one search call.  A ticker it returns is the
    non-empty symbol of one of the first three quotes of the search, a
    quote of an accepted exchange.  It returns nothing when the search
    raised, and when none of the first three quotes has an accepted
    exchange and a symbol. *)
Theorem lookup_returns_listed_symbol (name : string) (env : Env) (w : World) :
  calls (snd (_lookup name env w)) = (calls w ++ [CallSearch name])%list
  /\ match fst (_lookup name env w) with
     | Some symbol =>
         exists quotes quote,
           yf_search env (length (calls w)) name = Some quotes
           /\ In quote (firstn 3 quotes) /\ listed_as quote symbol
     | None =>
         yf_search env (length (calls w)) name = None
         \/ exists quotes,
              yf_search env (length (calls w)) name = Some quotes
              /\ forall quote symbol,
                   In quote (firstn 3 quotes) -> ~ listed_as quote symbol
     end.
Proof.
  unfold _lookup, bind, search_quotes, ret.
  destruct (yf_search env (length (calls w)) name) as [quotes |] eqn:Es; cbn.
  - split; [reflexivity |].
    destruct (first_listed (firstn 3 quotes)) as [symbol |] eqn:Ef.
    + destruct (first_listed_some _ _ Ef) as [quote [Hin Hl]].
      exists quotes, quote. auto.
    + right. exists quotes. split; [reflexivity |].
      now apply first_listed_none.
  - split; [reflexivity | now left].
Qed.

End Lookup.

(** ** The caches as stores: what a lookup leaves behind *)

Section CacheRoundTrips.

(** After [resolve], the cache holds the answer for the key of the
    name, the answer "no ticker" included, under a time stamp less than
    30 minutes before the clock reading of the call; a later [resolve]
    of any name with the same key (the same letters up to case and
    surrounding blanks) that reads the clock less than 30 minutes after
    that stamp returns the same answer and calls no collaborator. *)
Theorem resolve_remembers_answer (env : Env) (w : World) (name name' : string) :
  Py.strip (Py.lower name') = Py.strip (Py.lower name) ->
  let first := DynamicResolver.resolve name env w in
  let second := DynamicResolver.resolve name' env (snd first) in
  exists t,
    _resolver_cache (snd first) !! Py.strip (Py.lower name)
    = Some (fst first, t)
    /\ (clock env (now_reads w) - t < minutes 30)%Z
    /\ ((clock env (now_reads (snd first)) - t < minutes 30)%Z ->
        fst second = fst first /\ calls (snd second) = calls (snd first)).
Proof.
  intros Hkey first second.
  assert (Hfirst : exists t,
    _resolver_cache (snd first) !! Py.strip (Py.lower name) = Some (fst first, t)
    /\ (clock env (now_reads w) - t < minutes 30)%Z).
  { unfold first, DynamicResolver.resolve, bind, datetime_now, get_world.
    cbn [_resolver_cache calls now_reads].
    assert (Hfetch : forall w0,
      _resolver_cache w0 = _resolver_cache w ->
      let out := bind (DynamicResolver._lookup name) (fun ticker =>
                   bind (store_resolver (Py.strip (Py.lower name))
                           (ticker, clock env (now_reads w)))
                        (fun _ => ret ticker)) env w0 in
      _resolver_cache (snd out) !! Py.strip (Py.lower name)
      = Some (fst out, clock env (now_reads w))).
    { intros w0 Hw0. unfold DynamicResolver._lookup, bind, search_quotes,
        store_resolver, ret.
      destruct (yf_search env (length (calls w0)) name); cbn;
        apply lookup_insert_eq. }
    destruct (_resolver_cache w !! Py.strip (Py.lower name))
      as [[cached_ticker cached_at] |] eqn:E.
    - unfold DynamicResolver._RESOLVER_CACHE_TTL.
      destruct (Z.ltb_spec (clock env (now_reads w) - cached_at) (minutes 30)).
      + exists cached_at. cbn. auto.
      + exists (clock env (now_reads w)). split; [now apply Hfetch |].
        unfold minutes. lia.
    - exists (clock env (now_reads w)). split; [now apply Hfetch |].
      unfold minutes. lia. }
  destruct Hfirst as [t [Hcache Hfresh]]. exists t.
  split; [exact Hcache | split; [exact Hfresh |]].
  intros Hsecond. unfold second, DynamicResolver.resolve, bind, datetime_now,
    get_world.
  cbn [_resolver_cache calls now_reads]. rewrite Hkey, Hcache.
  unfold DynamicResolver._RESOLVER_CACHE_TTL.
  destruct (Z.ltb_spec (clock env (now_reads (snd first)) - t) (minutes 30));
    [| lia].
  cbn. auto.
Qed.

Lemma resolve_remembers_answer_witness :
  let first := DynamicResolver.resolve "Uber" uber_env World0 in
  let second := DynamicResolver.resolve "  UBER " uber_env (snd first) in
  exists t,
    _resolver_cache (snd first) !! Py.strip (Py.lower "Uber")
    = Some (fst first, t)
    /\ (clock uber_env (now_reads World0) - t < minutes 30)%Z
    /\ ((clock uber_env (now_reads (snd first)) - t < minutes 30)%Z ->
        fst second = fst first /\ calls (snd second) = calls (snd first)).
Proof.
  apply (resolve_remembers_answer uber_env World0 "Uber" "  UBER ").
  vm_compute. reflexivity.
Defined.

(** After [TechnicalAnalyzer.analyze], the cache holds the result for the
    symbol, a failure included, and a later [analyze] of the symbol that
    reads the clock less than 10 minutes after its time stamp returns
    the very same result and fetches no history. *)
Theorem analyze_remembers_result (env : Env) (w : World) (symbol : string) :
  let first := TechnicalAnalyzer.analyze symbol env w in
  let second := TechnicalAnalyzer.analyze symbol env (snd first) in
  exists t,
    _ta_cache (snd first) !! symbol = Some (fst first, t)
    /\ (clock env (now_reads w) - t < minutes 10)%Z
    /\ ((clock env (now_reads (snd first)) - t < minutes 10)%Z ->
        fst second = fst first /\ calls (snd second) = calls (snd first)).
Proof.
  intros first second.
  assert (Hfirst : exists t,
    _ta_cache (snd first) !! symbol = Some (fst first, t)
    /\ (clock env (now_reads w) - t < minutes 10)%Z).
  { unfold first, TechnicalAnalyzer.analyze, bind, datetime_now, get_world.
    cbn [_ta_cache calls now_reads].
    destruct (_ta_cache w !! symbol) as [[cached cached_at] |] eqn:E.
    - unfold TechnicalAnalyzer._TA_CACHE_TTL.
      destruct (Z.ltb_spec (clock env (now_reads w) - cached_at) (minutes 10)).
      + exists cached_at. cbn. auto.
      + exists (clock env (now_reads w)). split.
        * unfold TechnicalAnalyzer._compute, bind, ticker_history, store_ta, ret.
          cbn. apply lookup_insert_eq.
        * unfold minutes. lia.
    - exists (clock env (now_reads w)). split.
      + unfold TechnicalAnalyzer._compute, bind, ticker_history, store_ta, ret.
        cbn. apply lookup_insert_eq.
      + unfold minutes. lia. }
  destruct Hfirst as [t [Hcache Hfresh]]. exists t.
  split; [exact Hcache | split; [exact Hfresh |]].
  intros Hsecond. unfold second, TechnicalAnalyzer.analyze, bind, datetime_now,
    get_world.
  cbn [_ta_cache calls now_reads]. rewrite Hcache.
  unfold TechnicalAnalyzer._TA_CACHE_TTL.
  destruct (Z.ltb_spec (clock env (now_reads (snd first)) - t) (minutes 10));
    [| lia].
  cbn. auto.
Qed.

End CacheRoundTrips.

(** ** The price cache keeps successes only *)

Section PriceCache.

Import ExchangePriceFilter.

(** A successful [get_price_info] leaves its price in the cache, and a
    later lookup of the symbol that reads the clock less than 2 minutes
    after the time stamp returns that price and calls no collaborator.
    A failed lookup made the quote call and left the cache as it was:
    the failure is not remembered, and the next lookup of the symbol, at
    a clock reading that is not earlier, makes the quote call again. *)
Theorem get_price_info_remembers_prices_only (env : Env) (w : World)
  (symbol : string) :
  let first := get_price_info symbol env w in
  let second := get_price_info symbol env (snd first) in
  match fst first with
  | PriceOk _ price _ =>
      exists t,
        _price_cache (snd first) !! symbol = Some (price, t)
        /\ (clock env (now_reads w) - t < minutes 2)%Z
        /\ ((clock env (now_reads (snd first)) - t < minutes 2)%Z ->
            fst second = PriceOk symbol price None
            /\ calls (snd second) = calls (snd first))
  | PriceFail _ _ =>
      _price_cache (snd first) = _price_cache w
      /\ calls (snd first) = (calls w ++ [CallInfo symbol])%list
      /\ ((clock env (now_reads w) <= clock env (now_reads (snd first)))%Z ->
          calls (snd second) = (calls (snd first) ++ [CallInfo symbol])%list)
  end.
Proof.
  intros first second.
  (* what a lookup does when the cache holds a fresh entry *)
  assert (Hserve : forall w0 price t,
    _price_cache w0 !! symbol = Some (price, t) ->
    (clock env (now_reads w0) - t < minutes 2)%Z ->
    fst (get_price_info symbol env w0) = PriceOk symbol price None
    /\ calls (snd (get_price_info symbol env w0)) = calls w0).
  { intros w0 price t Hc Hf.
    unfold get_price_info, bind, datetime_now, get_world.
    cbn [_price_cache calls now_reads]. rewrite Hc. unfold _CACHE_TTL.
    destruct (Z.ltb_spec (clock env (now_reads w0) - t) (minutes 2)); [| lia].
    cbn. auto. }
  (* what a lookup does when the cache holds no fresh entry *)
  assert (Hfetch : forall w0,
    (forall price t, _price_cache w0 !! symbol = Some (price, t) ->
                     (minutes 2 <= clock env (now_reads w0) - t)%Z) ->
    let out := get_price_info symbol env w0 in
    calls (snd out) = (calls w0 ++ [CallInfo symbol])%list
    /\ match fst out with
       | PriceOk _ price _ =>
           _price_cache (snd out) !! symbol
           = Some (price, clock env (now_reads w0))
       | PriceFail _ _ => _price_cache (snd out) = _price_cache w0
       end).
  { intros w0 Hold.
    unfold get_price_info, bind, datetime_now, get_world, ticker_info,
      store_price, ret.
    cbn [_price_cache calls now_reads].
    assert (Hgo :
      let out :=
        match yf_info env (length (calls w0)) symbol with
        | InfoRaises msg =>
            (PriceFail symbol msg,
             log_call (CallInfo symbol)
               {| now_reads := S (now_reads w0); calls := calls w0;
                  _resolver_cache := _resolver_cache w0;
                  _price_cache := _price_cache w0; _ta_cache := _ta_cache w0 |})
        | Info cp rp ex =>
            match price_or cp rp with
            | Some price =>
                (PriceOk symbol (Py.round price 2)
                   (Some match ex with Some e => e | None => "" end),
                 {| now_reads := S (now_reads w0);
                    calls := (calls w0 ++ [CallInfo symbol])%list;
                    _resolver_cache := _resolver_cache w0;
                    _price_cache :=
                      <[symbol := (Py.round price 2, clock env (now_reads w0))]>
                        (_price_cache w0);
                    _ta_cache := _ta_cache w0 |})
            | None =>
                (PriceFail symbol "no price data",
                 log_call (CallInfo symbol)
                   {| now_reads := S (now_reads w0); calls := calls w0;
                      _resolver_cache := _resolver_cache w0;
                      _price_cache := _price_cache w0; _ta_cache := _ta_cache w0 |})
            end
        end in
      calls (snd out) = (calls w0 ++ [CallInfo symbol])%list
      /\ match fst out with
         | PriceOk _ price _ =>
             _price_cache (snd out) !! symbol
             = Some (price, clock env (now_reads w0))
         | PriceFail _ _ => _price_cache (snd out) = _price_cache w0
         end).
    { destruct (yf_info env (length (calls w0)) symbol) as [msg | cp rp ex];
        [cbn; auto |].
      destruct (price_or cp rp); cbn; [| auto].
      split; [reflexivity | apply lookup_insert_eq]. }
    destruct (_price_cache w0 !! symbol) as [[price cached_at] |] eqn:E.
    - unfold _CACHE_TTL.
      destruct (Z.ltb_spec (clock env (now_reads w0) - cached_at) (minutes 2)).
      + specialize (Hold _ _ eq_refl). lia.
      + cbn. cbn in Hgo.
        destruct (yf_info env (length (calls w0)) symbol) as [msg | cp rp ex];
          [exact Hgo |].
        destruct (price_or cp rp); exact Hgo.
    - cbn. cbn in Hgo.
      destruct (yf_info env (length (calls w0)) symbol) as [msg | cp rp ex];
        [exact Hgo |].
      destruct (price_or cp rp); exact Hgo. }
  destruct (_price_cache w !! symbol) as [[price0 t0] |] eqn:E0.
  - destruct (Z.lt_ge_cases (clock env (now_reads w) - t0) (minutes 2))
      as [Hfresh | Hstale].
    + (* served from the cache *)
      destruct (Hserve w price0 t0 E0 Hfresh) as [Hr Hc].
      fold first in Hr, Hc. rewrite Hr.
      assert (Hw : _price_cache (snd first) = _price_cache w).
      { unfold first, get_price_info, bind, datetime_now, get_world.
        cbn [_price_cache calls now_reads]. rewrite E0. unfold _CACHE_TTL.
        destruct (Z.ltb_spec (clock env (now_reads w) - t0) (minutes 2));
          [reflexivity | lia]. }
      exists t0. rewrite Hw. split; [exact E0 | split; [exact Hfresh |]].
      intros H2. apply (Hserve (snd first) price0 t0); [now rewrite Hw | exact H2].
    + (* a stale entry: fetched *)
      assert (Hold : forall price t, _price_cache w !! symbol = Some (price, t) ->
                       (minutes 2 <= clock env (now_reads w) - t)%Z).
      { intros price t. rewrite E0. intros [= <- <-]. lia. }
      destruct (Hfetch w Hold) as [Hc Hres]. fold first in Hc, Hres.
      destruct (fst first) as [s r | s price e] eqn:Ef.
      * split; [exact Hres | split; [exact Hc |]].
        intros Hmono.
        apply (Hfetch (snd first)). intros price t. rewrite Hres, E0.
        intros [= <- <-]. lia.
      * exists (clock env (now_reads w)).
        split; [exact Hres | split; [unfold minutes; lia |]].
        intros H2. apply (Hserve (snd first) price _ Hres H2).
  - assert (Hold : forall price t, _price_cache w !! symbol = Some (price, t) ->
                     (minutes 2 <= clock env (now_reads w) - t)%Z).
    { intros price t. rewrite E0. discriminate. }
    destruct (Hfetch w Hold) as [Hc Hres]. fold first in Hc, Hres.
    destruct (fst first) as [s r | s price e] eqn:Ef.
    + split; [exact Hres | split; [exact Hc |]].
      intros Hmono.
      apply (Hfetch (snd first)). intros price t. rewrite Hres, E0. discriminate.
    + exists (clock env (now_reads w)).
      split; [exact Hres | split; [unfold minutes; lia |]].
      intros H2. apply (Hserve (snd first) price _ Hres H2).
Qed.

End PriceCache.

(** ** Company detector: the relevance map *)

Section DetectorOutput.

Import CompanyDetector.

Local Open Scope Q_scope.

Lemma in_keys_set {A} (d : Py.dict A) (k k' : string) (v : A) :
  In k' (Py.keys (Py.set d k v)) <-> In k' (Py.keys d) \/ k' = k.
Proof.
  rewrite keys_set. destruct (Py.has_key d k) eqn:E.
  - apply has_key_in_keys in E. split; [auto |]. intros [H | ->]; assumption.
  - rewrite in_app_iff. simpl. split; intros [H | H]; auto.
    destruct H as [H | []]; auto.
Qed.

(** The keys of a dict built by a loop come from the dict it started
    with or from a round of the loop. *)
Lemma fold_left_keys_from {A X} (P : string -> Prop)
  (step : Py.dict A -> X -> Py.dict A) (l : list X) (t : string) :
  (forall d x, In x l -> In t (Py.keys (step d x)) -> In t (Py.keys d) \/ P t) ->
  forall d, In t (Py.keys (fold_left step l d)) -> In t (Py.keys d) \/ P t.
Proof.
  induction l as [| x l IH]; intros Hstep d; simpl; [auto |].
  intros H. destruct (IH (fun d y Hy => Hstep d y (or_intror Hy)) _ H)
    as [H' | H']; [| auto].
  apply (Hstep d x); [now left | exact H'].
Qed.

Lemma fold_left_keys_kept {A X} (step : Py.dict A -> X -> Py.dict A)
  (l : list X) (t : string) :
  (forall d x, In t (Py.keys d) -> In t (Py.keys (step d x))) ->
  forall d, In t (Py.keys d) -> In t (Py.keys (fold_left step l d)).
Proof.
  intros Hstep. induction l as [| x l IH]; intros d; simpl; auto.
Qed.

Lemma add_hits_keys (hits : Py.dict Z) (ticker : string) (n : nat) (t : string) :
  In t (Py.keys (add_hits hits ticker n)) <-> In t (Py.keys hits) \/ t = ticker.
Proof. unfold add_hits. apply in_keys_set. Qed.

Lemma static_hits_tradeable (self : CompanyDetector.t) (text : string)
  (t : string) :
  In t (Py.keys (static_hits self text)) -> In t (_tradeable self).
Proof.
  unfold static_hits, symbol_pass, alias_pass. intros H.
  apply (fold_left_keys_from (fun t => In t (_tradeable self))) in H.
  - destruct H as [H | H]; [| exact H].
    apply (fold_left_keys_from (fun t => In t (_tradeable self))) in H.
    + destruct H as [[] | H]; exact H.
    + intros d [alias ticker] _ Hin.
      destruct (Py.mem ticker (_tradeable self)) eqn:Em; simpl in Hin; [| auto].
      destruct (0 <? Py.count (Py.lower text) alias)%nat; [| auto].
      apply add_hits_keys in Hin. destruct Hin as [Hin | ->]; [auto |].
      right. now apply mem_in.
  - intros d ticker Hticker Hin.
    destruct (0 <? _)%nat; [| auto].
    apply add_hits_keys in Hin. destruct Hin as [Hin | ->]; auto.
Qed.

Lemma dynamic_pass_keys (dynamic_hits : Py.dict Q) (hits : Py.dict Z) (t : string) :
  In t (Py.keys (dynamic_pass dynamic_hits hits))
  <-> In t (Py.keys hits) \/ In t (Py.keys dynamic_hits).
Proof.
  unfold dynamic_pass. revert hits.
  induction dynamic_hits as [| [k r] dyn IH]; intros hits; simpl.
  - tauto.
  - rewrite IH. destruct (Py.has_key hits k) eqn:E; simpl.
    + apply has_key_in_keys in E. split; [tauto |].
      intros [H | [<- | H]]; auto.
    + rewrite in_keys_set. split; [intros [[H | ->] | H]; auto |].
      intros [H | [<- | H]]; auto.
Qed.

Lemma relevance_scores_keys (hits : Py.dict Z) :
  Py.keys (relevance_scores hits) = Py.keys hits.
Proof.
  unfold relevance_scores, Py.keys. destruct hits as [| kv hits]; [reflexivity |].
  rewrite map_map. reflexivity.
Qed.

(** The tickers of [detect]: a ticker in the map is one of the tradeable
    list or one that the resolver returned, and every ticker that the
    resolver returned is in the map, on the tradeable list or not. *)
Theorem detect_tickers (self : CompanyDetector.t) (text : string) (env : Env)
  (w : World) (ticker : string) :
  let dynamic_hits := fst (DynamicResolver.extract_and_resolve text env w) in
  let out := fst (detect self text env w) in
  (Py.has_key out ticker = true ->
   In ticker (_tradeable self) \/ Py.has_key dynamic_hits ticker = true)
  /\ (Py.has_key dynamic_hits ticker = true -> Py.has_key out ticker = true).
Proof.
  intros dynamic_hits out.
  assert (Hout : Py.keys out = Py.keys (ticker_hits self text dynamic_hits)).
  { unfold out, dynamic_hits, detect, bind, ret.
    destruct (DynamicResolver.extract_and_resolve text env w) as [dyn w1].
    cbn [fst]. apply relevance_scores_keys. }
  rewrite !has_key_in_keys, Hout. unfold ticker_hits.
  rewrite dynamic_pass_keys. split.
  - intros [H | H]; [left; now apply (static_hits_tradeable self text) | now right].
  - auto.
Qed.

(** Every hit count is at least 1. *)
Lemma ticker_hits_positive (self : CompanyDetector.t) (text : string)
  (dynamic_hits : Py.dict Q) :
  Forall (fun kv : string * Z => (1 <= snd kv)%Z)
         (ticker_hits self text dynamic_hits).
Proof.
  assert (Hadd : forall d ticker n,
    (0 < n)%nat ->
    Forall (fun kv : string * Z => (1 <= snd kv)%Z) d ->
    Forall (fun kv : string * Z => (1 <= snd kv)%Z) (add_hits d ticker n)).
  { intros d ticker n Hn Hd. unfold add_hits.
    apply (set_values (fun h => (1 <= h)%Z)); [exact Hd |].
    destruct (Py.get d ticker) as [h |] eqn:Eg; [| lia].
    pose proof (get_values (fun h => (1 <= h)%Z) _ _ _ Hd Eg) as Hh.
    cbv beta in Hh. lia. }
  unfold ticker_hits, dynamic_pass, static_hits, symbol_pass, alias_pass.
  apply (fold_left_values (fun h => (1 <= h)%Z)).
  - intros d [k r] Hd. destruct (negb _); [| exact Hd].
    apply (set_values (fun h => (1 <= h)%Z)); [exact Hd |].
    unfold pseudo_hits. lia.
  - apply (fold_left_values (fun h => (1 <= h)%Z)).
    + intros d ticker Hd. destruct (Nat.ltb_spec 0
        (if Py.mem ticker AMBIGUOUS_TICKERS then Py.count_dollar text ticker
         else Py.count_standalone text ticker)); [| exact Hd].
      now apply Hadd.
    + apply (fold_left_values (fun h => (1 <= h)%Z)); [| constructor].
      intros d [alias ticker] Hd. destruct (negb _); [exact Hd |].
      destruct (Nat.ltb_spec 0 (Py.count (Py.lower text) alias)); [| exact Hd].
      now apply Hadd.
Qed.

Lemma max_value_ge (d : Py.dict Z) (k : string) (h : Z) :
  In (k, h) d -> (h <= max_value d)%Z.
Proof.
  unfold max_value. destruct d as [| [k0 h0] d]; [intros [] |].
  assert (H : forall l m, (m <= fold_left (fun m kv => Z.max m (snd kv)) l m)%Z
    /\ forall k h, In (k, h) l ->
         (h <= fold_left (fun m (kv : string * Z) => Z.max m (snd kv)) l m)%Z).
  { induction l as [| [k1 h1] l IH]; intros m; simpl.
    - split; [lia | intros ? ? []].
    - destruct (IH (Z.max m h1)) as [IH1 IH2]. split; [lia |].
      intros k2 h2 [[= <- <-] | Hin]; [lia | now apply (IH2 k2)]. }
  intros [[= <- <-] | Hin]; [apply H | now apply (proj2 (H d h0) k)].
Qed.

Lemma max_value_in (d : Py.dict Z) :
  d <> [] -> exists k, In (k, max_value d) d.
Proof.
  unfold max_value. destruct d as [| [k0 h0] d]; [congruence |]. intros _.
  assert (H : forall l m,
    fold_left (fun m (kv : string * Z) => Z.max m (snd kv)) l m = m
    \/ exists k, In (k, fold_left (fun m (kv : string * Z) => Z.max m (snd kv)) l m) l).
  { induction l as [| [k1 h1] l IH]; intros m; simpl; [now left |].
    destruct (IH (Z.max m h1)) as [E | [k Hk]].
    - rewrite E. destruct (Z.max_spec m h1) as [[_ ->] | [_ ->]]; eauto.
    - right. eauto. }
  destruct (H d h0) as [-> | [k Hk]]; [exists k0; now left | exists k; now right].
Qed.

(** The relevance of every ticker lies in [0, 1], and when the map is
    not empty a ticker with the most hits has relevance 1. *)
Theorem detect_relevance_range (self : CompanyDetector.t) (text : string)
  (env : Env) (w : World) :
  let out := fst (detect self text env w) in
  Forall (fun kv : string * Q => 0 <= snd kv /\ snd kv <= 1) out
  /\ match out with
     | [] => True
     | _ :: _ => exists ticker r, In (ticker, r) out /\ r == 1
     end.
Proof.
  intros out. unfold out, detect, bind, ret.
  destruct (DynamicResolver.extract_and_resolve text env w) as [dyn w1].
  cbn [fst].
  pose proof (ticker_hits_positive self text dyn) as Hpos.
  set (hits := ticker_hits self text dyn) in *.
  assert (Hscore : forall k h,
    In (k, h) hits ->
    let r := Py.round (Qmin 1 (inject_Z h / inject_Z (Z.max (max_value hits) 1))) 3 in
    (0 <= r /\ r <= 1) /\ (h = max_value hits -> r == 1)).
  { intros k h Hin r.
    assert (Hh : (1 <= h)%Z).
    { rewrite List.Forall_forall in Hpos. exact (Hpos _ Hin). }
    pose proof (max_value_ge _ _ _ Hin) as Hmax.
    set (m := Z.max (max_value hits) 1) in *.
    assert (Hm : (h <= m)%Z) by (unfold m; lia).
    assert (Hmq : 0 < inject_Z m).
    { change 0 with (inject_Z 0). rewrite <- Zlt_Qlt. lia. }
    assert (Hq : 0 <= inject_Z h / inject_Z m /\ inject_Z h / inject_Z m <= 1).
    { split.
      - apply Qle_shift_div_l; [exact Hmq |]. rewrite Qmult_0_l.
        change 0 with (inject_Z 0). rewrite <- Zle_Qle. lia.
      - apply Qle_shift_div_r; [exact Hmq |]. rewrite Qmult_1_l.
        rewrite <- Zle_Qle. exact Hm. }
    assert (Ea : inject_Z 0 / inject_Z (10 ^ Z.of_nat 3) == 0) by reflexivity.
    assert (Eb : inject_Z 1000 / inject_Z (10 ^ Z.of_nat 3) == 1) by reflexivity.
    split.
    - pose proof (round_between 0 1000
                    (Qmin 1 (inject_Z h / inject_Z m)) 3) as Hr.
      cbv zeta in Hr. rewrite Ea, Eb in Hr. apply Hr.
      + apply Q.min_glb; [discriminate | tauto].
      + apply Q.le_min_l.
    - intros Heq.
      assert (E1 : inject_Z h / inject_Z m == 1).
      { replace m with h by (unfold m; lia). unfold Qdiv.
        apply Qmult_inv_r. intros E0.
        assert (Hhq : 0 < inject_Z h)
          by (change 0 with (inject_Z 0); rewrite <- Zlt_Qlt; lia).
        rewrite E0 in Hhq. discriminate. }
      pose proof (round_between 1000 1000
                    (Qmin 1 (inject_Z h / inject_Z m)) 3) as Hr.
      cbv zeta in Hr. rewrite Eb in Hr.
      assert (Hmin : Qmin 1 (inject_Z h / inject_Z m) == 1).
      { rewrite E1. apply Q.min_id. }
      destruct Hr as [Hr1 Hr2]; [rewrite Hmin; apply Qle_refl .. |].
      now apply Qle_antisym. }
  unfold relevance_scores. destruct hits as [| kv0 hits'] eqn:Eh.
  - split; [constructor | exact I].
  - rewrite <- Eh in *. split.
    + apply List.Forall_forall. intros [k r] Hin.
      apply in_map_iff in Hin. destruct Hin as [[k' h] [[= <- <-] Hin]].
      cbn [fst snd]. apply (Hscore k' h Hin).
    + destruct (max_value_in hits) as [k Hk]; [rewrite Eh; discriminate |].
      destruct (map _ hits) as [| x l] eqn:Em.
      * rewrite Eh in Em. discriminate.
      * rewrite <- Em.
        exists k, (Py.round (Qmin 1 (inject_Z (max_value hits)
                     / inject_Z (Z.max (max_value hits) 1))) 3).
        split.
        -- apply in_map_iff. exists (k, max_value hits). split; [reflexivity | exact Hk].
        -- now apply (Hscore k (max_value hits) Hk).
Qed.

End DetectorOutput.

(** ** Dynamic resolver: the result of the resolver pass *)

Section ResolverPass.

Import DynamicResolver.

Lemma set_entries {A} (P : string * A -> Prop) (d : Py.dict A) (k : string)
  (v : A) :
  Forall P d -> P (k, v) -> Forall P (Py.set d k v).
Proof.
  intros Hd Hv. induction d as [| [k' v'] d IH]; cbn [Py.set].
  - now repeat constructor.
  - inversion Hd; subst. destruct (String.eqb k k'); constructor; auto.
Qed.

Lemma resolve_calls (name : string) (env : Env) (w : World) :
  calls (snd (resolve name env w)) = calls w
  \/ calls (snd (resolve name env w)) = (calls w ++ [CallSearch name])%list.
Proof.
  destruct (resolve_cache_step name env w) as [[v [t [_ [_ [_ [H _]]]]]] | [_ [H _]]];
    auto.
Qed.

(** The searches made while the candidates [l] are resolved, in order,
    are searches for some of the candidates. *)
Lemma resolve_all_calls (l : Py.dict Q) (resolved : Py.dict Q) (env : Env)
  (w : World) :
  let out :=
    foldM
      (fun (entry : string * Q) resolved =>
         let (candidate, relevance) := entry in
         bind (resolve candidate) (fun ticker =>
           match ticker with
           | Some (String c t) =>
               ret (Py.set resolved (String c t)
                      (Qmax match Py.get resolved (String c t) with
                            | Some r => r | None => 0%Q end relevance))
           | _ => ret resolved
           end))
      l resolved env w in
  exists searched,
    calls (snd out) = (calls w ++ map CallSearch searched)%list
    /\ sublist searched (Py.keys l).
Proof.
  revert resolved w. induction l as [| [candidate relevance] l IH];
    intros resolved w; simpl.
  - exists []. split; [now rewrite app_nil_r | constructor].
  - unfold bind at 1. unfold bind at 1.
    pose proof (resolve_calls candidate env w) as Hc.
    destruct (resolve candidate env w) as [ticker w1]. cbn [snd] in Hc.
    assert (Hnext : forall resolved',
      exists searched,
        calls (snd (foldM
          (fun (entry : string * Q) resolved =>
             let (candidate, relevance) := entry in
             bind (resolve candidate) (fun ticker =>
               match ticker with
               | Some (String c t) =>
                   ret (Py.set resolved (String c t)
                          (Qmax match Py.get resolved (String c t) with
                                | Some r => r | None => 0%Q end relevance))
               | _ => ret resolved
               end)) l resolved' env w1))
        = (calls w ++ map CallSearch searched)%list
        /\ sublist searched (candidate :: Py.keys l)).
    { intros resolved'. destruct (IH resolved' w1) as [searched [Hs Hsub]].
      destruct Hc as [Hc | Hc]; rewrite Hc in Hs.
      - exists searched. split; [exact Hs | now apply sublist_cons].
      - exists (candidate :: searched). split.
        + rewrite Hs, <- app_assoc. reflexivity.
        + now apply sublist_skip. }
    destruct ticker as [[| c t] |]; cbn [ret]; apply Hnext.
Qed.

(** What [extract_and_resolve] returns and does: every ticker of the
    result is a non-empty symbol with relevance 0.7 or 0.9, no ticker
    occurs twice, and the collaborator calls made are symbol searches
    for candidates of the text, at most one per candidate and in the
    order of the candidates. *)
Theorem extract_and_resolve_result (text : string) (env : Env) (w : World) :
  let out := extract_and_resolve text env w in
  Forall (fun kv : string * Q =>
            fst kv <> "" /\ (snd kv = (7 # 10)%Q \/ snd kv = (9 # 10)%Q))
         (fst out)
  /\ NoDup (Py.keys (fst out))
  /\ exists searched,
       calls (snd out) = (calls w ++ map CallSearch searched)%list
       /\ sublist searched (Py.keys (candidates text)).
Proof.
  intros out. split; [| split].
  - pose proof (extract_and_resolve_relevance text env w) as Hrel.
    assert (Hkeys : Forall (fun kv : string * Q => fst kv <> "") (fst out)).
    { unfold out, extract_and_resolve.
      apply (foldM_invariant (fun d : Py.dict Q =>
               Forall (fun kv : string * Q => fst kv <> "") d)); [| constructor].
      intros [candidate relevance] resolved env0 w0 _ Hres. unfold bind.
      destruct (resolve candidate env0 w0) as [ticker w1].
      destruct ticker as [[| c t] |]; cbn [ret fst]; try exact Hres.
      apply set_entries; [exact Hres | discriminate]. }
    fold out in Hrel. rewrite List.Forall_forall in *.
    intros kv Hin. split; [now apply Hkeys | exact (Hrel kv Hin)].
  - unfold out, extract_and_resolve.
    apply (foldM_invariant (fun d : Py.dict Q => NoDup (Py.keys d)));
      [| constructor].
    intros [candidate relevance] resolved env0 w0 _ Hres. unfold bind.
    destruct (resolve candidate env0 w0) as [ticker w1].
    destruct ticker as [[| c t] |]; cbn [ret fst]; try exact Hres.
    now apply NoDup_keys_set.
  - apply resolve_all_calls.
Qed.

(** The text "UBER shares jump": the resolver returns UBER for the
    uppercase run, the detector has no alias or symbol for it, and UBER
    enters the hit counts with 2 hits. *)
Lemma detect_resolver_only_two_hits_witness :
  let self :=
    {| CompanyDetector._aliases := [("apple", "AAPL")];
       CompanyDetector._tradeable := ["AAPL"] |} in
  let dynamic_hits := fst (extract_and_resolve "UBER shares jump" uber_env World0) in
  Py.get (CompanyDetector.ticker_hits self "UBER shares jump" dynamic_hits) "UBER"
  = Some 2%Z.
Proof.
  intros self.
  apply (detect_resolver_only_two_hits self "UBER shares jump" uber_env World0
           "UBER"); vm_compute; reflexivity.
Defined.

End ResolverPass.

(** ** Theme mapper: the highest matching weight *)

Section Themes.

Import ThemeMapper.

(** One update of [ticker_relevance[ticker]] on the entry [o] of the
    ticker. *)
Let raise (o : option Q) (weight : Q) : option Q :=
  Some (Qmax (match o with Some r => r | None => 0%Q end) weight).

Lemma raise_some (ws : list Q) (r : Q) :
  fold_left raise ws (Some r) = Some (fold_left Qmax ws r).
Proof.
  revert r. induction ws as [| w ws IH]; intros r; simpl; [reflexivity |].
  unfold raise at 2. apply IH.
Qed.

Lemma add_basket_get (self : ThemeMapper.t) (stock_list : list (string * Q))
  (rel : Py.dict Q) (ticker : string) :
  Py.get (add_basket self stock_list rel) ticker
  = if Py.mem ticker (_tradeable self)
    then fold_left raise (basket_weights ticker stock_list) (Py.get rel ticker)
    else Py.get rel ticker.
Proof.
  unfold add_basket, basket_weights. revert rel.
  induction stock_list as [| [k weight] sl IH]; intros rel; cbn [fold_left].
  - cbn. now destruct (Py.mem ticker (_tradeable self)).
  - rewrite IH. cbn [List.filter fst].
    destruct (String.eqb_spec k ticker) as [-> | Hne].
    + destruct (Py.mem ticker (_tradeable self)); [| reflexivity].
      cbn [map snd fold_left]. now rewrite get_set_eq.
    + destruct (Py.mem k (_tradeable self)); [| reflexivity].
      now rewrite get_set_ne.
Qed.

Lemma map_themes_get (self : ThemeMapper.t) (text ticker : string) :
  Py.get (map_themes self text) ticker
  = if Py.mem ticker (_tradeable self)
    then fold_left raise (matched_weights self text ticker) None
    else None.
Proof.
  unfold map_themes, matched_weights.
  change (@None Q) with (Py.get (@nil (string * Q)) ticker) at 1 2.
  generalize (@nil (string * Q)).
  induction (_themes self) as [| [keyword stock_list] themes IH]; intros rel.
  - cbn. now destruct (Py.mem ticker (_tradeable self)).
  - cbn [fold_left flat_map fst snd]. rewrite IH.
    destruct (Py.contains (Py.lower text) keyword).
    + rewrite add_basket_get, fold_left_app.
      now destruct (Py.mem ticker (_tradeable self)).
    + reflexivity.
Qed.

(** [map_themes] gives a ticker the highest weight among the baskets of
    the keywords found in the lowercased text, and never less than 0:
    a ticker that is not tradeable or is in no such basket is absent,
    any other ticker maps to the maximum of 0 and its weights. *)
Theorem map_themes_highest_weight (self : ThemeMapper.t) (text ticker : string) :
  Py.get (map_themes self text) ticker
  = if Py.mem ticker (_tradeable self) then
      match matched_weights self text ticker with
      | [] => None
      | weights => Some (fold_left Qmax weights 0%Q)
      end
    else None.
Proof.
  rewrite map_themes_get.
  destruct (Py.mem ticker (_tradeable self)); [| reflexivity].
  destruct (matched_weights self text ticker) as [| w ws]; [reflexivity |].
  cbn [fold_left]. unfold raise at 2. apply raise_some.
Qed.

End Themes.

(** ** Rounding of reals *)

Section RealRounding.

Local Open Scope R_scope.

Lemma Rround_half_even_lower (k : Z) (y : R) :
  IZR k <= y -> (k <= Rround_half_even y)%Z.
Proof.
  intros Hy. unfold Rround_half_even.
  destruct (base_Int_part y) as [H1 H2].
  assert (Hf : (k <= Int_part y)%Z).
  { apply Z.lt_succ_r. apply lt_IZR. rewrite succ_IZR. lra. }
  destruct (Rlt_dec _ _); [lia |].
  destruct (Rlt_dec _ _); [lia |].
  destruct (Z.even _); lia.
Qed.

Lemma Rround_half_even_upper (k : Z) (y : R) :
  y <= IZR k -> (Rround_half_even y <= k)%Z.
Proof.
  intros Hy. unfold Rround_half_even.
  destruct (base_Int_part y) as [H1 H2].
  assert (Hf : (Int_part y <= k)%Z) by (apply le_IZR; lra).
  destruct (Z.eq_dec (Int_part y) k) as [He | Hne].
  - rewrite He in *. destruct (Rlt_dec (y - IZR k) (1 / 2)); [lia | lra].
  - assert (Hlt : (Int_part y + 1 <= k)%Z) by lia.
    destruct (Rlt_dec _ _); [lia |].
    destruct (Rlt_dec _ _); [lia |].
    destruct (Z.even _); lia.
Qed.

(** A bound with at most [ndigits] decimals survives [round]. *)
Lemma Rround_between (a b : Z) (x : R) (ndigits : nat) :
  IZR a / 10 ^ ndigits <= x -> x <= IZR b / 10 ^ ndigits ->
  IZR a / 10 ^ ndigits <= Rround x ndigits
  /\ Rround x ndigits <= IZR b / 10 ^ ndigits.
Proof.
  intros Ha Hb. unfold Rround.
  assert (Hp : 0 < 10 ^ ndigits) by (apply pow_lt; lra).
  split.
  - apply Rmult_le_reg_r with (10 ^ ndigits); [exact Hp |].
    unfold Rdiv. rewrite !Rmult_assoc, Rinv_l, !Rmult_1_r by lra.
    apply IZR_le, Rround_half_even_lower.
    apply Rmult_le_compat_r with (r := 10 ^ ndigits) in Ha; [| lra].
    unfold Rdiv in Ha. rewrite Rmult_assoc, Rinv_l, Rmult_1_r in Ha by lra.
    exact Ha.
  - apply Rmult_le_reg_r with (10 ^ ndigits); [exact Hp |].
    unfold Rdiv. rewrite !Rmult_assoc, Rinv_l, !Rmult_1_r by lra.
    apply IZR_le, Rround_half_even_upper.
    apply Rmult_le_compat_r with (r := 10 ^ ndigits) in Hb; [| lra].
    unfold Rdiv in Hb. rewrite Rmult_assoc, Rinv_l, Rmult_1_r in Hb by lra.
    exact Hb.
Qed.

(** Rounding to 4 decimals keeps a score within [-1, 1]. *)
Lemma Rround_score (x : R) : -1 <= x <= 1 -> -1 <= Rround x 4 <= 1.
Proof.
  intros [H1 H2].
  assert (Hp : 10 ^ 4 = 10000) by (simpl; lra).
  destruct (Rround_between (-10000) 10000 x 4) as [Hlo Hhi];
    rewrite ?Hp in *; lra.
Qed.

End RealRounding.

(** ** Technical analyzer: the ranges of a snapshot *)

Section SnapshotRanges.

Import TechnicalAnalyzer.

Local Open Scope R_scope.

Lemma Forall_skipn {A} (P : A -> Prop) (n : nat) (l : list A) :
  Forall P l -> Forall P (skipn n l).
Proof.
  revert l. induction n as [| n IH]; intros l Hl; [exact Hl |].
  destruct l as [| x l]; [constructor |]. inversion Hl; subst. now apply IH.
Qed.

Lemma sum_nonneg (l : list R) : Forall (fun x => 0 <= x) l -> 0 <= Series.sum l.
Proof.
  induction 1 as [| x l Hx Hl IH]; simpl; lra.
Qed.

Lemma mean_nonneg (l : list R) : Forall (fun x => 0 <= x) l -> 0 <= Series.mean l.
Proof.
  intros Hl. unfold Series.mean. destruct l as [| x l].
  - simpl. unfold Rdiv. rewrite Rmult_0_l. lra.
  - apply Rmult_le_pos; [now apply sum_nonneg |].
    apply Rlt_le, Rinv_0_lt_compat, lt_0_INR. simpl. lia.
Qed.

Lemma clamp_range (x : R) : -1 <= Rmax (-1) (Rmin 1 x) <= 1.
Proof.
  unfold Rmax, Rmin. destruct (Rle_dec 1 x); destruct (Rle_dec _ _); lra.
Qed.

Lemma compute_rsi_range (closes : list R) (rsi : R) :
  _compute_rsi closes = Some rsi -> 0 <= rsi <= 100.
Proof.
  unfold _compute_rsi. destruct (_ <? _)%nat; [discriminate |].
  match goal with
  | |- context [Rlt_dec ?loss 1e-10] =>
      set (last_loss := loss); destruct (Rlt_dec last_loss 1e-10) as [Hl | Hl]
  end.
  - intros [= <-]. lra.
  - match goal with
    | |- Some (100 - 100 / (1 + ?g / last_loss)) = _ -> _ => set (last_gain := g)
    end.
    intros [= <-].
    assert (Hg : 0 <= last_gain).
    { unfold last_gain, Series.rolling_mean_last, Series.last_n.
      apply mean_nonneg, Forall_skipn. constructor; [lra |].
      apply List.Forall_forall. intros x Hx. apply in_map_iff in Hx.
      destruct Hx as [d [<- _]]. destruct (Rlt_dec 0 d); lra. }
    assert (Hq : 1 <= 1 + last_gain / last_loss).
    { assert (0 <= last_gain / last_loss).
      { apply Rmult_le_pos; [exact Hg |].
        apply Rlt_le, Rinv_0_lt_compat. lra. }
      lra. }
    set (q := 1 + last_gain / last_loss) in *.
    assert (Hinv : 0 < / q <= 1).
    { split; [apply Rinv_0_lt_compat; lra |].
      rewrite <- Rinv_1. apply Rinv_le_contravar; lra. }
    unfold Rdiv. lra.
Qed.

Lemma score_rsi_range (rsi : R) : 0 <= rsi <= 100 -> -1 <= _score_rsi rsi <= 1.
Proof.
  intros H. unfold _score_rsi.
  repeat (destruct (Rle_dec _ _)); lra.
Qed.

Lemma score_macd_range (m : MACD) : -1 <= _score_macd m <= 1.
Proof.
  unfold _score_macd.
  destruct (bullish_crossover m), (bearish_crossover m),
    (Rlt_dec 0 (histogram m)); lra.
Qed.

(** The ranges of a snapshot that [compute_history] builds. *)
Lemma compute_history_ranges (symbol : string) (hist : option (list Bar)) :
  match compute_history symbol hist with
  | TAFail s => s = symbol
  | TASuccess snap =>
      ta_symbol snap = symbol
      /\ -1 <= technical_score snap <= 1
      /\ 0.3 <= technical_confidence snap <= 1
      /\ 0 <= ta_rsi snap <= 100
      /\ -1 <= rsi_score snap <= 1
      /\ -1 <= ma_score snap <= 1
      /\ -1 <= macd_score snap <= 1
      /\ -1 <= roc_score snap <= 1
  end.
Proof.
  unfold compute_history.
  destruct hist as [hist |]; [| reflexivity].
  destruct (_ <? _)%nat; [reflexivity |].
  destruct (_compute_rsi (map Close hist)) as [rsi |] eqn:Er; [| reflexivity].
  destruct (_compute_ma_signals (map Close hist)) as [ma |]; [| reflexivity].
  destruct (_compute_macd (map Close hist)) as [m |]; [| reflexivity].
  apply compute_rsi_range in Er.
  unfold snapshot. cbv zeta.
  cbn [ta_symbol technical_score technical_confidence ta_rsi rsi_score ma_score
       macd_score roc_score].
  split; [reflexivity |].
  split; [apply Rround_score, clamp_range |].
  split.
  { (* confidence *)
    match goal with
    | |- _ <= Rround (Rmin 1 (0.3 + ?a * 0.4 + ?s * 0.3)) 3 <= _ =>
        set (agreement := a); set (signal_strength := s)
    end.
    assert (Ha : 0 <= agreement).
    { unfold agreement. apply Rmult_le_pos; [apply pos_INR |].
      apply Rlt_le, Rinv_0_lt_compat, lt_0_INR. simpl. lia. }
    assert (Hs : 0 <= signal_strength).
    { unfold signal_strength, Rmin. destruct (Rle_dec _ _); [lra |].
      assert (H := Rabs_pos (_score_rsi rsi * RSI_WEIGHT
        + _score_ma ma * MA_WEIGHT + _score_macd m * MACD_WEIGHT
        + match _compute_roc (map Close hist) with
          | Some r => _score_roc r | None => 0 end * ROC_WEIGHT)).
      lra. }
    assert (Hc : 0.3 <= Rmin 1 (0.3 + agreement * 0.4 + signal_strength * 0.3) <= 1).
    { unfold Rmin. destruct (Rle_dec _ _); lra. }
    assert (Hp : 10 ^ 3 = 1000) by (simpl; lra).
    destruct (Rround_between 300 1000
                (Rmin 1 (0.3 + agreement * 0.4 + signal_strength * 0.3)) 3)
      as [Hlo Hhi]; rewrite ?Hp in *; lra. }
  split.
  { assert (Hp : 10 ^ 2 = 100) by (simpl; lra).
    destruct (Rround_between 0 10000 rsi 2) as [Hlo Hhi];
      rewrite ?Hp in *; lra. }
  split; [apply Rround_score, score_rsi_range, Er |].
  split; [apply Rround_score; unfold _score_ma; apply clamp_range |].
  split; [apply Rround_score, score_macd_range |].
  apply Rround_score.
  destruct (_compute_roc (map Close hist)); [apply clamp_range | lra].
Qed.

(** A result of [_compute] names the symbol asked for.  When it is a
    snapshot, the composite score and the four indicator scores lie in
    [-1, 1], the confidence in [0.3, 1] and the RSI in [0, 100]. *)
Theorem compute_snapshot_ranges (symbol : string) (env : Env) (w : World) :
  match fst (_compute symbol env w) with
  | TAFail s => s = symbol
  | TASuccess snap =>
      ta_symbol snap = symbol
      /\ -1 <= technical_score snap <= 1
      /\ 0.3 <= technical_confidence snap <= 1
      /\ 0 <= ta_rsi snap <= 100
      /\ -1 <= rsi_score snap <= 1
      /\ -1 <= ma_score snap <= 1
      /\ -1 <= macd_score snap <= 1
      /\ -1 <= roc_score snap <= 1
  end.
Proof.
  unfold _compute, bind, ticker_history, ret. cbn [fst].
  apply compute_history_ranges.
Qed.

End SnapshotRanges.

(** ** Technical analyzer: edge cases of the indicators *)

Section IndicatorEdges.

Import TechnicalAnalyzer.

Local Open Scope R_scope.

Lemma sum_zero (l : list R) : Forall (fun x => x = 0) l -> Series.sum l = 0.
Proof.
  induction 1 as [| x l Hx Hl IH]; simpl; [reflexivity | lra].
Qed.

(** A series of at least 15 closes that never falls, a flat one
    included, has no losses: its RSI is 100, and that RSI scores -1, the
    lowest score of the indicator. *)
Theorem rsi_of_series_without_losses (closes : list R) :
  (15 <= length closes)%nat ->
  Forall (fun d => 0 <= d) (Series.diff closes) ->
  _compute_rsi closes = Some 100 /\ _score_rsi 100 = -1.
Proof.
  intros Hlen Hup. split.
  - unfold _compute_rsi.
    destruct (Nat.ltb_spec (length closes) (14 + 1)); [lia |].
    match goal with
    | |- context [Rlt_dec ?loss 1e-10] =>
        assert (Hloss : loss = 0); [| rewrite Hloss]
    end.
    + unfold Series.rolling_mean_last, Series.mean, Series.last_n.
      rewrite sum_zero; [unfold Rdiv; apply Rmult_0_l |].
      apply Forall_skipn. constructor; [reflexivity |].
      apply List.Forall_forall. intros x Hx. apply in_map_iff in Hx.
      destruct Hx as [d [<- Hd]].
      rewrite List.Forall_forall in Hup. specialize (Hup d Hd).
      destruct (Rlt_dec d 0); lra.
    + destruct (Rlt_dec 0 1e-10); [reflexivity | lra].
  - unfold _score_rsi. repeat (destruct (Rle_dec _ _)); lra.
Qed.

Lemma rsi_of_series_without_losses_witness :
  _compute_rsi (repeat 100 15) = Some 100 /\ _score_rsi 100 = -1.
Proof.
  apply (rsi_of_series_without_losses (repeat 100 15)).
  - simpl. lia.
  - simpl. repeat constructor; lra.
Defined.

(** The moving-average signals exist from 20 closes on.  With fewer than
    50 closes there is no SMA-50, both comparisons with it count as true,
    and the MA score is 1 or 0.4, never negative; from 50 closes on the
    SMA-50 is the mean of the last 50. *)
Theorem ma_signals_without_sma50 (closes : list R) :
  match _compute_ma_signals closes with
  | None => (length closes < 20)%nat
  | Some ma =>
      (20 <= length closes)%nat
      /\ if (length closes <? 50)%nat
         then sma_50 ma = None
              /\ price_above_sma50 ma = true /\ sma20_above_sma50 ma = true
              /\ (_score_ma ma = 1 \/ _score_ma ma = 0.4)
         else sma_50 ma = Some (Series.rolling_mean_last 50 closes)
  end.
Proof.
  unfold _compute_ma_signals.
  destruct (Nat.ltb_spec (length closes) 20); [assumption |].
  split; [assumption |].
  destruct (Nat.ltb_spec (length closes) 50) as [H50 | H50].
  - destruct (Nat.leb_spec 50 (length closes)); [lia |].
    cbn [sma_50 price_above_sma50 sma20_above_sma50].
    repeat split. unfold _score_ma.
    cbn [price_above_sma20 price_above_sma50 sma20_above_sma50].
    destruct (Rltb _ _); [left | right];
      unfold Rmax, Rmin; repeat (destruct (Rle_dec _ _)); lra.
  - destruct (Nat.leb_spec 50 (length closes)); [reflexivity | lia].
Qed.

End IndicatorEdges.

(** ** Signal generator: what [generate] returns *)

Section GenerateOutput.

Import SignalGenerator.

Lemma in_get_nodup {A} (d : Py.dict A) (k : string) (v : A) :
  NoDup (Py.keys d) -> In (k, v) d -> Py.get d k = Some v.
Proof.
  unfold Py.keys. induction d as [| [k' v'] d IH]; simpl; [tauto |].
  intros Hnd Hin. apply NoDup_cons in Hnd. destruct Hnd as [Hk Hnd].
  destruct Hin as [[= -> ->] | Hin].
  - now rewrite String.eqb_refl.
  - destruct (String.eqb k k') eqn:E; [| now apply IH].
    apply String.eqb_eq in E. subst k'. exfalso. apply Hk.
    apply list_elem_of_In, in_map_iff. now exists (k, v).
Qed.

Lemma fold_left_keys_nodup {A X} (step : Py.dict A -> X -> Py.dict A)
  (l : list X) :
  (forall d x, NoDup (Py.keys d) -> NoDup (Py.keys (step d x))) ->
  forall d, NoDup (Py.keys d) -> NoDup (Py.keys (fold_left step l d)).
Proof.
  intros Hstep. induction l as [| x l IH]; intros d; simpl; auto.
Qed.

Lemma add_story_nodup (self : SignalGenerator.t) (analysis : StoryAnalysis)
  (data : Py.dict TickerData) :
  NoDup (Py.keys data) -> NoDup (Py.keys (add_story self analysis data)).
Proof.
  unfold add_story. apply fold_left_keys_nodup.
  intros d [ticker relevance] Hd. now apply NoDup_keys_set.
Qed.

Lemma aggregate_nodup (self : SignalGenerator.t)
  (story_analyses : list StoryAnalysis) :
  NoDup (Py.keys (aggregate self story_analyses)).
Proof.
  unfold aggregate. apply fold_left_keys_nodup.
  - intros d x. apply add_story_nodup.
  - constructor.
Qed.

Lemma add_story_count (self : SignalGenerator.t) (analysis : StoryAnalysis)
  (data : Py.dict TickerData) (ticker : string) :
  count_of (Py.get (add_story self analysis data) ticker)
  = (count_of (Py.get data ticker) + entries_of ticker (tickers analysis))%nat.
Proof.
  unfold add_story, entries_of.
  generalize (tickers analysis) as entries. intros entries. revert data.
  induction entries as [| [k relevance] entries IH]; intros data;
    cbn [fold_left List.filter fst]; [simpl; lia |].
  rewrite IH. destruct (String.eqb k ticker) eqn:E.
  - apply String.eqb_eq in E. subst k. rewrite get_set_eq.
    destruct (Py.get data ticker); simpl; lia.
  - apply String.eqb_neq in E. rewrite get_set_ne by exact E. reflexivity.
Qed.

Lemma aggregate_count (self : SignalGenerator.t)
  (story_analyses : list StoryAnalysis) (ticker : string) :
  count_of (Py.get (aggregate self story_analyses) ticker)
  = entries_of ticker (flat_map tickers story_analyses).
Proof.
  unfold aggregate.
  assert (H : forall data,
    count_of (Py.get (fold_left (fun data analysis => add_story self analysis data)
                                story_analyses data) ticker)
    = (count_of (Py.get data ticker)
       + entries_of ticker (flat_map tickers story_analyses))%nat).
  { induction story_analyses as [| s l IH]; intros data; simpl.
    - unfold entries_of. simpl. lia.
    - rewrite IH, add_story_count. unfold entries_of.
      rewrite List.filter_app, length_app. lia. }
  rewrite H. reflexivity.
Qed.

Lemma aggregate_keys (self : SignalGenerator.t)
  (story_analyses : list StoryAnalysis) (ticker : string) :
  In ticker (Py.keys (aggregate self story_analyses)) ->
  exists analysis,
    In analysis story_analyses /\ In ticker (Py.keys (tickers analysis)).
Proof.
  unfold aggregate. intros H.
  apply (fold_left_keys_from
           (fun t => exists analysis,
              In analysis story_analyses /\ In t (Py.keys (tickers analysis))))
    in H.
  - destruct H as [[] | H]. exact H.
  - intros d analysis Hin Hk. unfold add_story in Hk.
    apply (fold_left_keys_from
             (fun t => In t (Py.keys (tickers analysis)))) in Hk.
    + destruct Hk as [Hk | Hk]; [now left | right]. now exists analysis.
    + intros d' [k relevance] Hin' Hk'. apply in_keys_set in Hk'.
      destruct Hk' as [Hk' | ->]; [now left | right].
      unfold Py.keys. apply in_map_iff. now exists (k, relevance).
Qed.

Lemma recommendations_symbols (data : Py.dict TickerData)
  (technical_scores : Py.dict TechnicalSnapshot) (s : string) :
  In s (map rec_symbol
          (flat_map
             (fun entry : string * TickerData =>
                let (ticker, td) := entry in
                if Rlt_dec (weight_sum td) 0.01 then []
                else [recommend ticker td (Py.get technical_scores ticker)])
             data)) ->
  In s (Py.keys data).
Proof.
  intros H. apply in_map_iff in H. destruct H as [r [<- H]].
  apply in_flat_map in H. destruct H as [[ticker td] [Hin Hr]].
  destruct (Rlt_dec _ _); [destruct Hr |]. destruct Hr as [<- | []].
  unfold Py.keys. apply in_map_iff. now exists (ticker, td).
Qed.

Lemma recommendations_nodup (data : Py.dict TickerData)
  (technical_scores : Py.dict TechnicalSnapshot) :
  NoDup (Py.keys data) ->
  NoDup (map rec_symbol
           (flat_map
              (fun entry : string * TickerData =>
                 let (ticker, td) := entry in
                 if Rlt_dec (weight_sum td) 0.01 then []
                 else [recommend ticker td (Py.get technical_scores ticker)])
              data)).
Proof.
  induction data as [| [ticker td] data IH]; intros Hnd;
    [constructor |].
  unfold Py.keys in Hnd. cbn [map fst] in Hnd.
  apply NoDup_cons in Hnd. destruct Hnd as [Hk Hnd].
  cbn [flat_map]. destruct (Rlt_dec _ _); cbn [app map]; [now apply IH |].
  apply NoDup_cons. split; [| now apply IH].
  intros H. apply list_elem_of_In, recommendations_symbols in H.
  apply Hk, list_elem_of_In, H.
Qed.

Lemma generate_symbols_nodup (self : SignalGenerator.t)
  (story_analyses : list StoryAnalysis)
  (technical_scores : Py.dict TechnicalSnapshot) :
  NoDup (map rec_symbol (generate self story_analyses technical_scores)).
Proof.
  unfold generate. rewrite (Permutation_map rec_symbol (sort_perm _)).
  apply recommendations_nodup, aggregate_nodup.
Qed.

Lemma generate_symbol_named (self : SignalGenerator.t)
  (story_analyses : list StoryAnalysis)
  (technical_scores : Py.dict TechnicalSnapshot) (r : Recommendation) :
  In r (generate self story_analyses technical_scores) ->
  exists analysis,
    In analysis story_analyses
    /\ In (rec_symbol r) (Py.keys (tickers analysis)).
Proof.
  intros Hr. apply generate_recommend in Hr.
  destruct Hr as [ticker [td [Hin [_ ->]]]]. cbn [rec_symbol recommend].
  apply (aggregate_keys self). unfold Py.keys. apply in_map_iff.
  now exists (ticker, td).
Qed.

(** [generate] returns one recommendation per ticker at most; the
    ticker of each is named by one of the stories, its [story_count] is
    the number of ticker entries of the stories that name it, and its
    [target_allocation_percent] is between 1 and 20. *)
Theorem generate_one_per_ticker (self : SignalGenerator.t)
  (story_analyses : list StoryAnalysis)
  (technical_scores : Py.dict TechnicalSnapshot) :
  let out := generate self story_analyses technical_scores in
  NoDup (map rec_symbol out)
  /\ Forall
       (fun r =>
          (exists analysis,
             In analysis story_analyses
             /\ Py.has_key (tickers analysis) (rec_symbol r) = true)
          /\ story_count r
             = length (List.filter
                         (fun e => String.eqb (fst e) (rec_symbol r))
                         (flat_map tickers story_analyses))
          /\ (1 <= target_allocation_percent r <= 20)%Z)
       out.
Proof.
  cbv zeta. split; [apply generate_symbols_nodup |].
  apply List.Forall_forall. intros r Hr. split.
  - destruct (generate_symbol_named _ _ _ _ Hr) as [a [Ha Hk]].
    exists a. split; [exact Ha |]. now apply has_key_in_keys.
  - apply generate_recommend in Hr.
    destruct Hr as [ticker [td [Hin [_ ->]]]]. cbn [rec_symbol recommend
      story_count target_allocation_percent].
    split.
    + pose proof (aggregate_count self story_analyses ticker) as Hc.
      rewrite (in_get_nodup _ _ _ (aggregate_nodup _ _) Hin) in Hc.
      exact Hc.
    + unfold _position_size. lia.
Qed.

End GenerateOutput.

(** ** Signal generator: the action of every ticker *)

Section ActionThresholds.

Import SignalGenerator.

Local Open Scope R_scope.

Lemma thresholds_followed (score conf : R) :
  follows_thresholds score conf (choose_action score conf).
Proof.
  destruct (choose_action_spec score conf) as [Hb [Hs Hh]].
  split; [exact Hb | split; [exact Hs | split; [exact Hh |]]].
  intros E. apply Hh. split; intros [? ?]; destruct E as [E | E]; lra.
Qed.

Lemma aggregate_has_ticker (self : SignalGenerator.t)
  (story_analyses : list StoryAnalysis) (analysis : StoryAnalysis)
  (ticker : string) :
  In analysis story_analyses ->
  Py.has_key (tickers analysis) ticker = true ->
  exists td, Py.get (aggregate self story_analyses) ticker = Some td.
Proof.
  intros Hin Hkey.
  pose proof (aggregate_count self story_analyses ticker) as Hc.
  assert (Hpos : (1 <= entries_of ticker (flat_map tickers story_analyses))%nat).
  { apply has_key_in_keys in Hkey. unfold Py.keys in Hkey.
    apply in_map_iff in Hkey. destruct Hkey as [[k rel] [Ek He]].
    cbn [fst] in Ek. subst k. unfold entries_of.
    assert (Hf : In (ticker, rel)
                   (List.filter (fun e : string * R => String.eqb (fst e) ticker)
                      (flat_map tickers story_analyses))).
    { apply List.filter_In. split.
      - apply in_flat_map. now exists analysis.
      - cbn [fst]. apply String.eqb_refl. }
    destruct (List.filter _ _); [destruct Hf | cbn; lia]. }
  destruct (Py.get (aggregate self story_analyses) ticker) as [td |];
    [now exists td |].
  cbn [count_of] in Hc. lia.
Qed.

(** C5: every ticker that a story names is aggregated, and unless its
    weight is below 0.01 (then it gets no recommendation) [generate]
    returns a recommendation for it whose action follows from the
    blended score and the blended confidence of the ticker: BUY exactly
    when the score is above 0.15 and the confidence at least 0.3, SELL
    exactly when the score is below -0.15 and the confidence at least
    0.3, HOLD exactly when neither holds; a score of exactly 0.15 or
    exactly -0.15 gives HOLD whatever the confidence.  And every
    recommendation returned is the one of such a ticker. *)
Theorem generate_action_thresholds (self : SignalGenerator.t)
  (story_analyses : list StoryAnalysis)
  (technical_scores : Py.dict TechnicalSnapshot) :
  let out := generate self story_analyses technical_scores in
  (forall analysis ticker,
     In analysis story_analyses ->
     Py.has_key (tickers analysis) ticker = true ->
     exists td,
       Py.get (aggregate self story_analyses) ticker = Some td
       /\ if Rlt_dec (weight_sum td) 0.01
          then forall r, In r out -> rec_symbol r <> ticker
          else exists r,
                 In r out
                 /\ rec_symbol r = ticker
                 /\ follows_thresholds
                      (agg_score td (Py.get technical_scores ticker))
                      (combined_confidence td (Py.get technical_scores ticker))
                      (action r))
  /\ Forall
       (fun r =>
          exists td,
            Py.get (aggregate self story_analyses) (rec_symbol r) = Some td
            /\ ~ weight_sum td < 0.01
            /\ r = recommend (rec_symbol r) td
                     (Py.get technical_scores (rec_symbol r))
            /\ follows_thresholds
                 (agg_score td (Py.get technical_scores (rec_symbol r)))
                 (combined_confidence td
                    (Py.get technical_scores (rec_symbol r)))
                 (action r))
       out.
Proof.
  intros out. split.
  - intros analysis ticker Hin Hkey.
    destruct (aggregate_has_ticker self _ _ _ Hin Hkey) as [td Htd].
    exists td. split; [exact Htd |].
    destruct (Rlt_dec (weight_sum td) 0.01) as [Hlow | Hw].
    + intros r Hr Hsym. apply generate_recommend in Hr.
      destruct Hr as [ticker' [td' [Hagg [Hw' ->]]]].
      cbn [rec_symbol recommend] in Hsym. subst ticker'.
      rewrite (in_get_nodup _ _ _ (aggregate_nodup _ _) Hagg) in Htd.
      injection Htd as <-. exact (Hw' Hlow).
    + exists (recommend ticker td (Py.get technical_scores ticker)).
      split; [| split; [reflexivity | apply thresholds_followed]].
      unfold out, generate.
      apply (Permutation_in _ (Permutation_sym (sort_perm _))).
      unfold recommendations. apply in_flat_map.
      exists (ticker, td). split; [now apply get_in |].
      destruct (Rlt_dec (weight_sum td) 0.01); [contradiction | now left].
  - apply List.Forall_forall. intros r Hr.
    apply generate_recommend in Hr.
    destruct Hr as [ticker [td [Hagg [Hw ->]]]]. cbn [rec_symbol recommend].
    exists td. split; [exact (in_get_nodup _ _ _ (aggregate_nodup _ _) Hagg) |].
    split; [exact Hw | split; [reflexivity | apply thresholds_followed]].
Qed.

End ActionThresholds.

(** ** Signal generator: the ranges of a recommendation *)

Section GenerateRanges.

Import SignalGenerator.

Local Open Scope R_scope.

Variables (self : SignalGenerator.t) (lo hi : R).

(** What the loop of [generate] keeps true of every accumulator. *)
Let averaged (td : TickerData) : Prop :=
  lo * weight_sum td <= weighted_score_sum td <= hi * weight_sum td
  /\ 0 <= weight_sum td /\ 0 <= confidence_sum td.

Let story_in_range (analysis : StoryAnalysis) : Prop :=
  lo <= sentiment_score analysis <= hi
  /\ 0 <= sentiment_confidence analysis
  /\ Forall (fun e : string * R => 0 <= snd e) (tickers analysis).

Lemma add_story_averaged (analysis : StoryAnalysis)
  (data : Py.dict TickerData) :
  story_in_range analysis ->
  Forall (fun kv => averaged (snd kv) /\ (1 <= td_story_count (snd kv))%nat)
         data ->
  Forall (fun kv => averaged (snd kv) /\ (1 <= td_story_count (snd kv))%nat)
         (add_story self analysis data).
Proof.
  intros [Hs [Hc Hr]]. unfold add_story.
  pose proof (exp_pos (- _lambda self * Rmax (story_age_hours analysis) 0))
    as Hd. fold (_time_decay_weight self (story_age_hours analysis)) in Hd.
  set (decay_w := _time_decay_weight self (story_age_hours analysis)) in *.
  revert data. induction Hr as [| [ticker relevance] entries Hrel Hr IH];
    intros data Hdata; cbn [fold_left]; [exact Hdata |].
  apply IH. cbn [snd] in Hrel.
  apply (set_values
           (fun td => averaged td /\ (1 <= td_story_count td)%nat));
    [exact Hdata |].
  assert (Htd : averaged (match Py.get data ticker with
                          | Some td => td
                          | None => new_ticker_data
                          end)).
  { destruct (Py.get data ticker) as [td |] eqn:E.
    - exact (proj1 (get_values
                      (fun td => averaged td /\ (1 <= td_story_count td)%nat)
                      _ _ _ Hdata E)).
    - unfold averaged. simpl. lra. }
  destruct Htd as [[H1 H2] [H3 H4]].
  assert (Hw : 0 <= decay_w * relevance * sentiment_confidence analysis).
  { apply Rmult_le_pos; [apply Rmult_le_pos |]; lra. }
  split; [| cbn [td_story_count]; lia].
  unfold averaged. cbn [weighted_score_sum weight_sum confidence_sum].
  repeat split; try nra.
Qed.

Lemma aggregate_averaged (story_analyses : list StoryAnalysis) :
  Forall story_in_range story_analyses ->
  Forall (fun kv => averaged (snd kv) /\ (1 <= td_story_count (snd kv))%nat)
         (aggregate self story_analyses).
Proof.
  unfold aggregate. intros H.
  assert (G : forall data,
    Forall (fun kv => averaged (snd kv) /\ (1 <= td_story_count (snd kv))%nat)
           data ->
    Forall (fun kv => averaged (snd kv) /\ (1 <= td_story_count (snd kv))%nat)
           (fold_left (fun data analysis => add_story self analysis data)
                      story_analyses data)).
  { induction H as [| s l Hs Hl IH]; intros data Hdata; cbn [fold_left];
      [exact Hdata |].
    apply IH. now apply add_story_averaged. }
  apply G. constructor.
Qed.

Lemma sentiment_agg_between (td : TickerData) :
  averaged td -> ~ weight_sum td < 0.01 ->
  lo <= sentiment_agg td <= hi.
Proof.
  intros [[H1 H2] _] Hw. unfold sentiment_agg.
  assert (Hp : 0 < weight_sum td) by lra.
  split.
  - apply Rmult_le_reg_r with (weight_sum td); [exact Hp |].
    unfold Rdiv. rewrite Rmult_assoc, Rinv_l, Rmult_1_r by lra. exact H1.
  - apply Rmult_le_reg_r with (weight_sum td); [exact Hp |].
    unfold Rdiv. rewrite Rmult_assoc, Rinv_l, Rmult_1_r by lra. exact H2.
Qed.

Lemma ticker_sentiment_confidence_range (td : TickerData) :
  averaged td -> (1 <= td_story_count td)%nat ->
  0 <= ticker_sentiment_confidence td <= 1.
Proof.
  intros [_ [_ Hc]] Hn. unfold ticker_sentiment_confidence. cbv zeta.
  assert (Hp : 0 < INR (td_story_count td)) by (apply lt_0_INR; lia).
  split; [| apply Rmin_l].
  apply Rmin_glb; [lra |].
  apply Rmult_le_pos.
  - apply Rmult_le_pos; [exact Hc |]. apply Rlt_le, Rinv_0_lt_compat, Hp.
  - apply Rmin_glb; [lra |]. unfold Rdiv. nra.
Qed.

End GenerateRanges.

Section GenerateRangesTheorem.

Import SignalGenerator.

Local Open Scope R_scope.

Lemma generate_in_ranges (self : SignalGenerator.t)
  (story_analyses : list StoryAnalysis)
  (technical_scores : Py.dict TechnicalSnapshot) (a b : Z)
  (r : Recommendation) :
  (a <= -10000)%Z -> (10000 <= b)%Z ->
  Forall
    (fun analysis =>
       IZR a / 10 ^ 4 <= sentiment_score analysis <= IZR b / 10 ^ 4
       /\ 0 <= sentiment_confidence analysis
       /\ Forall (fun e : string * R => 0 <= snd e) (tickers analysis))
    story_analyses ->
  Forall
    (fun e : string * TechnicalSnapshot =>
       -1 <= technical_score (snd e) <= 1
       /\ 0 <= technical_confidence (snd e) <= 1)
    technical_scores ->
  In r (generate self story_analyses technical_scores) ->
  IZR a / 10 ^ 4 <= rec_sentiment_score r <= IZR b / 10 ^ 4
  /\ IZR a / 10 ^ 4 <= aggregated_score r <= IZR b / 10 ^ 4
  /\ 0 <= rec_confidence r <= 1.
Proof.
  intros Ha Hb Hs Ht Hr.
  apply generate_recommend in Hr. destruct Hr as [ticker [td [Hin [Hw ->]]]].
  pose proof (aggregate_averaged self _ _ story_analyses Hs) as Hagg.
  rewrite List.Forall_forall in Hagg. destruct (Hagg _ Hin) as [Hav Hn].
  cbn [snd] in Hav, Hn.
  pose proof (sentiment_agg_between _ _ td Hav Hw) as Hsa.
  pose proof (ticker_sentiment_confidence_range _ _ td Hav Hn) as Hsc.
  assert (Hp : 10 ^ 4 = 10000) by (simpl; lra).
  assert (Hp3 : 10 ^ 3 = 1000) by (simpl; lra).
  apply IZR_le in Ha, Hb.
  cbn [rec_sentiment_score aggregated_score rec_confidence recommend].
  split; [| split].
  - split; apply (Rround_between a b _ 4); tauto.
  - assert (Hscore : IZR a / 10 ^ 4
                     <= agg_score td (Py.get technical_scores ticker)
                     <= IZR b / 10 ^ 4).
    { unfold agg_score.
      destruct (Py.get technical_scores ticker) as [ta |] eqn:E;
        [| exact Hsa].
      destruct (get_values
                  (fun ta => -1 <= technical_score ta <= 1
                             /\ 0 <= technical_confidence ta <= 1)
                  _ _ _ Ht E) as [Hts _].
      unfold SENTIMENT_WEIGHT, TECHNICAL_WEIGHT. rewrite Hp in *. lra. }
    split; apply (Rround_between a b _ 4); tauto.
  - assert (Hconf : 0 <= combined_confidence td (Py.get technical_scores ticker)
                    <= 1).
    { unfold combined_confidence.
      destruct (Py.get technical_scores ticker) as [ta |] eqn:E;
        [| exact Hsc].
      destruct (get_values
                  (fun ta => -1 <= technical_score ta <= 1
                             /\ 0 <= technical_confidence ta <= 1)
                  _ _ _ Ht E) as [_ Htc].
      unfold SENTIMENT_WEIGHT, TECHNICAL_WEIGHT. lra. }
    destruct (Rround_between 0 1000
                (combined_confidence td (Py.get technical_scores ticker)) 3)
      as [Hlo Hhi]; rewrite ?Hp3 in *; lra.
Qed.

(** Let the stories have sentiment scores within a range that is given
    in ten-thousandths and contains [-1, 1], confidences and relevances
    that are not negative, and let the technical snapshots have scores
    within [-1, 1] and confidences within [0, 1].  Then every
    recommendation of [generate] has its sentiment score and its
    blended score within that range and its confidence within
    [0, 1]. *)
Theorem generate_ranges (self : SignalGenerator.t)
  (story_analyses : list StoryAnalysis)
  (technical_scores : Py.dict TechnicalSnapshot) (a b : Z) :
  (a <= -10000)%Z -> (10000 <= b)%Z ->
  Forall
    (fun analysis =>
       IZR a / 10 ^ 4 <= sentiment_score analysis <= IZR b / 10 ^ 4
       /\ 0 <= sentiment_confidence analysis
       /\ Forall (fun e : string * R => 0 <= snd e) (tickers analysis))
    story_analyses ->
  Forall
    (fun e : string * TechnicalSnapshot =>
       -1 <= technical_score (snd e) <= 1
       /\ 0 <= technical_confidence (snd e) <= 1)
    technical_scores ->
  Forall
    (fun r =>
       IZR a / 10 ^ 4 <= rec_sentiment_score r <= IZR b / 10 ^ 4
       /\ IZR a / 10 ^ 4 <= aggregated_score r <= IZR b / 10 ^ 4
       /\ 0 <= rec_confidence r <= 1)
    (generate self story_analyses technical_scores).
Proof.
  intros Ha Hb Hs Ht. apply List.Forall_forall. intros r.
  now apply generate_in_ranges.
Qed.

Lemma generate_ranges_witness :
  Forall
    (fun r =>
       IZR (-14250) / 10 ^ 4 <= rec_sentiment_score r <= IZR 13500 / 10 ^ 4
       /\ IZR (-14250) / 10 ^ 4 <= aggregated_score r <= IZR 13500 / 10 ^ 4
       /\ 0 <= rec_confidence r <= 1)
    (generate default
       [ {| sentiment_score := 0.6; sentiment_confidence := 0.75;
            tickers := [("NVDA", 1); ("AMD", 0.5)]; story_age_hours := 2;
            story_snippet := "NVIDIA beats estimates" |};
         {| sentiment_score := -1.2; sentiment_confidence := 0.5;
            tickers := [("AMD", 1)]; story_age_hours := 9;
            story_snippet := "" |} ]
       []).
Proof.
  apply (generate_ranges default _ [] (-14250) 13500); [lia | lia | |].
  - repeat constructor; simpl; lra.
  - constructor.
Defined.

End GenerateRangesTheorem.

(** ** Engine: the recommendations returned *)

Section EngineOutput.

Import LocalTradingEngine.

Variable strptime : string -> string -> option Z.

Lemma slice_to_split {A} (n : Z) (l : list A) :
  exists rest, l = (slice_to n l ++ rest)%list.
Proof.
  unfold slice_to. destruct (n <? 0)%Z; eexists; symmetry; apply firstn_skipn.
Qed.

Lemma slice_to_in {A} (n : Z) (l : list A) (x : A) :
  In x (slice_to n l) -> In x l.
Proof.
  destruct (slice_to_split n l) as [rest E]. intros H.
  rewrite E. apply in_or_app. now left.
Qed.

Lemma slice_to_nodup {A B} (f : A -> B) (n : Z) (l : list A) :
  NoDup (map f l) -> NoDup (map f (slice_to n l)).
Proof.
  destruct (slice_to_split n l) as [rest E]. intros H.
  rewrite E, map_app in H. apply NoDup_app in H. tauto.
Qed.

Lemma slice_to_length {A} (n : Z) (l : list A) :
  (0 <= n)%Z -> (Z.of_nat (length (slice_to n l)) <= n)%Z.
Proof.
  intros Hn. unfold slice_to. destruct (Z.ltb_spec n 0); [lia |].
  pose proof (firstn_le_length (Z.to_nat n) l). lia.
Qed.

Lemma filter_nodup_map {A B} (f : A -> B) (p : A -> bool) (l : list A) :
  NoDup (map f l) -> NoDup (map f (List.filter p l)).
Proof.
  induction l as [| x l IH]; cbn [List.filter map]; [auto |].
  intros H. apply NoDup_cons in H. destruct H as [Hx Hl].
  destruct (p x); [| now apply IH].
  cbn [map]. apply NoDup_cons. split; [| now apply IH].
  intros Hin. apply Hx. apply list_elem_of_In in Hin.
  apply list_elem_of_In. apply in_map_iff in Hin.
  destruct Hin as [y [Ey Hy]]. apply List.filter_In in Hy.
  apply in_map_iff. exists y. tauto.
Qed.

(** The recommendations that [analyze_stories] returns name each ticker
    once at most, and only tickers that the price filter kept; there
    are no more of them than [tickers_detected]; with [filter_hold] none
    is a HOLD; and a [max_recommendations] that is not negative is the
    most that are returned. *)
Theorem recommendations_priced_and_capped (self : LocalTradingEngine.t)
  (stories : list Story) (now : option Z) (filter_hold : bool)
  (max_recommendations : Z) (env : Env) (w : World) :
  let start := reference_time now env w in
  let first := analyze_each strptime self (fst start) stories env (snd start) in
  let priced :=
    fst (ExchangePriceFilter.filter (price_filter self)
           (Py.keys (all_tickers (fst first))) env (snd first)) in
  let result :=
    fst (analyze_stories strptime self stories now
           filter_hold max_recommendations env w) in
  NoDup (map rec_symbol (er_recommendations result))
  /\ Forall
       (fun r =>
          Py.has_key priced (rec_symbol r) = true
          /\ (filter_hold = true -> action r <> HOLD))
       (er_recommendations result)
  /\ (length (er_recommendations result) <= tickers_detected result)%nat
  /\ ((0 <= max_recommendations)%Z ->
      (Z.of_nat (length (er_recommendations result))
       <= max_recommendations)%Z).
Proof.
  intros start first priced result.
  assert (Es : reference_time now env w = (fst start, snd start))
    by (unfold start; now destruct (reference_time now env w)).
  assert (Ef : analyze_each strptime self (fst start)
                 stories env (snd start) = (fst first, snd first))
    by (unfold first; now destruct (analyze_each _ _ _ _ _ _)).
  unfold result, analyze_stories, bind. rewrite Es, Ef.
  destruct (story_analyses (fst first)) as [| a l] eqn:Ea.
  - cbn. repeat split; try constructor. intros; lia.
  - unfold priced.
    destruct (ExchangePriceFilter.filter (price_filter self)
                (Py.keys (all_tickers (fst first))) env (snd first))
      as [valid w2] eqn:Ev.
    destruct (technical_pass (Py.keys valid) env w2) as [technical_scores w3].
    cbn [fst ret tickers_detected er_recommendations].
    match goal with
    | |- context [SignalGenerator.generate ?s ?an ?ts] =>
        set (raw := SignalGenerator.generate s an ts);
        pose proof (generate_symbols_nodup s an ts) as Hnd;
        assert (Hnamed : forall r, In r raw ->
                  Py.has_key valid (rec_symbol r) = true)
    end.
    { intros r Hr. apply generate_symbol_named in Hr.
      destruct Hr as [analysis [Han Hk]].
      apply List.filter_In in Han. destruct Han as [Han _].
      apply in_map_iff in Han. destruct Han as [a0 [<- _]].
      cbn [tickers] in Hk. unfold Py.keys in Hk.
      apply in_map_iff in Hk. destruct Hk as [e [<- He]].
      apply List.filter_In in He. tauto. }
    fold raw in Hnd.
    set (kept := if filter_hold
                 then List.filter (fun r => negb (is_action HOLD r)) raw
                 else raw).
    assert (Hkept : forall r, In r kept ->
              In r raw /\ (filter_hold = true -> action r <> HOLD)).
    { unfold kept. intros r Hr. destruct filter_hold.
      - apply List.filter_In in Hr. destruct Hr as [Hr Hh].
        split; [exact Hr |]. intros _ E. unfold is_action in Hh.
        rewrite E in Hh. discriminate.
      - split; [exact Hr | discriminate]. }
    assert (Hnk : NoDup (map rec_symbol kept)).
    { unfold kept. destruct filter_hold; [| exact Hnd].
      now apply filter_nodup_map. }
    assert (Hall : Forall
              (fun r => Py.has_key valid (rec_symbol r) = true
                        /\ (filter_hold = true -> action r <> HOLD))
              (slice_to max_recommendations kept)).
    { apply List.Forall_forall. intros r Hr. apply slice_to_in in Hr.
      destruct (Hkept r Hr) as [Hraw Hh]. split; [now apply Hnamed | exact Hh]. }
    pose proof (slice_to_nodup rec_symbol max_recommendations kept Hnk) as Hns.
    split; [exact Hns | split; [exact Hall | split]].
    + rewrite <- (length_map rec_symbol), <- (length_map fst valid).
      apply NoDup_incl_length; [now apply NoDup_ListNoDup |].
      intros s Hs. apply in_map_iff in Hs. destruct Hs as [r [<- Hr]].
      rewrite List.Forall_forall in Hall. apply (has_key_in_keys valid).
      exact (proj1 (Hall r Hr)).
    + apply slice_to_length.
Qed.

End EngineOutput.

(** ** Engine: the per-story trace *)

Section StoryTrace.

Import LocalTradingEngine.

Variable strptime : string -> string -> option Z.

(** What the trace shows of a story with the text [t]. *)
Let shown (self : LocalTradingEngine.t) (t : string)
  : string * Label * Q :=
  let sent := SentimentAnalyzer.analyze (sentiment self) t in
  (Py.take 120 t, SentimentAnalyzer.sentiment sent,
   SentimentAnalyzer.score sent).

Let has_text (t : string) : bool :=
  match t with EmptyString => false | _ => true end.

Lemma analyze_story_details (self : LocalTradingEngine.t) (now : Z)
  (story : Story) (acc : Step1) (env : Env) (w : World) :
  map (fun d => (snippet d, sd_sentiment d, sd_sentiment_score d))
      (details (fst (analyze_story strptime self now story acc env w)))
  = (map (fun d => (snippet d, sd_sentiment d, sd_sentiment_score d))
         (details acc)
     ++ map (shown self) (List.filter has_text [story_text story]))%list.
Proof.
  unfold analyze_story. cbv zeta.
  destruct (story_text story) as [| c t] eqn:Et.
  - cbn. now rewrite app_nil_r.
  - unfold bind.
    destruct (CompanyDetector.detect (companies self) (String c t) env w)
      as [detected w1].
    destruct (merge_tickers detected _); cbn [ret fst details];
      now rewrite map_app.
Qed.

Lemma analyze_each_details (self : LocalTradingEngine.t) (now : Z)
  (stories : list Story) (acc : Step1) (env : Env) (w : World) :
  map (fun d => (snippet d, sd_sentiment d, sd_sentiment_score d))
      (details (fst (foldM (analyze_story strptime self now) stories acc
                       env w)))
  = (map (fun d => (snippet d, sd_sentiment d, sd_sentiment_score d))
         (details acc)
     ++ map (shown self) (List.filter has_text (map story_text stories)))%list.
Proof.
  revert acc w. induction stories as [| story stories IH]; intros acc w.
  - cbn. now rewrite app_nil_r.
  - cbn [foldM]. unfold bind.
    pose proof (analyze_story_details self now story acc env w) as Hs.
    destruct (analyze_story strptime self now story acc env w) as [acc1 w1].
    cbn [fst] in Hs. rewrite IH, Hs. rewrite <- app_assoc. f_equal.
    rewrite <- map_app. f_equal.
    change (map story_text (story :: stories))
      with ([story_text story] ++ map story_text stories)%list.
    now rewrite List.filter_app.
Qed.

(** The trace [story_details] has one entry for every story that has a
    text, in the order of the stories and whether or not a ticker was
    found in it; the entry shows the first 120 characters of the text
    and the sentiment label and score of the whole text.
    [stories_analyzed] counts every story, with or without text. *)
Theorem story_details_follow_stories (self : LocalTradingEngine.t)
  (stories : list Story) (now : option Z) (filter_hold : bool)
  (max_recommendations : Z) (env : Env) (w : World) :
  let result :=
    fst (analyze_stories strptime self stories now
           filter_hold max_recommendations env w) in
  map (fun d => (snippet d, sd_sentiment d, sd_sentiment_score d))
      (story_details result)
  = map (fun t =>
           let sent := SentimentAnalyzer.analyze (sentiment self) t in
           (Py.take 120 t, SentimentAnalyzer.sentiment sent,
            SentimentAnalyzer.score sent))
        (List.filter
           (fun t => match t with EmptyString => false | _ => true end)
           (map story_text stories))
  /\ stories_analyzed result = length stories
  /\ success result = true.
Proof.
  intros result. unfold result, analyze_stories, bind.
  destruct (reference_time now env w) as [now' w0].
  pose proof (analyze_each_details self now' stories
                {| story_analyses := []; all_tickers := []; details := [] |}
                env w0) as Hd.
  unfold analyze_each.
  destruct (foldM _ stories _ env w0) as [step1 w1].
  cbn [fst details map app] in Hd.
  destruct (story_analyses step1) as [| a l].
  - cbn [ret fst story_details stories_analyzed success]. now split.
  - destruct (ExchangePriceFilter.filter _ _ env w1) as [valid w2].
    destruct (technical_pass (Py.keys valid) env w2) as [technical_scores w3].
    cbn [ret fst story_details stories_analyzed success]. now split.
Qed.

End StoryTrace.

(** ** Engine: the ranges of the recommendations returned *)

Section StoryRelevance.

Local Open Scope Q_scope.

Lemma relevance_scores_nonneg (hits : Py.dict Z) :
  Forall (fun kv : string * Z => (1 <= snd kv)%Z) hits ->
  Forall (fun kv : string * Q => 0 <= snd kv)
         (CompanyDetector.relevance_scores hits).
Proof.
  intros Hpos. unfold CompanyDetector.relevance_scores.
  destruct hits as [| kv0 hits0] eqn:E; [constructor |]. rewrite <- E in *.
  clear E. cbv zeta. apply List.Forall_forall. intros [k r] Hin.
  apply in_map_iff in Hin. destruct Hin as [[k' h] [[= <- <-] Hin]].
  rewrite List.Forall_forall in Hpos. pose proof (Hpos _ Hin) as Hh.
  cbn [fst snd] in *.
  set (m := Z.max (CompanyDetector.max_value hits) 1).
  assert (Hmq : 0 < inject_Z m).
  { change 0 with (inject_Z 0). rewrite <- Zlt_Qlt. unfold m. lia. }
  assert (Hq : 0 <= inject_Z h / inject_Z m).
  { apply Qle_shift_div_l; [exact Hmq |]. rewrite Qmult_0_l.
    change 0 with (inject_Z 0). rewrite <- Zle_Qle. lia. }
  assert (Ea : inject_Z 0 / inject_Z (10 ^ Z.of_nat 3) == 0) by reflexivity.
  assert (Eb : inject_Z 1000 / inject_Z (10 ^ Z.of_nat 3) == 1) by reflexivity.
  pose proof (round_between 0 1000 (Qmin 1 (inject_Z h / inject_Z m)) 3) as Hr.
  cbv zeta in Hr. rewrite Ea, Eb in Hr. apply Hr.
  - apply Q.min_glb; [discriminate | exact Hq].
  - apply Q.le_min_l.
Qed.

Lemma detect_nonneg (self : CompanyDetector.t) (text : string)
  (env : Env) (w : World) :
  Forall (fun kv : string * Q => 0 <= snd kv)
         (fst (CompanyDetector.detect self text env w)).
Proof.
  unfold CompanyDetector.detect, bind, ret.
  destruct (DynamicResolver.extract_and_resolve text env w) as [dyn w1].
  cbn [fst]. apply relevance_scores_nonneg, ticker_hits_positive.
Qed.

Lemma get_or_zero_nonneg (d : Py.dict Q) (k : string) :
  Forall (fun kv : string * Q => 0 <= snd kv) d ->
  0 <= match Py.get d k with Some r => r | None => 0 end.
Proof.
  intros Hd. destruct (Py.get d k) as [r |] eqn:E; [| discriminate].
  exact (get_values (fun r => 0 <= r) _ _ _ Hd E).
Qed.

Lemma map_themes_nonneg (self : ThemeMapper.t) (text : string) :
  Forall (fun kv : string * Q => 0 <= snd kv)
         (ThemeMapper.map_themes self text).
Proof.
  unfold ThemeMapper.map_themes. cbv zeta.
  apply (fold_left_values (fun r => 0 <= r)); [| constructor].
  intros d [keyword stock_list] Hd.
  destruct (Py.contains _ _); [| exact Hd].
  unfold ThemeMapper.add_basket.
  apply (fold_left_values (fun r => 0 <= r)); [| exact Hd].
  intros d' [ticker weight] Hd'.
  destruct (Py.mem _ _); [| exact Hd'].
  apply (set_values (fun r => 0 <= r)); [exact Hd' |].
  eapply Qle_trans; [apply (get_or_zero_nonneg d' ticker Hd') |].
  apply Q.le_max_l.
Qed.

Lemma merge_tickers_nonneg (detected themed : Py.dict Q) :
  Forall (fun kv : string * Q => 0 <= snd kv) detected ->
  Forall (fun kv : string * Q => 0 <= snd kv) themed ->
  Forall (fun kv : string * Q => 0 <= snd kv)
         (LocalTradingEngine.merge_tickers detected themed).
Proof.
  intros Hd Ht. unfold LocalTradingEngine.merge_tickers. cbv zeta.
  assert (Hc : Forall (fun kv : string * Q => 0 <= snd kv)
                 (fold_left (fun c (e : string * Q) => Py.set c (fst e) (snd e))
                            detected [])).
  { assert (G : forall c, Forall (fun kv : string * Q => 0 <= snd kv) c ->
      Forall (fun kv : string * Q => 0 <= snd kv)
        (fold_left (fun c (e : string * Q) => Py.set c (fst e) (snd e))
                   detected c)).
    { induction Hd as [| e l He Hl IH]; intros c Hc; cbn [fold_left];
        [exact Hc |].
      apply IH. now apply (set_values (fun r => 0 <= r)). }
    apply G. constructor. }
  revert Hc. generalize (fold_left
    (fun c (e : string * Q) => Py.set c (fst e) (snd e)) detected []).
  induction Ht as [| e l He Hl IH]; intros c Hc; cbn [fold_left];
    [exact Hc |].
  apply IH. apply (set_values (fun r => 0 <= r)); [exact Hc |].
  apply Q.min_glb; [discriminate |].
  pose proof (get_or_zero_nonneg c (fst e) Hc) as Ho.
  assert (0 <= snd e * (6 # 10))
    by (apply Qmult_le_0_compat; [exact He | discriminate]).
  Lqa.lra.
Qed.

End StoryRelevance.

Section TechnicalCache.

Lemma foldM_world_invariant {A B} (I : B -> World -> Prop)
  (body : A -> B -> M B) (l : list A) (env : Env) :
  (forall x acc w, In x l -> I acc w ->
     I (fst (body x acc env w)) (snd (body x acc env w))) ->
  forall acc w, I acc w ->
    I (fst (foldM body l acc env w)) (snd (foldM body l acc env w)).
Proof.
  induction l as [| x l IH]; intros Hbody acc w Hacc; cbn [foldM].
  - exact Hacc.
  - unfold bind.
    pose proof (Hbody x acc w (or_introl eq_refl) Hacc) as Hx.
    destruct (body x acc env w) as [acc' w']. apply IH; [| exact Hx].
    intros y acc0 w0 Hy. apply Hbody. now right.
Qed.

Lemma resolve_ta_cache (name : string) (env : Env) (w : World) :
  _ta_cache (snd (DynamicResolver.resolve name env w)) = _ta_cache w.
Proof.
  unfold DynamicResolver.resolve, DynamicResolver._lookup, bind, datetime_now,
    get_world, search_quotes, store_resolver, ret.
  cbn [_resolver_cache calls].
  destruct (_resolver_cache w !! _) as [[cached_ticker cached_at] |].
  - destruct (_ <? _)%Z; [reflexivity |].
    now destruct (yf_search env _ name).
  - now destruct (yf_search env _ name).
Qed.

Lemma extract_and_resolve_ta_cache (text : string) (env : Env) (w : World) :
  _ta_cache (snd (DynamicResolver.extract_and_resolve text env w))
  = _ta_cache w.
Proof.
  unfold DynamicResolver.extract_and_resolve.
  apply (foldM_world_invariant (fun _ w' => _ta_cache w' = _ta_cache w));
    [| reflexivity].
  intros [candidate relevance] acc w' _ Hw. unfold bind.
  pose proof (resolve_ta_cache candidate env w') as Hr.
  destruct (DynamicResolver.resolve candidate env w') as [ticker w2].
  cbn [snd] in Hr. destruct ticker as [[| c t] |]; cbn [ret snd]; congruence.
Qed.

Lemma detect_ta_cache (self : CompanyDetector.t) (text : string)
  (env : Env) (w : World) :
  _ta_cache (snd (CompanyDetector.detect self text env w)) = _ta_cache w.
Proof.
  unfold CompanyDetector.detect, bind, ret.
  pose proof (extract_and_resolve_ta_cache text env w) as H.
  now destruct (DynamicResolver.extract_and_resolve text env w).
Qed.

Lemma get_price_info_ta_cache (symbol : string) (env : Env) (w : World) :
  _ta_cache (snd (ExchangePriceFilter.get_price_info symbol env w))
  = _ta_cache w.
Proof.
  unfold ExchangePriceFilter.get_price_info, bind, datetime_now, get_world,
    ticker_info, store_price, ret.
  cbn [_price_cache calls].
  destruct (_price_cache w !! symbol) as [[price cached_at] |];
    [destruct (_ <? _)%Z; [reflexivity |] |];
    (destruct (yf_info env _ symbol) as [msg | cp rp ex]; [reflexivity |];
     now destruct (ExchangePriceFilter.price_or cp rp)).
Qed.

Lemma filter_ta_cache (self : ExchangePriceFilter.t) (tickers : list string)
  (env : Env) (w : World) :
  _ta_cache (snd (ExchangePriceFilter.filter self tickers env w))
  = _ta_cache w.
Proof.
  unfold ExchangePriceFilter.filter.
  apply (foldM_world_invariant (fun _ w' => _ta_cache w' = _ta_cache w));
    [| reflexivity].
  intros symbol acc w' _ Hw. unfold bind.
  pose proof (get_price_info_ta_cache symbol env w') as Hr.
  destruct (ExchangePriceFilter.get_price_info symbol env w') as [info w2].
  cbn [snd] in Hr. destruct info as [s r | s price e]; cbn [ret snd];
    [congruence |].
  destruct (Qlt_le_dec _ _); cbn [ret snd]; congruence.
Qed.

(** A lookup of the technical analyzer returns a result in range and
    keeps the cache in range. *)
Lemma ta_analyze_in_range (symbol : string) (env : Env) (w : World) :
  ta_cache_in_range w ->
  snapshot_in_range (fst (TechnicalAnalyzer.analyze symbol env w))
  /\ ta_cache_in_range (snd (TechnicalAnalyzer.analyze symbol env w)).
Proof.
  intros Hw. unfold TechnicalAnalyzer.analyze, bind, datetime_now, get_world.
  cbn [_ta_cache].
  assert (Hc : forall hist,
            snapshot_in_range (TechnicalAnalyzer.compute_history symbol hist)).
  { intros hist. pose proof (compute_history_ranges symbol hist) as H.
    unfold snapshot_in_range.
    destruct (TechnicalAnalyzer.compute_history symbol hist); [exact I |].
    destruct H as [_ [Hs [Hcf _]]]. split; [exact Hs | lra]. }
  assert (F : forall w0 now,
    ta_cache_in_range w0 ->
    snapshot_in_range
      (fst ((result <- TechnicalAnalyzer._compute symbol ;;
             _ <- store_ta symbol (result, now) ;; ret result) env w0))
    /\ ta_cache_in_range
         (snd ((result <- TechnicalAnalyzer._compute symbol ;;
                _ <- store_ta symbol (result, now) ;; ret result) env w0))).
  { intros w0 now H0.
    unfold TechnicalAnalyzer._compute, bind, ticker_history, store_ta, ret.
    cbn [fst snd]. split; [apply Hc |].
    unfold ta_cache_in_range. cbn [_ta_cache log_call].
    apply map_Forall_insert_2; [apply Hc | exact H0]. }
  destruct (_ta_cache w !! symbol) as [[cached cached_at] |] eqn:E.
  - destruct (_ <? _)%Z; [| now apply F].
    cbn [ret fst snd]. split; [| exact Hw].
    exact (Hw symbol (cached, cached_at) E).
  - now apply F.
Qed.

Lemma technical_pass_in_range (symbols : list string) (env : Env) (w : World) :
  ta_cache_in_range w ->
  Forall (fun e : string * TechnicalSnapshot =>
            (-1 <= technical_score (snd e) <= 1
             /\ 0 <= technical_confidence (snd e) <= 1)%R)
         (fst (LocalTradingEngine.technical_pass symbols env w)).
Proof.
  intros Hw. unfold LocalTradingEngine.technical_pass.
  apply (foldM_world_invariant
           (fun acc w' =>
              Forall (fun e : string * TechnicalSnapshot =>
                        (-1 <= technical_score (snd e) <= 1
                         /\ 0 <= technical_confidence (snd e) <= 1)%R) acc
              /\ ta_cache_in_range w')
           _ symbols env); [| split; [constructor | exact Hw]].
  intros symbol acc w' _ [Hacc Hw']. unfold bind.
  destruct (ta_analyze_in_range symbol env w' Hw') as [Hr Hc].
  destruct (TechnicalAnalyzer.analyze symbol env w') as [res w2].
  cbn [fst snd] in Hr, Hc.
  destruct res as [s | snap]; cbn [ret fst snd]; split; try assumption.
  apply (set_values
           (fun snap : TechnicalSnapshot =>
              (-1 <= technical_score snap <= 1
               /\ 0 <= technical_confidence snap <= 1)%R));
    assumption.
Qed.

End TechnicalCache.

Section EngineRanges.

Import LocalTradingEngine.

Variable strptime : string -> string -> option Z.

Lemma default_analysis_in_range (text : string) :
  in_score_range
    (SentimentAnalyzer.score
       (SentimentAnalyzer.analyze SentimentAnalyzer.default text))
  /\ (0 <= SentimentAnalyzer.confidence
             (SentimentAnalyzer.analyze SentimentAnalyzer.default text))%Q.
Proof.
  unfold SentimentAnalyzer.analyze.
  pose proof (default_scores_in_range text) as Hr.
  destruct (SentimentAnalyzer.scores_of SentimentAnalyzer.default text)
    as [| s0 l].
  - simpl. repeat split; discriminate.
  - cbv zeta. cbn [SentimentAnalyzer.score SentimentAnalyzer.confidence].
    split; [now apply mean_score_in_range |].
    eapply Qle_trans; [| apply clamped_confidence_range]. discriminate.
Qed.

Local Open Scope R_scope.

(** What [generate] needs of a story: a sentiment score within the
    range of the built-in lexicon, and a confidence and relevances that
    are not negative. *)
Let story_ok (analysis : StoryAnalysis) : Prop :=
  IZR (-14250) / 10 ^ 4 <= sentiment_score analysis <= IZR 13500 / 10 ^ 4
  /\ 0 <= sentiment_confidence analysis
  /\ Forall (fun e : string * R => 0 <= snd e) (tickers analysis).

Lemma analyze_story_ok (self : LocalTradingEngine.t) (now : Z)
  (story : Story) (acc : Step1) (env : Env) (w w0 : World) :
  sentiment self = SentimentAnalyzer.default ->
  Forall story_ok (story_analyses acc) /\ _ta_cache w = _ta_cache w0 ->
  Forall story_ok
    (story_analyses (fst (analyze_story strptime self now story acc env w)))
  /\ _ta_cache (snd (analyze_story strptime self now story acc env w))
     = _ta_cache w0.
Proof.
  intros Hdef [Hacc Hw]. unfold analyze_story. cbv zeta.
  destruct (story_text story) as [| c t]; [cbn [ret fst snd]; now split |].
  unfold bind.
  pose proof (detect_ta_cache (companies self) (String c t) env w) as Hta.
  pose proof (detect_nonneg (companies self) (String c t) env w) as Hdet.
  destruct (CompanyDetector.detect (companies self) (String c t) env w)
    as [detected w1].
  cbn [fst snd] in Hta, Hdet.
  pose proof (merge_tickers_nonneg detected
                (ThemeMapper.map_themes (themes self) (String c t)) Hdet
                (map_themes_nonneg _ _)) as Hm.
  destruct (merge_tickers detected _) as [| e combined] eqn:Ec;
    cbn [ret fst snd story_analyses]; (split; [| congruence]);
    [exact Hacc |].
  apply Forall_app. split; [exact Hacc |]. constructor; [| constructor].
  unfold story_ok.
  cbn [sentiment_score sentiment_confidence tickers]. rewrite Hdef.
  destruct (default_analysis_in_range (String c t)) as [[Hlo Hhi] Hc].
  apply Qreals.Qle_Rle in Hlo, Hhi, Hc.
  assert (Hp : 10 ^ 4 = 10000) by (simpl; lra).
  assert (E1 : Q2R (-1425 # 1000) = IZR (-14250) / 10 ^ 4)
    by (rewrite Hp; unfold Q2R; simpl; lra).
  assert (E2 : Q2R (135 # 100) = IZR 13500 / 10 ^ 4)
    by (rewrite Hp; unfold Q2R; simpl; lra).
  assert (E0 : Q2R 0 = 0) by (unfold Q2R; simpl; lra).
  rewrite E1 in Hlo. rewrite E2 in Hhi. rewrite E0 in Hc.
  split; [split; assumption | split; [exact Hc |]].
  apply List.Forall_forall. intros [k r] Hin. cbn [snd].
  apply in_map_iff in Hin. destruct Hin as [[k' q] [[= <- <-] Hin]].
  rewrite List.Forall_forall in Hm. pose proof (Hm _ Hin) as Hq.
  cbn [snd] in Hq. apply Qreals.Qle_Rle in Hq. now rewrite E0 in Hq.
Qed.

(** With the built-in lexicon, and a technical-analysis cache that
    holds only results in range (an empty one, or one filled by the
    analyzer itself), every recommendation that [analyze_stories]
    returns has a confidence within [0, 1] and a sentiment score and a
    blended score within [-1.425, 1.35], whatever the stories, the
    clock and the answers of the market-data library are. *)
Theorem analyze_stories_ranges (self : LocalTradingEngine.t)
  (stories : list Story) (now : option Z) (filter_hold : bool)
  (max_recommendations : Z) (env : Env) (w : World) :
  sentiment self = SentimentAnalyzer.default ->
  ta_cache_in_range w ->
  Forall
    (fun r =>
       0 <= rec_confidence r <= 1
       /\ -1.425 <= rec_sentiment_score r <= 1.35
       /\ -1.425 <= aggregated_score r <= 1.35)
    (er_recommendations
       (fst (analyze_stories strptime self stories now
               filter_hold max_recommendations env w))).
Proof.
  intros Hdef Hw. unfold analyze_stories, bind.
  assert (Hstart : ta_cache_in_range (snd (reference_time now env w))).
  { destruct now; exact Hw. }
  destruct (reference_time now env w) as [now' w0]. cbn [snd] in Hstart.
  unfold analyze_each.
  pose proof (foldM_world_invariant
                (fun acc w' =>
                   Forall story_ok (story_analyses acc)
                   /\ _ta_cache w' = _ta_cache w0)
                (analyze_story strptime self now') stories env
                (fun story acc w' _ H =>
                   analyze_story_ok self now' story acc env w' w0 Hdef H)
                {| story_analyses := []; all_tickers := []; details := [] |}
                w0 (conj (Forall_nil_2 _) eq_refl)) as Hstep.
  destruct (foldM _ stories _ env w0) as [step1 w1].
  cbn [fst snd] in Hstep. destruct Hstep as [Hok Hw1].
  destruct (story_analyses step1) as [| a l] eqn:Ea;
    [cbn; constructor |].
  rewrite <- Ea in *. clear Ea a l.
  pose proof (filter_ta_cache (price_filter self)
                (Py.keys (all_tickers step1)) env w1) as Hw2.
  destruct (ExchangePriceFilter.filter _ _ env w1) as [valid w2].
  cbn [snd] in Hw2.
  assert (Hc2 : ta_cache_in_range w2).
  { unfold ta_cache_in_range in *. now rewrite Hw2, Hw1. }
  pose proof (technical_pass_in_range (Py.keys valid) env w2 Hc2) as Hts.
  destruct (technical_pass (Py.keys valid) env w2) as [technical_scores w3].
  cbn [fst] in Hts. cbn [ret fst er_recommendations].
  apply List.Forall_forall. intros r Hr.
  apply slice_to_in in Hr.
  assert (Hgen : In r (SignalGenerator.generate (signals self)
            (List.filter
               (fun a => match tickers a with [] => false | _ => true end)
               (map (fun a =>
                       {| sentiment_score := sentiment_score a;
                          sentiment_confidence := sentiment_confidence a;
                          tickers :=
                            List.filter
                              (fun e : string * R => Py.has_key valid (fst e))
                              (tickers a);
                          story_age_hours := story_age_hours a;
                          story_snippet := story_snippet a |})
                    (story_analyses step1)))
            technical_scores)).
  { destruct filter_hold; [| exact Hr].
    apply List.filter_In in Hr. exact (proj1 Hr). }
  clear Hr.
  match type of Hgen with
  | In r (SignalGenerator.generate _ ?an _) => set (analyses := an) in *
  end.
  assert (Han : Forall story_ok analyses).
  { apply List.Forall_forall. intros an Han.
    apply List.filter_In in Han. destruct Han as [Han _].
    apply in_map_iff in Han. destruct Han as [a0 [<- Ha0]].
    rewrite List.Forall_forall in Hok.
    destruct (Hok _ Ha0) as [Hs [Hc Ht]].
    unfold story_ok. cbn [sentiment_score sentiment_confidence tickers].
    split; [exact Hs | split; [exact Hc |]].
    apply List.Forall_forall. intros e He. apply List.filter_In in He.
    rewrite List.Forall_forall in Ht. apply Ht. tauto. }
  destruct (generate_in_ranges (signals self) analyses technical_scores
              (-14250) 13500 r ltac:(lia) ltac:(lia) Han Hts Hgen)
    as [Hs [Hb Hcf]].
  assert (Hp : 10 ^ 4 = 10000) by (simpl; lra).
  rewrite Hp in Hs, Hb. repeat split; lra.
Qed.

End EngineRanges.

Lemma analyze_stories_ranges_witness :
  Forall
    (fun r =>
       (0 <= rec_confidence r <= 1
        /\ -1.425 <= rec_sentiment_score r <= 1.35
        /\ -1.425 <= aggregated_score r <= 1.35)%R)
    (er_recommendations
       (fst (LocalTradingEngine.analyze_stories (fun _ _ => None)
               two_company_engine
               [ {| text := ""; title := "NVIDIA soars";
                    summary := "Sundial plunges"; published := "" |} ]
               None true 8 quotes_env World0))).
Proof.
  apply analyze_stories_ranges; [reflexivity |].
  unfold ta_cache_in_range. cbn [_ta_cache World0]. apply map_Forall_empty.
Defined.

(** ** Engine: the calls to the market-data library *)

Section EngineCalls.

Import LocalTradingEngine.

Variable strptime : string -> string -> option Z.

(** A loop whose rounds make the call [c x] or none makes calls for
    some of its items, in their order. *)
Lemma foldM_calls {A B} (c : A -> Call) (body : A -> B -> M B)
  (l : list A) (env : Env) :
  (forall x acc w,
     calls (snd (body x acc env w)) = calls w
     \/ calls (snd (body x acc env w)) = (calls w ++ [c x])%list) ->
  forall acc w,
    exists made,
      calls (snd (foldM body l acc env w)) = (calls w ++ map c made)%list
      /\ sublist made l.
Proof.
  intros Hbody. induction l as [| x l IH]; intros acc w; cbn [foldM].
  - exists []. split; [now rewrite app_nil_r | constructor].
  - unfold bind. pose proof (Hbody x acc w) as Hx.
    destruct (body x acc env w) as [acc' w']. cbn [snd] in Hx.
    destruct (IH acc' w') as [made [Hm Hsub]].
    destruct Hx as [Hx | Hx]; rewrite Hx in Hm.
    + exists made. split; [exact Hm | now apply sublist_cons].
    + exists (x :: made). split; [| now apply sublist_skip].
      rewrite Hm, <- app_assoc. reflexivity.
Qed.

Lemma filter_calls (self : ExchangePriceFilter.t) (tickers : list string)
  (env : Env) (w : World) :
  exists quoted,
    calls (snd (ExchangePriceFilter.filter self tickers env w))
    = (calls w ++ map CallInfo quoted)%list
    /\ sublist quoted tickers.
Proof.
  unfold ExchangePriceFilter.filter. apply foldM_calls.
  intros symbol acc w'. unfold bind.
  pose proof (get_price_info_cache_step symbol env w') as Hc.
  destruct (ExchangePriceFilter.get_price_info symbol env w') as [info w2].
  assert (H : calls w2 = calls w' \/ calls w2 = (calls w' ++ [CallInfo symbol])%list).
  { destruct Hc as [[v [t [_ [_ [_ [H _]]]]]] | [_ [H _]]]; auto. }
  destruct info as [s r | s price e]; cbn [ret snd]; [exact H |].
  destruct (Qlt_le_dec _ _); exact H.
Qed.

Lemma technical_pass_calls (symbols : list string) (env : Env) (w : World) :
  exists charted,
    calls (snd (technical_pass symbols env w))
    = (calls w ++ map CallHistory charted)%list
    /\ sublist charted symbols.
Proof.
  unfold technical_pass. apply foldM_calls.
  intros symbol acc w'. unfold bind.
  pose proof (analyze_cache_step symbol env w') as Hc.
  destruct (TechnicalAnalyzer.analyze symbol env w') as [res w2].
  assert (H : calls w2 = calls w'
              \/ calls w2 = (calls w' ++ [CallHistory symbol])%list).
  { destruct Hc as [[v [t [_ [_ [_ [H _]]]]]] | [_ [H _]]]; auto. }
  destruct res; exact H.
Qed.

Lemma detect_calls (self : CompanyDetector.t) (text : string) (env : Env)
  (w : World) :
  exists searched,
    calls (snd (CompanyDetector.detect self text env w))
    = (calls w ++ map CallSearch searched)%list
    /\ sublist searched (Py.keys (DynamicResolver.candidates text)).
Proof.
  destruct (resolve_all_calls (DynamicResolver.candidates text) [] env w)
    as [searched [Hs Hsub]].
  exists searched. split; [| exact Hsub].
  unfold CompanyDetector.detect, bind, ret,
    DynamicResolver.extract_and_resolve.
  cbv zeta in Hs.
  match type of Hs with
  | calls (snd ?x) = _ => destruct x as [dyn w1]
  end.
  exact Hs.
Qed.

Lemma analyze_story_calls (self : LocalTradingEngine.t) (now : Z)
  (story : Story) (acc : Step1) (env : Env) (w : World) :
  exists searched,
    calls (snd (analyze_story strptime self now story acc env w))
    = (calls w ++ map CallSearch searched)%list
    /\ sublist searched
         (Py.keys (DynamicResolver.candidates (story_text story))).
Proof.
  unfold analyze_story. cbv zeta.
  destruct (story_text story) as [| c t].
  - exists []. split; [now rewrite app_nil_r | apply sublist_nil_l].
  - unfold bind.
    destruct (detect_calls (companies self) (String c t) env w)
      as [searched [Hs Hsub]].
    destruct (CompanyDetector.detect (companies self) (String c t) env w)
      as [detected w1].
    cbn [snd] in Hs. exists searched. split; [| exact Hsub].
    cbn [ret]. destruct (merge_tickers _ _); exact Hs.
Qed.

Lemma analyze_each_calls (self : LocalTradingEngine.t) (now : Z)
  (stories : list Story) (acc : Step1) (env : Env) (w : World) :
  exists searched,
    calls (snd (foldM (analyze_story strptime self now) stories acc env w))
    = (calls w ++ map CallSearch searched)%list
    /\ sublist searched
         (flat_map
            (fun story =>
               Py.keys (DynamicResolver.candidates (story_text story)))
            stories).
Proof.
  revert acc w. induction stories as [| story stories IH]; intros acc w;
    cbn [foldM flat_map].
  - exists []. split; [now rewrite app_nil_r | constructor].
  - unfold bind.
    destruct (analyze_story_calls self now story acc env w) as [s1 [H1 Hs1]].
    destruct (analyze_story strptime self now story acc env w) as [acc1 w1].
    cbn [snd] in H1.
    destruct (IH acc1 w1) as [s2 [H2 Hs2]].
    exists (s1 ++ s2)%list. split; [| now apply sublist_app].
    rewrite H2, H1, map_app, <- app_assoc. reflexivity.
Qed.

(** [analyze_stories] calls the market-data library in three phases:
    symbol searches, for capitalized candidates of the story texts and
    at most one per candidate occurrence; then quotes, at most one for
    each ticker collected from the stories; then price histories, at
    most one for each ticker that passed the price filter.  When no
    story has a ticker no quote and no history is asked for. *)
Theorem analyze_stories_calls (self : LocalTradingEngine.t)
  (stories : list Story) (now : option Z) (filter_hold : bool)
  (max_recommendations : Z) (env : Env) (w : World) :
  let start := reference_time now env w in
  let first := analyze_each strptime self (fst start) stories env (snd start) in
  let priced :=
    fst (ExchangePriceFilter.filter (price_filter self)
           (Py.keys (all_tickers (fst first))) env (snd first)) in
  let out :=
    analyze_stories strptime self stories now
      filter_hold max_recommendations env w in
  exists searched quoted charted,
    calls (snd out)
    = (calls w ++ map CallSearch searched ++ map CallInfo quoted
       ++ map CallHistory charted)%list
    /\ sublist searched
         (flat_map
            (fun story =>
               Py.keys (DynamicResolver.candidates (story_text story)))
            stories)
    /\ sublist quoted (Py.keys (all_tickers (fst first)))
    /\ sublist charted (Py.keys priced)
    /\ (story_analyses (fst first) = [] -> quoted = [] /\ charted = []).
Proof.
  intros start first priced out.
  assert (Hstart : calls (snd start) = calls w).
  { unfold start. now destruct now. }
  assert (Es : reference_time now env w = (fst start, snd start))
    by (unfold start; now destruct (reference_time now env w)).
  assert (Ef : analyze_each strptime self (fst start)
                 stories env (snd start) = (fst first, snd first))
    by (unfold first; now destruct (analyze_each _ _ _ _ _ _)).
  destruct (analyze_each_calls self (fst start) stories
              {| story_analyses := []; all_tickers := []; details := [] |}
              env (snd start)) as [searched [H1 Hs1]].
  fold (analyze_each strptime self (fst start) stories) in H1.
  fold first in H1. rewrite Hstart in H1.
  unfold out, analyze_stories, bind. rewrite Es, Ef.
  destruct (story_analyses (fst first)) as [| a l] eqn:Ea.
  - exists searched, [], []. cbn [ret snd map]. rewrite !app_nil_r.
    repeat split; try constructor; try apply sublist_nil_l; assumption.
  - unfold priced.
    destruct (filter_calls (price_filter self)
                (Py.keys (all_tickers (fst first))) env (snd first))
      as [quoted [H2 Hs2]].
    destruct (ExchangePriceFilter.filter (price_filter self)
                (Py.keys (all_tickers (fst first))) env (snd first))
      as [valid w2].
    cbn [fst snd] in *.
    destruct (technical_pass_calls (Py.keys valid) env w2)
      as [charted [H3 Hs3]].
    destruct (technical_pass (Py.keys valid) env w2) as [technical_scores w3].
    cbn [ret snd] in *.
    exists searched, quoted, charted.
    split; [| repeat split; try assumption; discriminate].
    rewrite H3, H2, H1, <- !app_assoc. reflexivity.
Qed.

End EngineCalls.

(** ** Paper trading: what a trade does to the portfolio *)

Section PaperTrades.

Import App.

Local Open Scope Q_scope.

Variable eastern : Z -> nat * Z.

Lemma del_get_eq {A} (d : Py.dict A) (k : string) : Py.get (del d k) k = None.
Proof.
  unfold del. induction d as [| [k' v] d IH]; cbn [List.filter fst];
    [reflexivity |].
  destruct (String.eqb k' k) eqn:E; cbn [negb]; [exact IH |].
  cbn [Py.get]. rewrite String.eqb_sym, E. exact IH.
Qed.

Lemma del_get_ne {A} (d : Py.dict A) (k k' : string) :
  k <> k' -> Py.get (del d k) k' = Py.get d k'.
Proof.
  intros Hne. unfold del.
  induction d as [| [k0 v] d IH]; cbn [List.filter fst]; [reflexivity |].
  destruct (String.eqb k0 k) eqn:E; cbn [negb Py.get].
  - apply String.eqb_eq in E. subst k0.
    apply not_eq_sym in Hne. apply String.eqb_neq in Hne. now rewrite Hne.
  - destruct (String.eqb k' k0); [reflexivity | exact IH].
Qed.

Lemma record_trade_result (p : Portfolio) (symbol : string) (a : Action)
  (n amount_dollars current_price : Q) (reason : string) (confidence : R)
  (env : Env) (w : World) :
  exists trade,
    fst (record_trade p symbol a n amount_dollars current_price reason
           confidence env w)
    = (TradeOk trade,
       {| cash := cash p; positions := positions p;
          trade_history := trade_history p ++ [trade] |})
    /\ tr_symbol trade = symbol /\ tr_action trade = a
    /\ tr_shares trade = n /\ tr_price trade = current_price
    /\ tr_amount trade = amount_dollars.
Proof.
  unfold record_trade, bind, datetime_now, save_portfolio, ret.
  destruct (calculate_portfolio_value p env _) as [value w1].
  cbn [fst]. eexists. split; [reflexivity |]. cbn. auto.
Qed.

Lemma is_market_open_calls (env : Env) (w : World) :
  calls (snd (is_market_open eastern env w)) = calls w.
Proof.
  unfold is_market_open, bind, datetime_now.
  destruct (eastern _) as [weekday time].
  destruct (_ <=? _)%nat; [reflexivity |].
  destruct (_ <? _)%Z; [reflexivity |]. now destruct (_ <? _)%Z.
Qed.

(** A BUY.  When it succeeds, the amount spent is the amount asked
    for or, if that is less, the cash at hand, and at least one dollar;
    the cash goes down by the amount and is not negative; the shares
    bought are the amount divided by the trade price; a new position
    holds these shares at the trade price, an old one grows by them and
    its average cost becomes the cost of the old and the new shares
    divided by their number; no other position changes, and the trade
    is the last entry of the history.  When it fails, the portfolio is
    the one before and no quote was asked for.  When an exception
    leaves it (a price of 0, or a position that the purchase brings to
    0 shares), cash and history are the ones before. *)
Theorem buy_spends_cash_on_shares (p : Portfolio) (symbol : string)
  (amount_dollars current_price : Q) (reason : string) (confidence : R)
  (env : Env) (w : World) :
  let out :=
    execute_paper_trade eastern p symbol BUY amount_dollars current_price
      reason confidence env w in
  let p' := snd (fst out) in
  match fst (fst out) with
  | TradeOk trade =>
      tr_amount trade == Qmin amount_dollars (cash p)
      /\ 1 <= tr_amount trade
      /\ tr_shares trade == tr_amount trade / current_price
      /\ cash p' == cash p - tr_amount trade
      /\ 0 <= cash p'
      /\ (exists pos',
            Py.get (positions p') symbol = Some pos'
            /\ match Py.get (positions p) symbol with
               | Some pos =>
                   shares pos' == shares pos + tr_shares trade
                   /\ avg_cost pos'
                      == (shares pos * avg_cost pos
                          + tr_shares trade * current_price)
                         / shares pos'
               | None =>
                   shares pos' == tr_shares trade
                   /\ avg_cost pos' == current_price
               end)
      /\ (forall s, s <> symbol ->
            Py.get (positions p') s = Py.get (positions p) s)
      /\ trade_history p' = (trade_history p ++ [trade])%list
  | TradeFail _ => p' = p /\ calls (snd out) = calls w
  | TradeRaises _ =>
      cash p' = cash p /\ trade_history p' = trade_history p
  end.
Proof.
  intros out p'. subst p'.
  assert (E : out = execute_paper_trade eastern p symbol BUY amount_dollars
                      current_price reason confidence env w) by reflexivity.
  clearbody out. unfold execute_paper_trade, bind in E.
  pose proof (is_market_open_calls env w) as Hc.
  destruct (is_market_open eastern env w) as [[market_open status] w1].
  cbn [snd] in Hc.
  destruct market_open; cbn [negb] in E; [| subst out; cbn; auto].
  set (amount := if Qlt_le_dec (cash p) amount_dollars then cash p
                 else amount_dollars) in *.
  assert (Hmin : amount == Qmin amount_dollars (cash p)).
  { unfold amount. destruct (Qlt_le_dec (cash p) amount_dollars) as [H | H].
    - symmetry. apply Q.min_r. now apply Qlt_le_weak.
    - symmetry. now apply Q.min_l. }
  assert (Hle : amount <= cash p).
  { rewrite Hmin. apply Q.le_min_r. }
  destruct (Qlt_le_dec amount 1) as [Hlow | Hone]; [subst out; cbn; auto |].
  destruct (Qeq_bool current_price 0) eqn:Ep; [subst out; cbn; auto |].
  destruct (Py.get (positions p) symbol) as [pos |] eqn:Eg.
  - destruct (Qeq_bool (shares pos + amount / current_price) 0) eqn:Et;
      [subst out; cbn; auto |].
    match type of E with
    | _ = record_trade ?q ?s ?a ?n ?am ?pr ?re ?co ?e ?ww =>
        destruct (record_trade_result q s a n am pr re co e ww)
          as [trade [Er [_ [_ [Hn [_ Ha]]]]]]; rewrite <- E in Er
    end.
    rewrite Er. cbn [fst snd cash positions trade_history]. rewrite Hn, Ha.
    repeat split; try assumption; try reflexivity.
    + Lqa.lra.
    + eexists. split; [apply get_set_eq |]. cbn [shares avg_cost].
      split; reflexivity.
    + intros s Hs. apply get_set_ne. now apply not_eq_sym.
  - match type of E with
    | _ = record_trade ?q ?s ?a ?n ?am ?pr ?re ?co ?e ?ww =>
        destruct (record_trade_result q s a n am pr re co e ww)
          as [trade [Er [_ [_ [Hn [_ Ha]]]]]]; rewrite <- E in Er
    end.
    rewrite Er. cbn [fst snd cash positions trade_history]. rewrite Hn, Ha.
    repeat split; try assumption; try reflexivity.
    + Lqa.lra.
    + eexists. split; [apply get_set_eq |]. cbn [shares avg_cost].
      split; reflexivity.
    + intros s Hs. apply get_set_ne. now apply not_eq_sym.
Qed.

(** A SELL.  When it succeeds there was a position with shares; the
    shares sold are the amount divided by the trade price, or all
    shares held if that is less, so never more than are held; the cash
    goes up by the shares sold times the trade price; the position
    keeps the remaining shares and its average cost, and is removed
    when less than 0.0001 shares remain; no other position changes.
    For an amount that is not negative and a positive price, the shares
    sold are not negative and the cash does not fall.  When it fails,
    the portfolio is the one before and no quote was asked for; an
    exception (a price of 0) leaves the portfolio as it was. *)
Theorem sell_pays_for_shares_held (p : Portfolio) (symbol : string)
  (amount_dollars current_price : Q) (reason : string) (confidence : R)
  (env : Env) (w : World) :
  let out :=
    execute_paper_trade eastern p symbol SELL amount_dollars current_price
      reason confidence env w in
  let p' := snd (fst out) in
  match fst (fst out) with
  | TradeOk trade =>
      exists pos,
        Py.get (positions p) symbol = Some pos
        /\ 0 < shares pos
        /\ tr_shares trade
           == Qmin (amount_dollars / current_price) (shares pos)
        /\ cash p' == cash p + tr_shares trade * current_price
        /\ match Py.get (positions p') symbol with
           | Some pos' =>
               shares pos' == shares pos - tr_shares trade
               /\ 1 # 10000 <= shares pos'
               /\ avg_cost pos' = avg_cost pos
           | None => shares pos - tr_shares trade < 1 # 10000
           end
        /\ (forall s, s <> symbol ->
              Py.get (positions p') s = Py.get (positions p) s)
        /\ trade_history p' = (trade_history p ++ [trade])%list
        /\ tr_shares trade <= shares pos
        /\ (0 <= amount_dollars -> 0 < current_price ->
            0 <= tr_shares trade /\ cash p <= cash p')
  | TradeFail _ => p' = p /\ calls (snd out) = calls w
  | TradeRaises _ => p' = p
  end.
Proof.
  intros out p'. subst p'.
  assert (E : out = execute_paper_trade eastern p symbol SELL amount_dollars
                      current_price reason confidence env w) by reflexivity.
  clearbody out. unfold execute_paper_trade, bind in E.
  pose proof (is_market_open_calls env w) as Hc.
  destruct (is_market_open eastern env w) as [[market_open status] w1].
  cbn [snd] in Hc.
  destruct market_open; cbn [negb] in E; [| subst out; cbn; auto].
  destruct (Py.get (positions p) symbol) as [pos |] eqn:Eg;
    [| subst out; cbn; auto].
  destruct (Qlt_le_dec 0 (shares pos)) as [Hpos | Hnone];
    [| subst out; cbn; auto].
  destruct (Qeq_bool current_price 0) eqn:Ep; [subst out; cbn; auto |].
  apply Qeq_bool_neq in Ep.
  set (sold := Qmin (amount_dollars / current_price) (shares pos)) in *.
  match type of E with
  | _ = record_trade ?q ?s ?a ?n ?am ?pr ?re ?co ?e ?ww =>
      destruct (record_trade_result q s a n am pr re co e ww)
        as [trade [Er [_ [_ [Hn [_ Ha]]]]]]; rewrite <- E in Er
  end.
  rewrite Er. cbn [fst snd cash positions trade_history]. rewrite Hn.
  exists pos. split; [reflexivity |]. split; [exact Hpos |].
  split; [reflexivity |]. split; [reflexivity |].
  split; [| split; [| split; [| split]]].
  - destruct (Qlt_le_dec (shares pos - sold) (1 # 10000)) as [Hl | Hl].
    + now rewrite del_get_eq.
    + rewrite get_set_eq. cbn [shares avg_cost].
      split; [reflexivity | split; [exact Hl | reflexivity]].
  - intros s Hs. destruct (Qlt_le_dec _ _).
    + rewrite del_get_ne by (now apply not_eq_sym).
      apply get_set_ne. now apply not_eq_sym.
    + apply get_set_ne. now apply not_eq_sym.
  - reflexivity.
  - unfold sold. apply Q.le_min_r.
  - intros Hamount Hprice.
    assert (Hq : 0 <= amount_dollars / current_price).
    { apply Qle_shift_div_l; [exact Hprice | Lqa.lra]. }
    assert (H0 : 0 <= sold).
    { unfold sold. apply Q.min_glb; [exact Hq | Lqa.lra]. }
    split; [exact H0 |].
    assert (0 <= sold * current_price)
      by (apply Qmult_le_0_compat; Lqa.lra).
    Lqa.lra.
Qed.

(** The market counts as open from Monday to Friday between 9:30 and
    16:00 Eastern time, both ends included, and on no other condition.
    While it is closed [execute_paper_trade] refuses every trade: the
    portfolio is the one before and no quote is asked for. *)
Theorem closed_market_refuses_trades (p : Portfolio) (symbol : string)
  (a : Action) (amount_dollars current_price : Q) (reason : string)
  (confidence : R) (env : Env) (w : World) :
  let market := fst (is_market_open eastern env w) in
  let weekday := fst (eastern (clock env (now_reads w))) in
  let time := snd (eastern (clock env (now_reads w))) in
  let out :=
    execute_paper_trade eastern p symbol a amount_dollars current_price
      reason confidence env w in
  (fst market = true
   <-> (weekday < 5)%nat
       /\ (minutes (9 * 60 + 30) <= time <= minutes (16 * 60))%Z)
  /\ (fst market = false ->
      fst out = (TradeFail ("Cannot trade: " ++ snd market), p)
      /\ calls (snd out) = calls w).
Proof.
  intros market weekday time out. split.
  - unfold market, is_market_open, bind, datetime_now.
    fold weekday time.
    replace (eastern (clock env (now_reads w))) with (weekday, time)
      by (unfold weekday, time; now destruct (eastern _)).
    destruct (Nat.leb_spec 5 weekday) as [Hw | Hw].
    + cbn. split; [discriminate | lia].
    + destruct (Z.ltb_spec time (minutes (9 * 60 + 30))) as [Ho | Ho].
      * cbn. split; [discriminate | lia].
      * destruct (Z.ltb_spec (minutes (16 * 60)) time) as [Hc | Hc]; cbn.
        -- split; [discriminate | lia].
        -- split; [intros _; lia | reflexivity].
  - intros Hclosed. unfold out, execute_paper_trade, bind.
    pose proof (is_market_open_calls env w) as Hc. unfold market in *.
    destruct (is_market_open eastern env w) as [[market_open status] w1].
    cbn [fst snd] in *. subst market_open. cbn. auto.
Qed.

Lemma execute_paper_trade_history (p : Portfolio) (symbol : string)
  (a : Action) (amount_dollars current_price : Q) (reason : string)
  (confidence : R) (env : Env) (w : World) :
  let out :=
    execute_paper_trade eastern p symbol a amount_dollars current_price
      reason confidence env w in
  match fst (fst out) with
  | TradeOk trade =>
      trade_history (snd (fst out)) = (trade_history p ++ [trade])%list
  | _ => trade_history (snd (fst out)) = trade_history p
  end.
Proof.
  intros out.
  assert (E : out = execute_paper_trade eastern p symbol a amount_dollars
                      current_price reason confidence env w) by reflexivity.
  clearbody out. unfold execute_paper_trade in E. unfold bind at 1 in E.
  destruct (is_market_open eastern env w) as [[market_open status] w1].
  destruct market_open; cbn [negb] in E; [| subst out; reflexivity].
  assert (Hrec : forall q n am,
            trade_history q = trade_history p ->
            out = record_trade q symbol a n am current_price reason
                    confidence env w1 ->
            match fst (fst out) with
            | TradeOk trade =>
                trade_history (snd (fst out))
                = (trade_history p ++ [trade])%list
            | _ => trade_history (snd (fst out)) = trade_history p
            end).
  { intros q n am Hq Eo.
    destruct (record_trade_result q symbol a n am current_price reason
                confidence env w1) as [trade [Er _]].
    rewrite <- Eo in Er. rewrite Er. cbn [fst snd trade_history].
    now rewrite Hq. }
  destruct a.
  - destruct (Qlt_le_dec _ 1); [subst out; reflexivity |].
    destruct (Qeq_bool current_price 0); [subst out; reflexivity |].
    destruct (Py.get (positions p) symbol) as [pos |].
    + destruct (Qeq_bool _ 0); [subst out; reflexivity |].
      eapply Hrec; [| exact E]. reflexivity.
    + eapply Hrec; [| exact E]. reflexivity.
  - destruct (Py.get (positions p) symbol) as [pos |];
      [| subst out; reflexivity].
    destruct (Qlt_le_dec 0 (shares pos)); [| subst out; reflexivity].
    destruct (Qeq_bool current_price 0); [subst out; reflexivity |].
    eapply Hrec; [| exact E]. reflexivity.
  - subst out. reflexivity.
Qed.

Lemma foldM_skip {A B} (keep : A -> bool) (body : A -> B -> M B)
  (l : list A) (acc : B) (env : Env) (w : World) :
  (forall x acc w, keep x = false -> body x acc env w = (acc, w)) ->
  foldM body l acc env w = foldM body (List.filter keep l) acc env w.
Proof.
  intros Hskip. revert acc w.
  induction l as [| x l IH]; intros acc w; cbn [foldM List.filter];
    [reflexivity |].
  destruct (keep x) eqn:E; cbn [foldM]; unfold bind.
  - destruct (body x acc env w) as [acc' w']. apply IH.
  - rewrite (Hskip x acc w E). apply IH.
Qed.

(** What the loop of [auto_execute_trades] keeps true. *)
Lemma auto_step_invariant (s : Session) (recommendations : list Recommendation)
  (rec : Recommendation) (acc : Auto) (env : Env) (w : World) :
  let kept (acc : Auto) :=
    Forall
      (fun t =>
         exists rec,
           In rec recommendations
           /\ (0.6 <= rec_confidence rec)%R
           /\ et_symbol t = rec_symbol rec
           /\ et_action t = action rec
           /\ action rec <> HOLD)
      (executed_trades acc)
    /\ length (trade_history (portfolio (session acc)))
       = (length (trade_history (portfolio s))
          + length (executed_trades acc))%nat
    /\ length (recommendation_history (session acc))
       = (length (recommendation_history s)
          + length (executed_trades acc))%nat in
  In rec recommendations ->
  kept acc -> kept (fst (auto_step eastern rec acc env w)).
Proof.
  intros kept Hin Hacc. unfold auto_step.
  destruct (raised acc); [exact Hacc |].
  destruct (Rlt_dec (rec_confidence rec) 0.6) as [Hlow | Hconf];
    [exact Hacc |].
  apply Rnot_lt_le in Hconf.
  unfold bind at 1.
  destruct (get_stock_price (rec_symbol rec) env w) as [[price |] w1];
    [| exact Hacc].
  assert (Htrade : forall amount,
            action rec <> HOLD ->
            kept (fst (auto_trade eastern rec amount price acc env w1))).
  { intros amount Hact. unfold auto_trade, bind at 1.
    pose proof (execute_paper_trade_history
                  (portfolio (session acc)) (rec_symbol rec) (action rec)
                  amount price ("[AUTO] " ++ reason rec) (rec_confidence rec)
                  env w1) as Hh.
    cbv zeta in Hh.
    destruct (execute_paper_trade eastern _ _ _ _ _ _ _ env w1)
      as [[result p'] w2].
    cbn [fst snd] in Hh. destruct Hacc as [Hex [Ht Hr]].
    destruct result as [e | trade | e]; unfold bind, datetime_now, ret;
      cbn [fst session executed_trades portfolio recommendation_history];
      unfold kept;
      cbn [fst session executed_trades portfolio recommendation_history].
    - rewrite Hh. auto.
    - rewrite Hh, !length_app. cbn [length]. repeat split; try lia.
      apply Forall_app. split; [exact Hex |]. constructor; [| constructor].
      exists rec. cbn. auto.
    - rewrite Hh. auto. }
  destruct (action rec) eqn:Ea.
  - destruct (Qlt_le_dec _ 10); [exact Hacc |]. now apply Htrade.
  - destruct (Py.get _ _) as [pos |]; [| exact Hacc]. now apply Htrade.
  - exact Hacc.
Qed.

(** [auto_execute_trades] acts on no recommendation of confidence
    below 0.6: dropping these from the list changes neither what it
    returns nor the session nor the calls made.  Every trade executed
    is for a recommendation of the list of confidence at least 0.6 that
    is a BUY or a SELL, with its symbol and action; and the trade
    history and the recommendation history each grow by one entry per
    trade executed. *)
Theorem auto_execute_needs_confidence (s : Session)
  (recommendations : list Recommendation) (env : Env) (w : World) :
  let out := auto_execute_trades eastern s recommendations env w in
  out
  = auto_execute_trades eastern s
      (List.filter
         (fun rec => if Rlt_dec (rec_confidence rec) 0.6 then false else true)
         recommendations)
      env w
  /\ Forall
       (fun t =>
          exists rec,
            In rec recommendations
            /\ (0.6 <= rec_confidence rec)%R
            /\ et_symbol t = rec_symbol rec
            /\ et_action t = action rec
            /\ action rec <> HOLD)
       (executed_trades (fst out))
  /\ length (trade_history (portfolio (session (fst out))))
     = (length (trade_history (portfolio s))
        + length (executed_trades (fst out)))%nat
  /\ length (recommendation_history (session (fst out)))
     = (length (recommendation_history s)
        + length (executed_trades (fst out)))%nat.
Proof.
  intros out. split.
  - unfold out, auto_execute_trades, bind.
    rewrite (foldM_skip
               (fun rec =>
                  if Rlt_dec (rec_confidence rec) 0.6 then false else true)
               (auto_step eastern) recommendations); [reflexivity |].
    intros rec acc w' Hlow. unfold auto_step.
    destruct (raised acc); [reflexivity |].
    destruct (Rlt_dec (rec_confidence rec) 0.6); [reflexivity | discriminate].
  - unfold out, auto_execute_trades, bind.
    pose proof (foldM_invariant _ (auto_step eastern) recommendations
                  (fun rec acc env0 w0 Hin H =>
                     auto_step_invariant s recommendations rec acc env0 w0
                       Hin H)
                  {| session := s; executed_trades := []; raised := None |}
                  env w) as Hinv.
    cbv beta in Hinv.
    destruct (foldM (auto_step eastern) recommendations _ env w)
      as [acc w1].
    cbn [fst] in Hinv.
    match goal with
    | |- context [executed_trades (fst ?t)] =>
        assert (Hend : fst t = acc)
          by (destruct (raised acc), (executed_trades acc); reflexivity)
    end.
    rewrite Hend. apply Hinv. cbn. repeat split; try constructor; lia.
Qed.

End PaperTrades.

(** ** Signal generator: a BUY before a more confident SELL *)

Section BuyBeforeSell.

Import SignalGenerator.

Local Open Scope R_scope.


End BuyBeforeSell.
